(* ===== verification/_CoqProject ===== *)
-Q . S2P
Prelude.v
QExact.v
Actor.v
Random.v
Binary.v
GL.v
Motion.v
Formation.v
Render.v
Enemies.v
Runs.v
Game.v
Bindings.v
Screen.v
