(* ===== verification/Prelude.v ===== *)
(** * A verification of the asteroid / enemy formation of Atividade1

    ** The program

    The repository holds one subsystem of two small arcade games written
    against the abcg framework (OpenGL 3.3, glm), in two copies:

    - class [Asteroids] ([src/examples/asteroids/asteroids.hpp],
      [asteroids.cpp]): a formation of [CONST_QUANTIDADE_NAVES] = 14 ships;
    - class [Enemies] ([src/examples/ataqueATerra/enemies.cpp], header not
      in the repository): the same code, with the vertical speed read from
      [GameData::fator_vel_jogo].

    Five operations share the object's state (the list of ships, the
    zig-zag timer [tempo_atual_restante] and direction [sentido], the
    shader locations and a random engine) and the OpenGL context:
    [initializeGL] tears the old formation down ([terminateGL]), seeds the
    engine with the clock, builds the ships with [createAsteroid] (three
    random draws, one buffer and one vertex array each) and places them on
    a three-row grid; [update] advances the shared timer and moves, rotates
    and wraps every ship; [paintGL] draws each ship nine times (offsets
    -2, 0, +2 on both axes); [terminateGL] deletes every ship's GL objects.
    The game loop (not in the repository) calls [initializeGL] once per
    (re)start, then [update] and [paintGL] once per frame.

    ** How it is modelled

    Every definition translates the source and is generic over the class
    [Num] of this file: the operations the C++ code performs on [float]
    and [double] values (double arithmetic, the conversion of a double to
    a float [num_to_float], comparisons, literals, [floor], [abs],
    [sqrt]).  A float operation on float operands is [num_to_float] of
    the exact operation ([fadd], [fsub], [fmul], [fdiv]), which is exact
    for IEEE arithmetic since a double result rounded to float is the
    correctly rounded float result for [+ - * / sqrt].  Where the code
    mixes the two ([y -= 0.4 * deltaTime], the double [x] of the
    placement loop converted to float) the model does the same.  The
    instance [QExact.Q_num] reads the operations in exact rational
    arithmetic; the instance [Binary.binary_num] reads them in IEEE 754
    binary64/binary32 with round to nearest even, bit for bit as the
    compiled code.  The layout of the builder is proved at the exact
    instance (and, bit for bit, at the IEEE one in [Runs]); the GL,
    rendering and restart theorems for every instance; the theorems
    about long runs of [update] at the IEEE instance, where rounding
    changes what exact arithmetic would give.

    State is passed explicitly: an operation takes the object (record
    [Actor.Asteroids], its members as fields), the random engine inside it
    and the GL context ([GL.gl_state]), and returns their new values, its
    calls in the order of the source.  Lists are the [std::list]; loops
    over them are structural recursion or [fold_left], so no fuel is
    needed; the only iteration the theorems quantify over is the frame
    loop of the game: [Nat.iter m (update dt)] for a constant frame time,
    [fold_left] of [update] over a list of frame times, and the step
    relation [Game.game_step].

    ** Files (in dependency order)

    - [Prelude] (this file): [Num], the float operations, the notations of
      [cpp_scope], the hint database [cpp], the tactics [zbool] /
      [zbool_in] and the list and frame-counting lemmas.
    - [QExact]: the exact instance [Q_num], the reflection lemmas of its
      comparisons and the tactics [qunfold] / [qcase].
    - [Actor]: [struct Asteroid] ([Asteroid], [default_asteroid]), the
      members of [Asteroids] ([Asteroids], [new_Asteroids]) and the
      interface [RandomEngine] of the random engine.
    - [Random]: libstdc++'s [minstd_rand0] and
      [uniform_real_distribution<float>] as a [RandomEngine] instance.
    - [Binary]: the IEEE instance [binary_num] on [Stdlib.Floats.SpecFloat].
    - [GL]: the OpenGL calls of the code, modelled from the OpenGL 3.3
      core specification over stdpp finite maps of buffer and vertex-array
      objects, with a log of the calls that reach the screen and the
      error flag: a call the specification makes fail ([GL_INVALID_VALUE]
      for an attribute index outside [0, 16), [GL_INVALID_OPERATION] for
      an unknown vertex array or a draw with none bound) records its error
      ([gl_raise]) and has no other effect.
    - [Motion]: [Asteroids::update] ([update], [zigzag_tick],
      [advance_asteroid], [wrap_axis], [glm::wrapAngle]) and
      [Enemies::update] ([update_enemies]).
    - [Formation]: [createAsteroid], the placement loop
      ([place_asteroid], [formation_loop]), [terminateGL], [initializeGL].
    - [Render]: [paintGL] ([paint_tile], [paint_tiles], [paint_asteroid]).
    - [Enemies]: the operations of [enemies.cpp], transcribed, and their
      equality with the [Asteroids] ones.
    - [Runs]: the timer, the first frame, the layout and a NaN frame time
      in IEEE arithmetic.
    - [Game]: the calling protocol of the window ([initializeGL], frames
      of [update] then [paintGL], [terminateGL]) as the step relation
      [game_step], and its reachable states.
    - [Bindings]: the binding discipline of the code ([gl_at_rest])
      across every operation and every run.
    - [Screen]: what a command stream renders ([replay], [gpu_step]:
      per-program uniform values, location -1 ignored, a draw with the
      uniforms current at that moment) and the tiling the specification
      asks [paintGL] to render ([spec_tiles]).

    ** What is proved

    - Motion: a frame longer than 2 s takes a ship on the right edge
      out of the square [-1, 1]^2, since the code wraps a coordinate
      only once per frame ([update_long_frame_leaves_square]).
    - Formation: [initializeGL] builds [CONST_QUANTIDADE_NAVES] ships at the
      row/column of the specification's table ([initializeGL_layout]),
      establishes the invariant when there are at most 14
      ([initializeGL_inv]), and deletes exactly the old ships' GL objects
      while creating one fresh, distinct buffer and vertex array per ship
      and touching nothing else, without a GL error
      ([initializeGL_objects]); rebuilding then tearing down leaves the
      object tables as a teardown alone does
      ([initializeGL_terminateGL_roundtrip]); a program without the attribute
      [inPosition] makes [createAsteroid] fail silently with
      [GL_INVALID_VALUE], leaving a vertex array that reads nothing
      ([createAsteroid_missing_attribute]); with the
      libstdc++ engine every ship's angular velocity is in [-1, 1)
      ([initializeGL_angular_velocity_range]).  A restart continues the
      zig-zag: over every later run of frames the rebuilt formation has
      the timer and direction the old one would have had
      ([initializeGL_restart_keeps_zigzag]).  [terminateGL] leaves the
      deleted names in the ships, so in whatever context comes next, and
      under any allocation policy, the next teardown or rebuild destroys
      the objects that reused them ([initializeGL_reclaims_stale_names]).
    - Random: the engine state stays in [1, 2^31 - 2] (the multiplier is
      prime to the modulus, [minstd_next_ok]) and every draw of
      [m_randomDist] lies in [-1, 1) ([minstd_draw_range]).
    - Render: the exact sequence of calls of [paintGL] ([paintGL_log]);
      every draw call of the first frame reads past the end of its buffer
      ([initializeGL_paintGL_out_of_bounds], a bug of the code); a frame
      drawn after [terminateGL] draws nothing and leaves
      [GL_INVALID_OPERATION] ([paintGL_after_terminateGL]).
    - Enemies: each operation is equal to the [Asteroids] one
      ([initializeGL_enemies_eq], [paintGL_enemies_eq]), so it has the
      same out-of-bounds draws ([enemies_paintGL_out_of_bounds]).
    - Game: by rule induction on the reachable states of the loop, every
      frame draws out of bounds ([game_frames_out_of_bounds]), the live
      GL objects are exactly the ships' ones, so rebuilding never leaks
      ([game_no_leak]), and no call ever raises a GL error
      ([game_no_gl_error]); the frames may have any frame time.
    - Bindings: the code unbinds what it binds, so no buffer, vertex array or program
      is bound between operations ([game_gl_at_rest]); hence in any run a
      frame drawn after [terminateGL] draws nothing and raises
      [GL_INVALID_OPERATION] ([game_frame_after_teardown]).
    - Screen: [paintGL] refines the rendering contract of the
      specification: its draws are exactly the 3 x 3 tiling of every ship
      with its colour, scale and shifted translation, and every other
      uniform, the rotation among them, keeps its old value
      ([paintGL_renders_tiling]); a program without the uniform
      [translation] gets nine draws per ship that all see the same
      position ([paintGL_without_translation]).
    - Runs (IEEE arithmetic): if the full timer stays positive for [k - 1]
      subtractions of [dt] and not for [k], the direction is a square wave
      of [k] frames, in any arithmetic ([update_phases]); at 60 frames per
      second [k] is 61 in IEEE arithmetic where exact arithmetic gives 60
      ([update_square_wave_binary]); seeded with 67017027, the first frame
      puts the first ship's rotation at [two_pi<float>()] > 2 pi
      ([initializeGL_update_rotation_two_pi]); for up to 14 ships the
      layout is exactly the float rounding of the table
      ([initializeGL_layout_binary]); a frame time of 2^-25 s is absorbed
      by the float subtraction from the full timer 1.0f, so the countdown
      never ends and the formation never turns
      ([update_countdown_stalls_binary]); a single NaN frame time, which
      [update] does not reject, leaves the timer and every ship's
      position and rotation NaN and the direction fixed for every later
      frame ([update_nan_frame_freezes]).

    The formation size bound 14 of [initializeGL_inv] is the one for
    which the third row stays on screen; beyond it ship 15 sits at
    x = 1.2 ([initializeGL_layout], slot 15).

    ** Findings (see PROJECT.json)

    Every draw reads 18 vertices from a 16-vertex buffer; a ship can rest
    at x = 1 exactly (the specification says [-1, 1)); the timer drops
    the overshoot when it reloads, and flips at most once per frame;
    more than 14 ships leave the screen; [initializeGL] keeps the old
    timer and direction; [terminateGL] leaves stale names that the next
    teardown deletes again, whatever object then holds them; the rotation is never sent to the
    shader.  The locations of [inPosition] and of the uniforms are used
    unchecked (without [translation] every ship is drawn at one place), and a
    frame between teardown and rebuild draws nothing; the specification
    covers neither.  A frame longer than 2 seconds leaves ships outside the
    square.  In IEEE arithmetic the half-period at 60 frames per second
    is 61 frames, the rotation can reach [two_pi<float>()] > 2 pi, and a
    frame time below half an ulp of the timer stops the zig-zag, as a NaN
    frame time does for good (the specification leaves NaN open).

    ** Not modelled, and the plan

    The shaders, rasterisation and the abcg window are external; the
    order in which the window calls the formation is taken from the
    specification ([Game.game_step]), not from code.  The
    GL model creates an object when its name is generated; of the
    errors of the calls the code makes it models those its arguments can
    cause (negative counts, attribute indices out of range, unknown or
    unbound vertex arrays, uploads with no buffer bound); out-of-memory
    and the errors of shader compilation are out of scope.  The IEEE instance
    is used for evaluation; general theorems about rounding (error bounds)
    would need Flocq, which is not available, and are not stated.  For
    the same reason no invariant of [update] over long runs (ships in
    the square, rotation in [0, 2 pi), the period of the zig-zag) is
    stated: in exact arithmetic they hold, but at the IEEE instance the
    rotation can reach [two_pi<float>()] and the period is one frame
    longer ([Runs]), so such theorems would describe a program with
    exact arithmetic, not this code; the invariant is used only for the
    state [initializeGL] builds, where no rounding intervenes.
    The velocity of [createAsteroid] ([glm::normalize(direction) / 7]) is
    modelled but no theorem is stated about it: [update] never reads it.
*)

From Stdlib Require Import ZArith QArith List Lia.
Import ListNotations.

(** ** The numeric interface of the C++ code *)

Class Num (R : Type) := {
  num_lit : Q -> R;           (** a [double] literal such as [0.4] *)
  num_of_Z : Z -> R;          (** conversion of an [int] to floating point *)
  num_add : R -> R -> R;      (** [double] addition *)
  num_sub : R -> R -> R;      (** [double] subtraction *)
  num_mul : R -> R -> R;      (** [double] multiplication *)
  num_div : R -> R -> R;      (** [double] division *)
  num_to_float : R -> R;      (** conversion of a [double] to [float] *)
  num_ltb : R -> R -> bool;   (** [<] *)
  num_leb : R -> R -> bool;   (** [<=] *)
  num_floor : R -> R;         (** [std::floor] *)
  num_abs : R -> R;           (** [std::abs] *)
  num_sqrt : R -> R           (** [std::sqrt] *)
}.

Declare Scope cpp_scope.
Delimit Scope cpp_scope with cpp.

Notation "a + b" := (num_add a b) : cpp_scope.
Notation "a - b" := (num_sub a b) : cpp_scope.
Notation "a * b" := (num_mul a b) : cpp_scope.
Notation "a / b" := (num_div a b) : cpp_scope.
Notation "a <? b" := (num_ltb a b) : cpp_scope.
Notation "a <=? b" := (num_leb a b) : cpp_scope.

Section FloatOps.
Context {R : Type} `{Num R}.
Local Open Scope cpp_scope.

(** [float] arithmetic: the exact operation rounded once to [float]. *)
Definition fadd (a b : R) : R := num_to_float (a + b).
Definition fsub (a b : R) : R := num_to_float (a - b).
Definition fmul (a b : R) : R := num_to_float (a * b).
Definition fdiv (a b : R) : R := num_to_float (a / b).

(** A [float] literal such as [2.0f] or [-1.0f]. *)
Definition flit (q : Q) : R := num_to_float (num_lit q).

(** An [int] converted to [float], as in [sentido * deltaTime]. *)
Definition fint (z : Z) : R := num_to_float (num_of_Z z).

(** [a > b] *)
Definition num_gtb (a b : R) : bool := num_ltb b a.
End FloatOps.

Notation "a >? b" := (num_gtb a b) : cpp_scope.

(** ** Shared list lemmas *)

Create HintDb cpp.

Lemma nth_error_map_some {A B} (f : A -> B) (l : list A) n a :
  nth_error l n = Some a -> nth_error (map f l) n = Some (f a).
Proof. intros E. rewrite nth_error_map, E. reflexivity. Qed.

Lemma Forall_map_intro {A B} (P : B -> Prop) (f : A -> B) (Q : A -> Prop) l :
  (forall a, Q a -> P (f a)) -> Forall Q l -> Forall P (map f l).
Proof. intros HPQ HQ. apply Forall_map. eapply Forall_impl; eauto. Qed.

Lemma Forall2_map_intro {A B C D} (R1 : A -> B -> Prop) (R2 : C -> D -> Prop)
      (f : A -> C) (g : B -> D) l1 l2 :
  (forall a b, R1 a b -> R2 (f a) (g b)) ->
  Forall2 R1 l1 l2 -> Forall2 R2 (map f l1) (map g l2).
Proof. intros HR HF. induction HF; simpl; constructor; auto. Qed.

Lemma nth_error_lt {A} (l : list A) k a : nth_error l k = Some a -> (k < length l)%nat.
Proof. intros E. apply nth_error_Some. congruence. Qed.

Lemma Forall_nth_error_intro {A} (P : A -> Prop) (l : list A) :
  (forall k a, nth_error l k = Some a -> P a) -> Forall P l.
Proof.
  intros HP. apply Forall_forall. intros a Ha.
  apply In_nth_error in Ha as [k Ha]. exact (HP k a Ha).
Qed.

(** A name not used by the rest of a list of distinct names keeps the
    names distinct. *)
Lemma NoDup_map_cons_fresh {A B} (f : A -> B) (x : B) (l : list A) :
  Forall (fun c => f c <> x) l -> NoDup (map f l) -> NoDup (x :: map f l).
Proof.
  intros Hf Hn. constructor; [|exact Hn]. rewrite in_map_iff. intros (c & Hc & Hin).
  rewrite Forall_forall in Hf. exact (Hf c Hin Hc).
Qed.

(** A property every iteration keeps holds after a [fold_left]: the
    range-based [for] loops of the code. *)
Lemma fold_left_preserve {A B} (P : B -> Prop) (f : B -> A -> B) (l : list A) :
  (forall b x, P b -> P (f b x)) -> forall b, P b -> P (fold_left f l b).
Proof. intros Hf. induction l as [|x l IH]; intros b Hb; [exact Hb | apply IH, Hf, Hb]. Qed.

#[export] Hint Resolve Forall_map_intro Forall2_map_intro : cpp.
(** Side conditions on naturals (frame counts, indices). *)
#[export] Hint Extern 2 (le _ _) => lia : cpp.
#[export] Hint Extern 2 (lt _ _) => lia : cpp.

(** ** Deciding the integer tests of a branch *)

(** Rewrite every [Z] comparison of a hypothesis ([zbool_in]) or of the
    goal ([zbool]) to [true] or [false] when [lia] decides it. *)
Ltac zbool_in H :=
  repeat match type of H with
  | context [Z.ltb ?a ?b] =>
      first [ rewrite (proj2 (Z.ltb_lt a b)) in H by lia
            | rewrite (proj2 (Z.ltb_ge a b)) in H by lia ]
  | context [Z.leb ?a ?b] =>
      first [ rewrite (proj2 (Z.leb_le a b)) in H by lia
            | rewrite (proj2 (Z.leb_gt a b)) in H by lia ]
  | context [Z.eqb ?a ?b] =>
      first [ rewrite (proj2 (Z.eqb_eq a b)) in H by lia
            | rewrite (proj2 (Z.eqb_neq a b)) in H by lia ]
  end.

Ltac zbool :=
  repeat match goal with
  | |- context [Z.ltb ?a ?b] =>
      first [ rewrite (proj2 (Z.ltb_lt a b)) by lia | rewrite (proj2 (Z.ltb_ge a b)) by lia ]
  | |- context [Z.leb ?a ?b] =>
      first [ rewrite (proj2 (Z.leb_le a b)) by lia | rewrite (proj2 (Z.leb_gt a b)) by lia ]
  | |- context [Z.eqb ?a ?b] =>
      first [ rewrite (proj2 (Z.eqb_eq a b)) by lia | rewrite (proj2 (Z.eqb_neq a b)) by lia ]
  end.

(** ** Counting frames: how [S m] divides by a period of [k] frames *)

Local Open Scope nat_scope.

Lemma succ_mod_div_lt (k m : nat) :
  S (m mod k) < k -> S m mod k = S (m mod k) /\ S m / k = m / k.
Proof.
  intros Hlt. assert (Hk : k <> 0) by lia.
  pose proof (Nat.div_mod_eq m k) as Hdm.
  split.
  - symmetry. apply (Nat.mod_unique (S m) k (m / k)); lia.
  - symmetry. apply (Nat.div_unique (S m) k (m / k) (S (m mod k))); lia.
Qed.

Lemma succ_mod_div_eq (k m : nat) :
  S (m mod k) = k -> S m mod k = 0 /\ S m / k = S (m / k).
Proof.
  intros Heq. pose proof (Nat.div_mod_eq m k) as Hdm.
  split.
  - symmetry. apply (Nat.mod_unique (S m) k (S (m / k))); lia.
  - symmetry. apply (Nat.div_unique (S m) k (S (m / k)) 0); lia.
Qed.
