(* ===== verification/QExact.v ===== *)
(** * The exact reading of the C++ arithmetic

    [Q_num] interprets every operation of [Prelude.Num] in the rationals:
    literals are exact, conversions to [float] are the identity, [floor] is
    [Qfloor] and [abs] is [Qabs].  [sqrt] has no rational value in general;
    [Qsqrt_approx] is a truncated square root to six decimal places, used
    only for the velocity of [createAsteroid], which no operation reads.

    The lemmas of this file reflect the boolean comparisons into [Qle] and
    [Qlt]; the tactics [qunfold] and [qcase] turn a goal about a generic
    definition at [Q] into linear rational arithmetic for [lra]. *)

From Stdlib Require Import ZArith QArith Qround Qabs Lqa Lia List.
From S2P Require Import Prelude.

Definition Qsqrt_approx (q : Q) : Q :=
  Qmake (Z.sqrt (Qnum q * Zpos (Qden q) * 10 ^ 12)) (Qden q * 1000000).

#[export] Instance Q_num : Num Q := {|
  num_lit q := q;
  num_of_Z := inject_Z;
  num_add := Qplus;
  num_sub := Qminus;
  num_mul := Qmult;
  num_div := Qdiv;
  num_to_float q := q;
  num_ltb a b := negb (Qle_bool b a);
  num_leb := Qle_bool;
  num_floor q := inject_Z (Qfloor q);
  num_abs := Qabs;
  num_sqrt := Qsqrt_approx
|}.

Lemma Q_leb_true (a b : Q) : num_leb a b = true <-> a <= b.
Proof. apply Qle_bool_iff. Qed.

Lemma Q_leb_false (a b : Q) : num_leb a b = false <-> b < a.
Proof.
  simpl. split.
  - intros E. apply Qnot_le_lt. intros Hle. apply Qle_bool_iff in Hle. congruence.
  - intros Hlt. destruct (Qle_bool a b) eqn:E; [|reflexivity].
    apply Qle_bool_iff in E. exfalso. apply (Qlt_not_le b a); assumption.
Qed.

Lemma Q_ltb_true (a b : Q) : num_ltb a b = true <-> a < b.
Proof.
  simpl. rewrite Bool.negb_true_iff. apply (Q_leb_false b a).
Qed.

Lemma Q_ltb_false (a b : Q) : num_ltb a b = false <-> b <= a.
Proof.
  simpl. rewrite Bool.negb_false_iff. apply (Q_leb_true b a).
Qed.

(** Unfold the float operations and the instance to rational arithmetic. *)
Ltac qunfold :=
  unfold fadd, fsub, fmul, fdiv, flit, fint, num_gtb in *;
  cbn [num_lit num_of_Z num_add num_sub num_mul num_div num_to_float
       num_floor num_abs Q_num] in *.

(** Split on the first comparison of the goal and reflect both branches. *)
Ltac qcase :=
  match goal with
  | |- context [num_leb ?a ?b] =>
      let E := fresh "Hcmp" in
      destruct (num_leb a b) eqn:E;
      [apply Q_leb_true in E | apply Q_leb_false in E]
  | |- context [num_ltb ?a ?b] =>
      let E := fresh "Hcmp" in
      destruct (num_ltb a b) eqn:E;
      [apply Q_ltb_true in E | apply Q_ltb_false in E]
  end.

(** [Qfloor] brackets its argument: [floor q <= q < floor q + 1]. *)
Lemma Qfloor_bracket (q : Q) : inject_Z (Qfloor q) <= q < inject_Z (Qfloor q) + 1.
Proof.
  split; [apply Qfloor_le|].
  pose proof (Qlt_floor q) as H.
  rewrite inject_Z_plus in H. exact H.
Qed.

(** A natural number as a rational, for frame counts. *)
Definition Q_of_nat (n : nat) : Q := inject_Z (Z.of_nat n).

Lemma Q_of_nat_S (n : nat) : Q_of_nat (S n) == Q_of_nat n + 1.
Proof. unfold Q_of_nat. rewrite Nat2Z.inj_succ, <- Z.add_1_r, inject_Z_plus. reflexivity. Qed.

Lemma Q_of_nat_0 : Q_of_nat 0 == 0.
Proof. reflexivity. Qed.

Lemma Q_of_nat_le (m n : nat) : (m <= n)%nat -> Q_of_nat m <= Q_of_nat n.
Proof. intros Hle. unfold Q_of_nat. rewrite <- Zle_Qle. lia. Qed.

Lemma Q_of_nat_nonneg (n : nat) : 0 <= Q_of_nat n.
Proof. apply (Q_of_nat_le 0). lia. Qed.

(** Scaling an inequality between frame counts by a non-negative step. *)
Lemma Q_of_nat_mul_le (m n : nat) (d : Q) :
  (m <= n)%nat -> 0 <= d -> Q_of_nat m * d <= Q_of_nat n * d.
Proof. intros Hmn Hd. apply Qmult_le_compat_r; [apply Q_of_nat_le|]; assumption. Qed.

#[export] Hint Resolve Q_of_nat_le Q_of_nat_nonneg Q_of_nat_mul_le : cpp.
(** Linear side conditions on rationals. *)
#[export] Hint Extern 2 (Qle _ _) => lra : cpp.
#[export] Hint Extern 2 (Qlt _ _) => lra : cpp.
