(* ===== verification/Actor.v ===== *)
(** * Ships and the formation object

    The data of [src/examples/asteroids/asteroids.hpp]: the struct
    [Asteroids::Asteroid] (one ship) with its default member initialisers,
    and the members of class [Asteroids] that the operations read and
    write (shader locations, formation size, the zig-zag timer and
    direction, the list of ships and the random engine).  [Enemies]
    (whose header is not in the repository) uses members of the same names
    and types in [enemies.cpp], so the same record models it.

    glm's [vec2] and [vec4] are records [vec2] / [vec4]; their fields
    [x], [y] and [r], [g], [b], [a] are named [vx], [vy] and [vr], [vg],
    [vb], [va].  [std::list<Asteroid>] is a Rocq list. *)

From Stdlib Require Import ZArith QArith List.
From S2P Require Import Prelude.
Import ListNotations.

Section Data.
Context {R : Type}.

Record vec2 := mkvec2 { vx : R; vy : R }.
Record vec4 := mkvec4 { vr : R; vg : R; vb : R; va : R }.

(** [struct Asteroid] (asteroids.hpp, lines 37-49). *)
Record Asteroid := mkAsteroid {
  m_vao : N;
  m_vbo : N;
  m_angularVelocity : R;
  m_color : vec4;
  m_hit : bool;
  m_polygonSides : Z;
  m_rotation : R;
  m_scale : R;
  m_translation : vec2;
  m_velocity : vec2
}.

(** [std::default_random_engine] with [m_randomDist], the
    [uniform_real_distribution<float>{-1.0f, 1.0f}] member: the engine
    is a state [G]; [random_dist] draws one number and advances it. *)
Class RandomEngine (G : Type) := {
  engine_default : G;            (** the default-constructed engine *)
  engine_seed : Z -> G;          (** [m_randomEngine.seed(seed)] *)
  random_dist : G -> R * G       (** [m_randomDist(m_randomEngine)] *)
}.

(** The members of class [Asteroids] (asteroids.hpp, lines 24-54). *)
Record Asteroids {G : Type} := mkAsteroids {
  m_program : N;
  m_colorLoc : Z;
  m_rotationLoc : Z;
  m_translationLoc : Z;
  m_scaleLoc : Z;
  CONST_QUANTIDADE_NAVES : Z;
  CONST_TEMPO_ZIG_ZAG : R;
  tempo_atual_restante : R;
  sentido : Z;
  m_asteroids : list Asteroid;
  m_randomEngine : G
}.

Context `{Num R}.

(** A value-initialised [Asteroid]: [m_color{1}], [vec2(0)], zeros. *)
Definition default_asteroid : Asteroid :=
  {| m_vao := 0; m_vbo := 0;
     m_angularVelocity := flit 0;
     m_color := mkvec4 (flit 1) (flit 1) (flit 1) (flit 1);
     m_hit := false;
     m_polygonSides := 0;
     m_rotation := flit 0;
     m_scale := flit 0;
     m_translation := mkvec2 (flit 0) (flit 0);
     m_velocity := mkvec2 (flit 0) (flit 0) |}.

(** A freshly constructed [Asteroids] object: the member initialisers
    [CONST_QUANTIDADE_NAVES = 14], [CONST_TEMPO_ZIG_ZAG = 1],
    [tempo_atual_restante = CONST_TEMPO_ZIG_ZAG], [sentido = +1]. *)
Definition new_Asteroids {G} `{RandomEngine G} : @Asteroids G :=
  {| m_program := 0; m_colorLoc := 0; m_rotationLoc := 0;
     m_translationLoc := 0; m_scaleLoc := 0;
     CONST_QUANTIDADE_NAVES := 14;
     CONST_TEMPO_ZIG_ZAG := flit 1;
     tempo_atual_restante := flit 1;
     sentido := 1;
     m_asteroids := [];
     m_randomEngine := engine_default |}.

(** Assignments to the fields an operation writes. *)
Definition set_motion (t : vec2) (rot : R) (a : Asteroid) : Asteroid :=
  {| m_vao := m_vao a; m_vbo := m_vbo a;
     m_angularVelocity := m_angularVelocity a; m_color := m_color a;
     m_hit := m_hit a; m_polygonSides := m_polygonSides a;
     m_rotation := rot; m_scale := m_scale a;
     m_translation := t; m_velocity := m_velocity a |}.

Definition set_translation (t : vec2) (a : Asteroid) : Asteroid :=
  set_motion t (m_rotation a) a.

Definition set_timer {G} (rem : R) (sen : Z) (l : list Asteroid)
           (s : @Asteroids G) : @Asteroids G :=
  {| m_program := m_program s; m_colorLoc := m_colorLoc s;
     m_rotationLoc := m_rotationLoc s;
     m_translationLoc := m_translationLoc s; m_scaleLoc := m_scaleLoc s;
     CONST_QUANTIDADE_NAVES := CONST_QUANTIDADE_NAVES s;
     CONST_TEMPO_ZIG_ZAG := CONST_TEMPO_ZIG_ZAG s;
     tempo_atual_restante := rem;
     sentido := sen;
     m_asteroids := l;
     m_randomEngine := m_randomEngine s |}.
End Data.

Arguments vec2 : clear implicits.
Arguments vec4 : clear implicits.
Arguments Asteroid : clear implicits.
Arguments Asteroids : clear implicits.
Arguments RandomEngine : clear implicits.
