(* ===== verification/Random.v ===== *)
(** * The random engine of [createAsteroid]

    [std::default_random_engine] is [std::minstd_rand0] in libstdc++ (the
    library the abcg framework builds with on Linux): the Lehmer generator
    [x' = 16807 x mod (2^31 - 1)].  [m_randomDist] is a
    [std::uniform_real_distribution<float>(-1, 1)]; a draw is
    [generate_canonical<float, 24>] (one engine call, since the engine has
    more than 24 bits) scaled to [b - a] and shifted by [a].  None of this
    is code of the repository: it is modelled from the libstdc++ sources
    ([bits/random.h], [bits/random.tcc]) and marked so in the map.

    [minstd_engine] is the [Actor.RandomEngine] instance of this engine;
    the theorems show that the state stays in [1, 2^31 - 2] and that, in
    exact arithmetic, every draw lies in [-1, 1). *)

From Stdlib Require Import ZArith QArith Lqa Lia.
From S2P Require Import Prelude QExact Actor.

Definition minstd_a : Z := 16807.
Definition minstd_m : Z := 2147483647.

(** [linear_congruential_engine::seed(result_type s)]: the seed is an
    [unsigned long] (the [long] clock count converted modulo 2^64), reduced
    modulo [m]; a zero state is replaced by 1. *)
Definition minstd_seed (s : Z) : Z :=
  let x := ((s mod 2 ^ 64) mod minstd_m)%Z in
  if (x =? 0)%Z then 1%Z else x.

(** [linear_congruential_engine::operator()]. *)
Definition minstd_next (x : Z) : Z := ((minstd_a * x) mod minstd_m)%Z.

Section Draw.
Context {R : Type} `{Num R}.
Local Open Scope cpp_scope.

(** [generate_canonical<float, 24>(urng)] on the value [v] the engine
    returned: [sum = float(v - min)], [tmp = float(1.0f * r)] with
    [r = max - min + 1 = 2^31 - 2] as a long double, [sum / tmp],
    clamped to [nextafter(1.0f, 0.0f) = 1 - 2^-24]. *)
Definition generate_canonical (v : Z) : R :=
  let sum := fint (v - 1)%Z in
  let tmp := num_to_float (num_of_Z 2147483646) in
  let ret := fdiv sum tmp in
  if flit 1 <=? ret then flit (16777215 # 16777216) else ret.

(** [uniform_real_distribution<float>(a, b)::operator()]. *)
Definition uniform_real (a b : R) (v : Z) : R :=
  fadd (fmul (generate_canonical v) (fsub b a)) a.

(** [m_randomDist(m_randomEngine)]: advance, then map to [-1, 1). *)
Definition minstd_draw (x : Z) : R * Z :=
  let x' := minstd_next x in (uniform_real (flit (-1)) (flit 1) x', x').

#[export] Instance minstd_engine : RandomEngine R Z := {|
  engine_default := 1%Z;
  engine_seed := minstd_seed;
  random_dist := minstd_draw
|}.
End Draw.

(** ** The engine state and the range of a draw *)

Definition minstd_state_ok (x : Z) : Prop := (1 <= x <= minstd_m - 1)%Z.

Lemma minstd_m_coprime_a : Z.gcd minstd_m minstd_a = 1%Z.
Proof. vm_compute. reflexivity. Qed.

Lemma minstd_seed_ok (s : Z) : minstd_state_ok (minstd_seed s).
Proof.
  unfold minstd_seed, minstd_state_ok, minstd_m.
  destruct (Z.eqb_spec ((s mod 2 ^ 64) mod 2147483647) 0) as [E|E]; [lia|].
  pose proof (Z.mod_pos_bound (s mod 2 ^ 64) 2147483647 ltac:(lia)). lia.
Qed.

Lemma minstd_next_ok (x : Z) : minstd_state_ok x -> minstd_state_ok (minstd_next x).
Proof.
  unfold minstd_state_ok, minstd_next. intros Hx.
  pose proof (Z.mod_pos_bound (minstd_a * x) minstd_m ltac:(unfold minstd_m; lia)) as Hb.
  split; [|lia].
  destruct (Z.eq_dec ((minstd_a * x) mod minstd_m) 0) as [E|E]; [|lia].
  exfalso. apply Z.mod_divide in E; [|unfold minstd_m; lia].
  apply (Z.gauss minstd_m minstd_a x) in E; [|exact minstd_m_coprime_a].
  apply Z.divide_pos_le in E; lia.
Qed.

Section DrawRange.
Local Open Scope Q_scope.

Lemma generate_canonical_range (v : Z) :
  minstd_state_ok v -> 0 <= generate_canonical (R := Q) v < 1.
Proof.
  unfold minstd_state_ok, minstd_m. intros Hv.
  unfold generate_canonical. qunfold.
  assert (H0 : inject_Z 0 <= inject_Z (v - 1)) by (rewrite <- Zle_Qle; lia).
  assert (H1 : inject_Z (v - 1) <= inject_Z 2147483645) by (rewrite <- Zle_Qle; lia).
  set (w := inject_Z (v - 1)) in *.
  assert (Hd : 0 <= w / inject_Z 2147483646 < 1).
  { unfold inject_Z in *. split.
    - apply Qle_shift_div_l; [reflexivity | lra].
    - apply Qlt_shift_div_r; [reflexivity | lra]. }
  qcase; [unfold inject_Z in *; lra | exact Hd].
Qed.

Theorem minstd_draw_range (x : Z) :
  minstd_state_ok x ->
  -1 <= fst (minstd_draw (R := Q) x) < 1 /\ minstd_state_ok (snd (minstd_draw (R := Q) x)).
Proof.
  intros Hx. unfold minstd_draw, uniform_real. simpl fst; simpl snd.
  pose proof (minstd_next_ok x Hx) as Hn.
  destruct (generate_canonical_range (minstd_next x) Hn) as [Hl Hu].
  split; [|exact Hn]. qunfold. lra.
Qed.
End DrawRange.
