(* ===== verification/Binary.v ===== *)
(** * IEEE 754 binary64 and binary32 arithmetic

    The C++ code computes with [double] (the literals [0.4], [-0.8], the
    loop variable [x] of [initializeGL], the drop [0.4 * deltaTime] of
    [update]) and with [float] (every member of [Asteroid], [deltaTime],
    the timer, the [glm] vectors).  This file gives the numeric interface
    [Prelude.Num] an instance [binary_num] on the IEEE 754 model of the
    Standard Library ([Stdlib.Floats.SpecFloat], the [IEEE754.Binary]
    specification of Flocq without NaN payloads), with round to nearest,
    ties to even, the default mode of the C++ runtime:

    - a value is a [spec_float] in the canonical binary64 representation
      (precision 53, [emax] 1024); a [float] is a binary64 value that is
      exactly a binary32 number;
    - [num_add], [num_sub], [num_mul], [num_div] and [num_sqrt] are the
      binary64 operations; [num_to_float] rounds to binary32 (precision
      24, [emax] 128) and re-encodes the result in binary64;
    - a [double] literal [p # q] is the quotient [p / q] rounded once to
      binary64, as the compiler rounds a decimal constant; an [int] is
      converted exactly (the code converts only small integers);
    - [num_floor] is [std::floor], exact on every finite value.

    A [float] operation of the code is modelled by [Prelude.fadd] and the
    like as the binary64 operation followed by the rounding to binary32.
    On binary32 operands this is the binary32 operation: double rounding
    is innocuous for [+ - * / sqrt] when the wider format has at least
    [2 p + 2] bits, and [53 >= 2 * 24 + 2].  Every [float] literal of the
    code ([1.0f], [2.0f], [0.5f], [7.0f], [-1.0f]) is exact.

    With this instance the definitions of the other files evaluate as the
    compiled code does, bit for bit, by [vm_compute]; [Runs] uses it. *)

From Stdlib Require Import ZArith QArith.
From Stdlib Require Import Floats.SpecFloat.
From S2P Require Import Prelude.

Definition prec64 : Z := 53.
Definition emax64 : Z := 1024.
Definition prec32 : Z := 24.
Definition emax32 : Z := 128.

(** An integer, exactly or rounded to binary64. *)
Definition b64_of_Z (z : Z) : spec_float := binary_normalize prec64 emax64 z 0 false.

(** A decimal constant [p / q]: the exact quotient rounded once. *)
Definition b64_lit (q : Q) : spec_float :=
  match Qnum q with
  | Z0 => S754_zero false
  | Zpos p => SFdiv prec64 emax64 (S754_finite false p 0) (S754_finite false (Qden q) 0)
  | Zneg p => SFdiv prec64 emax64 (S754_finite true p 0) (S754_finite false (Qden q) 0)
  end.

(** [static_cast<float>(double)]: round to binary32, keep the binary64
    encoding of the result. *)
Definition b64_to_b32 (x : spec_float) : spec_float :=
  match x with
  | S754_finite s m e =>
      match binary_round prec32 emax32 s m e with
      | S754_finite s' m' e' => binary_round prec64 emax64 s' m' e'
      | y => y
      end
  | _ => x
  end.

(** [std::floor]: the integer part rounded towards minus infinity; an
    integer-valued input is returned as it is. *)
Definition b64_floor (x : spec_float) : spec_float :=
  match x with
  | S754_finite s m e =>
      if (0 <=? e)%Z then x
      else
        match Z.shiftr (cond_Zopp s (Zpos m)) (- e) with
        | Z0 => S754_zero s
        | z => b64_of_Z z
        end
  | _ => x
  end.

#[export] Instance binary_num : Num spec_float := {|
  num_lit := b64_lit;
  num_of_Z := b64_of_Z;
  num_add := SFadd prec64 emax64;
  num_sub := SFsub prec64 emax64;
  num_mul := SFmul prec64 emax64;
  num_div := SFdiv prec64 emax64;
  num_to_float := b64_to_b32;
  num_ltb := SFltb;
  num_leb := SFleb;
  num_floor := b64_floor;
  num_abs := SFabs;
  num_sqrt := SFsqrt prec64 emax64
|}.

(** A value in the canonical binary64 encoding, in range. *)
Definition b64_valid (x : spec_float) : bool := valid_binary prec64 emax64 x.

(** A binary64 value that is a binary32 number. *)
Definition b32_valid (x : spec_float) : bool :=
  match x with
  | S754_finite _ _ _ => b64_valid x && SFeqb (b64_to_b32 x) x
  | _ => true
  end.

(** The rational value of a finite binary64 value ([0] for the others). *)
Definition b64_to_Q (x : spec_float) : Q :=
  match x with
  | S754_finite s m e => (if s then - inject_Z (Zpos m) else inject_Z (Zpos m)) * Qpower 2 e
  | _ => 0
  end.
