(* ===== verification/GL.v ===== *)
(** * The OpenGL calls of the formation code

    The code calls a dozen OpenGL entry points.  This file models them from
    the OpenGL 3.3 specification, as operations on a state [gl_state]:

    - the live buffer objects, each with its data store as a flat list of
      floats ([gl_buffers]: name -> contents), and the live vertex-array
      objects with their position attribute ([gl_vaos]: name -> attribute
      record); names are [N], 0 meaning "no object";
    - the [GL_ARRAY_BUFFER] binding, the vertex-array binding and the
      current program;
    - the log of the calls that reach the screen ([glUseProgram],
      [glUniform*], [glDrawArrays]), most recent last;
    - the uniform and attribute locations of the linked programs, read by
      [glGetUniformLocation] and [glGetAttribLocation].

    [glGen*] reserve the least unused positive name ([fresh_name], as
    common drivers do); [glDelete*] silently ignore 0 and unused names and
    reset a binding to the deleted object.  Binding an unknown name, or
    loading data with no buffer bound, is [GL_INVALID_OPERATION]; an
    attribute index outside [0, GL_MAX_VERTEX_ATTRIBS) ([attrib_index_ok],
    16 here, the least value the specification allows) is
    [GL_INVALID_VALUE]; a draw with a negative count is
    [GL_INVALID_VALUE], with no vertex array bound (core profile)
    [GL_INVALID_OPERATION].  A failing call only records its error in the
    flag [gl_error] ([gl_raise]), which keeps the first error, since the
    code never calls [glGetError].  A draw call records the vertex array
    it reads; [draw_in_bounds] says whether the vertices it reads exist.

    The theorems give the name allocator its laws (a fresh name is
    positive and unused, generating then deleting a name restores the
    table), each call its effect on every branch, the rewrite database
    [gl_proj] of the projections of a state built by a sequence of calls,
    and the quiet steps of a dead context ([gl_dead], [gl_quiet],
    [fold_left_quiet]): with no vertex array bound and an error pending, a
    loop of uniforms and draws only appends its uniforms to the log. *)

From stdpp Require Import base gmap.
From Stdlib Require Import ZArith List.
From Stdlib Require String.
From S2P Require Import Prelude.
Import ListNotations.

(** The modes of [glDrawArrays] the code uses. *)
Inductive gl_mode := GL_TRIANGLE_FAN.

(** The errors the calls of the code can generate ([glGetError]). *)
Inductive gl_err := GL_INVALID_VALUE | GL_INVALID_OPERATION.

#[export] Instance gl_mode_eq_dec : EqDecision gl_mode.
Proof. solve_decision. Defined.
#[export] Instance gl_err_eq_dec : EqDecision gl_err.
Proof. solve_decision. Defined.

(** [GL_MAX_VERTEX_ATTRIBS]: at least 16 in every OpenGL 3.3 context. *)
Definition gl_max_vertex_attribs : Z := 16.

Section GLState.
Context {R : Type}.

(** What a vertex-array object records: whether attribute [vao_index]
    is enabled, and the buffer bound to it by [glVertexAttribPointer]. *)
Record gl_vao := mkVao {
  vao_enabled : list Z;
  vao_attrib : option (Z * N)
}.

(** The calls that reach the screen, in the order issued. *)
Inductive gl_call :=
| CallUseProgram (program : N)
| CallUniform1f (loc : Z) (v : R)
| CallUniform2f (loc : Z) (v0 v1 : R)
| CallUniform4fv (loc : Z) (v0 v1 v2 v3 : R)
| CallDrawArrays (mode : gl_mode) (first count : Z) (vao : N).

Record gl_state := mkGL {
  gl_buffers : gmap N (list R);
  gl_vaos : gmap N gl_vao;
  gl_array_buffer : N;
  gl_vertex_array : N;
  gl_program : N;
  gl_log : list gl_call;
  gl_uniform_locations : N -> String.string -> Z;
  gl_attrib_locations : N -> String.string -> Z;
  gl_error : option gl_err
}.

(** The least positive name unused in a table.  The search over
    [1 .. size m + 1] always succeeds; the fallback above the largest key
    makes freshness evident. *)
Definition fresh_name {A} (m : gmap N A) : N :=
  match List.find (fun n => bool_decide (m !! n = None))
                  (map N.of_nat (seq 1 (S (size m)))) with
  | Some n => n
  | None => N.succ (foldr N.max 0%N (map fst (map_to_list m)))
  end.

Definition gl_set_buffers (b : gmap N (list R)) (ab : N) (st : gl_state) : gl_state :=
  mkGL b (gl_vaos st) ab (gl_vertex_array st) (gl_program st) (gl_log st)
       (gl_uniform_locations st) (gl_attrib_locations st) (gl_error st).

Definition gl_set_vaos (v : gmap N gl_vao) (va : N) (st : gl_state) : gl_state :=
  mkGL (gl_buffers st) v (gl_array_buffer st) va (gl_program st) (gl_log st)
       (gl_uniform_locations st) (gl_attrib_locations st) (gl_error st).

Definition gl_emit (c : gl_call) (st : gl_state) : gl_state :=
  mkGL (gl_buffers st) (gl_vaos st) (gl_array_buffer st) (gl_vertex_array st)
       (gl_program st) (gl_log st ++ [c])
       (gl_uniform_locations st) (gl_attrib_locations st) (gl_error st).

(** A call that generates an error has no other effect; the error flag
    keeps the first error until [glGetError] reads it, which the code
    never calls. *)
Definition gl_raise (e : gl_err) (st : gl_state) : gl_state :=
  match gl_error st with
  | Some _ => st
  | None => mkGL (gl_buffers st) (gl_vaos st) (gl_array_buffer st) (gl_vertex_array st)
                 (gl_program st) (gl_log st) (gl_uniform_locations st)
                 (gl_attrib_locations st) (Some e)
  end.

(** A vertex attribute index the context has; [GLint] [-1] (an attribute
    the program lacks) converts to a [GLuint] above every maximum. *)
Definition attrib_index_ok (index : Z) : bool :=
  (0 <=? index)%Z && (index <? gl_max_vertex_attribs)%Z.

(** [glGenBuffers(1, &name)]. *)
Definition glGenBuffers (st : gl_state) : N * gl_state :=
  let n := fresh_name (gl_buffers st) in
  (n, gl_set_buffers (<[n := []]> (gl_buffers st)) (gl_array_buffer st) st).

(** [glDeleteBuffers(1, &name)]. *)
Definition glDeleteBuffers (n : N) (st : gl_state) : gl_state :=
  gl_set_buffers (delete n (gl_buffers st))
    (if decide (gl_array_buffer st = n) then 0%N else gl_array_buffer st) st.

(** [glBindBuffer(GL_ARRAY_BUFFER, name)]: a name that is not live
    (never generated, or deleted) is [GL_INVALID_OPERATION]. *)
Definition glBindBuffer (n : N) (st : gl_state) : gl_state :=
  if decide (n = 0%N) then gl_set_buffers (gl_buffers st) 0 st
  else match gl_buffers st !! n with
       | Some _ => gl_set_buffers (gl_buffers st) n st
       | None => gl_raise GL_INVALID_OPERATION st
       end.

(** [glBufferData(GL_ARRAY_BUFFER, size, data, GL_STATIC_DRAW)]: the
    bound buffer's store becomes a copy of [data]. *)
Definition glBufferData (data : list R) (st : gl_state) : gl_state :=
  if decide (gl_array_buffer st = 0%N) then gl_raise GL_INVALID_OPERATION st
  else gl_set_buffers (<[gl_array_buffer st := data]> (gl_buffers st))
                      (gl_array_buffer st) st.

(** [glGenVertexArrays(1, &name)]. *)
Definition glGenVertexArrays (st : gl_state) : N * gl_state :=
  let n := fresh_name (gl_vaos st) in
  (n, gl_set_vaos (<[n := mkVao [] None]> (gl_vaos st)) (gl_vertex_array st) st).

(** [glDeleteVertexArrays(1, &name)]. *)
Definition glDeleteVertexArrays (n : N) (st : gl_state) : gl_state :=
  gl_set_vaos (delete n (gl_vaos st))
    (if decide (gl_vertex_array st = n) then 0%N else gl_vertex_array st) st.

(** [glBindVertexArray(name)]: a name that is not live is
    [GL_INVALID_OPERATION]. *)
Definition glBindVertexArray (n : N) (st : gl_state) : gl_state :=
  if decide (n = 0%N) then gl_set_vaos (gl_vaos st) 0 st
  else match gl_vaos st !! n with
       | Some _ => gl_set_vaos (gl_vaos st) n st
       | None => gl_raise GL_INVALID_OPERATION st
       end.

(** [glEnableVertexAttribArray(index)] on the bound vertex array: an
    index out of range is [GL_INVALID_VALUE], no bound vertex array
    [GL_INVALID_OPERATION]. *)
Definition glEnableVertexAttribArray (index : Z) (st : gl_state) : gl_state :=
  if negb (attrib_index_ok index) then gl_raise GL_INVALID_VALUE st
  else match gl_vaos st !! gl_vertex_array st with
  | Some v => gl_set_vaos (<[gl_vertex_array st := mkVao (index :: vao_enabled v) (vao_attrib v)]>
                            (gl_vaos st)) (gl_vertex_array st) st
  | None => gl_raise GL_INVALID_OPERATION st
  end.

(** [glVertexAttribPointer(index, 2, GL_FLOAT, GL_FALSE, 0, nullptr)]:
    attribute [index] of the bound vertex array reads tightly packed
    pairs of floats from the bound array buffer (with a null offset no
    buffer is required); the errors are those of
    [glEnableVertexAttribArray]. *)
Definition glVertexAttribPointer (index : Z) (st : gl_state) : gl_state :=
  if negb (attrib_index_ok index) then gl_raise GL_INVALID_VALUE st
  else match gl_vaos st !! gl_vertex_array st with
  | Some v =>
      gl_set_vaos (<[gl_vertex_array st := mkVao (vao_enabled v)
                                           (Some (index, gl_array_buffer st))]>
                    (gl_vaos st)) (gl_vertex_array st) st
  | None => gl_raise GL_INVALID_OPERATION st
  end.

(** [glUseProgram(program)]. *)
Definition glUseProgram (p : N) (st : gl_state) : gl_state :=
  gl_emit (CallUseProgram p)
    (mkGL (gl_buffers st) (gl_vaos st) (gl_array_buffer st) (gl_vertex_array st) p
          (gl_log st) (gl_uniform_locations st) (gl_attrib_locations st) (gl_error st)).

(** [glGetUniformLocation(program, name)] and [glGetAttribLocation]: the
    locations the linker assigned, -1 for a name the program lacks. *)
Definition glGetUniformLocation (p : N) (name : String.string) (st : gl_state) : Z :=
  gl_uniform_locations st p name.

Definition glGetAttribLocation (p : N) (name : String.string) (st : gl_state) : Z :=
  gl_attrib_locations st p name.

Definition glUniform1f (loc : Z) (v : R) (st : gl_state) : gl_state :=
  gl_emit (CallUniform1f loc v) st.

Definition glUniform2f (loc : Z) (v0 v1 : R) (st : gl_state) : gl_state :=
  gl_emit (CallUniform2f loc v0 v1) st.

Definition glUniform4fv (loc : Z) (v0 v1 v2 v3 : R) (st : gl_state) : gl_state :=
  gl_emit (CallUniform4fv loc v0 v1 v2 v3) st.

(** [glDrawArrays(mode, first, count)] with the bound vertex array: a
    negative count is [GL_INVALID_VALUE], no bound vertex array
    [GL_INVALID_OPERATION] (core profile); either draws nothing. *)
Definition glDrawArrays (mode : gl_mode) (first count : Z) (st : gl_state) : gl_state :=
  if (count <? 0)%Z then gl_raise GL_INVALID_VALUE st
  else if decide (gl_vertex_array st = 0%N) then gl_raise GL_INVALID_OPERATION st
  else gl_emit (CallDrawArrays mode first count (gl_vertex_array st)) st.

(** A draw reads vertices [first .. first + count - 1], two floats each,
    from the buffer of the vertex array's position attribute. *)
Definition draw_in_bounds (st : gl_state) (first count : Z) (vao : N) : Prop :=
  exists (v : gl_vao) (index : Z) (buf : N) (data : list R),
    gl_vaos st !! vao = Some v /\ vao_attrib v = Some (index, buf)
    /\ gl_buffers st !! buf = Some data
    /\ (0 <= first /\ 2 * (first + count) <= Z.of_nat (length data))%Z.

(** Whether a logged call is a draw call. *)
Definition is_draw (c : gl_call) : bool :=
  match c with CallDrawArrays _ _ _ _ => true | _ => false end.

(** A context with no objects, whose programs have the given locations. *)
Definition gl_initial (uloc aloc : N -> String.string -> Z) : gl_state :=
  mkGL ∅ ∅ 0 0 0 [] uloc aloc None.
End GLState.

Arguments gl_call : clear implicits.
Arguments gl_state : clear implicits.

(** ** The laws of the name allocator *)

Lemma foldr_max_ge (l : list N) (x : N) : In x l -> (x <= foldr N.max 0 l)%N.
Proof. induction l as [|y l IH]; simpl; [tauto|]. intros [->|H]; [lia|]. specialize (IH H). lia. Qed.

Lemma fresh_name_fresh {A} (m : gmap N A) : m !! fresh_name m = None.
Proof.
  unfold fresh_name.
  destruct (List.find _ _) as [n|] eqn:E.
  - apply find_some in E as [_ E]. apply bool_decide_eq_true in E. exact E.
  - destruct (m !! _) as [a|] eqn:Hl; [|reflexivity]. exfalso.
    apply elem_of_map_to_list in Hl.
    assert (Hin : In (N.succ (foldr N.max 0%N (map fst (map_to_list m))))
                     (map fst (map_to_list m))).
    { apply in_map_iff. eexists (_, a). split; [reflexivity|]. by apply list_elem_of_In. }
    apply foldr_max_ge in Hin. lia.
Qed.

Lemma fresh_name_pos {A} (m : gmap N A) : fresh_name m <> 0%N.
Proof.
  unfold fresh_name.
  destruct (List.find _ _) as [n|] eqn:E; [|lia].
  apply find_some in E as [Hin _]. apply in_map_iff in Hin as (k & <- & Hk).
  apply in_seq in Hk. lia.
Qed.

Lemma glGenBuffers_glDeleteBuffers {R} (st : gl_state R) :
  gl_buffers (glDeleteBuffers (fst (glGenBuffers st)) (snd (glGenBuffers st)))
  = gl_buffers st.
Proof. simpl. apply delete_insert_id, fresh_name_fresh. Qed.

(** ** The effect of each call when its arguments name live objects *)

Section Steps.
Context {R : Type}.
Implicit Types (st : gl_state R) (n : N).

Lemma glBindBuffer_live st n :
  n <> 0%N -> is_Some (gl_buffers st !! n) ->
  glBindBuffer n st = gl_set_buffers (gl_buffers st) n st.
Proof.
  intros Hn [d Hd]. unfold glBindBuffer. rewrite decide_False, Hd by exact Hn. reflexivity.
Qed.

Lemma glBindBuffer_0 st : glBindBuffer 0 st = gl_set_buffers (gl_buffers st) 0 st.
Proof. reflexivity. Qed.

Lemma glBufferData_bound st d :
  gl_array_buffer st <> 0%N ->
  glBufferData d st
  = gl_set_buffers (<[gl_array_buffer st := d]> (gl_buffers st)) (gl_array_buffer st) st.
Proof. intros Hn. unfold glBufferData. rewrite decide_False by exact Hn. reflexivity. Qed.

Lemma glBindVertexArray_live st n :
  n <> 0%N -> is_Some (gl_vaos st !! n) ->
  glBindVertexArray n st = gl_set_vaos (gl_vaos st) n st.
Proof.
  intros Hn [v Hv]. unfold glBindVertexArray. rewrite decide_False, Hv by exact Hn. reflexivity.
Qed.

Lemma glBindVertexArray_0 st : glBindVertexArray 0 st = gl_set_vaos (gl_vaos st) 0 st.
Proof. reflexivity. Qed.

Lemma glBindVertexArray_ok st n :
  n = 0%N \/ is_Some (gl_vaos st !! n) ->
  glBindVertexArray n st = gl_set_vaos (gl_vaos st) n st.
Proof. intros [->|Hn]; [reflexivity|]. destruct (decide (n = 0%N)) as [->|H0]; [reflexivity|].
  apply glBindVertexArray_live; assumption. Qed.

Lemma glEnableVertexAttribArray_bound st i v :
  attrib_index_ok i = true -> gl_vaos st !! gl_vertex_array st = Some v ->
  glEnableVertexAttribArray i st
  = gl_set_vaos (<[gl_vertex_array st := mkVao (i :: vao_enabled v) (vao_attrib v)]>
                  (gl_vaos st)) (gl_vertex_array st) st.
Proof. intros Hi Hv. unfold glEnableVertexAttribArray. rewrite Hi, Hv. reflexivity. Qed.

Lemma glDrawArrays_bound st mode first count :
  (0 <= count)%Z -> gl_vertex_array st <> 0%N ->
  glDrawArrays mode first count st
  = gl_emit (CallDrawArrays mode first count (gl_vertex_array st)) st.
Proof.
  intros Hc Hv. unfold glDrawArrays.
  destruct (Z.ltb_spec count 0); [lia|]. rewrite decide_False by exact Hv. reflexivity.
Qed.

(** No draw or uniform call changes the vertex-array binding. *)
Lemma glDrawArrays_vertex_array st mode first count :
  gl_vertex_array (glDrawArrays mode first count st) = gl_vertex_array st.
Proof.
  unfold glDrawArrays, gl_raise.
  destruct (count <? 0)%Z, (decide (gl_vertex_array st = 0%N)), (gl_error st); reflexivity.
Qed.

Lemma glUniform2f_vertex_array st loc v0 v1 :
  gl_vertex_array (glUniform2f loc v0 v1 st) = gl_vertex_array st.
Proof. reflexivity. Qed.

(** A call on an error path leaves the objects, bindings and log as they
    were and sets the error flag if it was clear. *)
Lemma gl_raise_spec st e :
  gl_buffers (gl_raise e st) = gl_buffers st /\ gl_vaos (gl_raise e st) = gl_vaos st
  /\ gl_array_buffer (gl_raise e st) = gl_array_buffer st
  /\ gl_vertex_array (gl_raise e st) = gl_vertex_array st
  /\ gl_log (gl_raise e st) = gl_log st
  /\ gl_error (gl_raise e st) = Some (default e (gl_error st)).
Proof. destruct st as [b v ab va p l ul al [e'|]]; repeat split. Qed.

Lemma glVertexAttribPointer_bound st i v :
  attrib_index_ok i = true -> gl_vaos st !! gl_vertex_array st = Some v ->
  glVertexAttribPointer i st
  = gl_set_vaos (<[gl_vertex_array st := mkVao (vao_enabled v) (Some (i, gl_array_buffer st))]>
                  (gl_vaos st)) (gl_vertex_array st) st.
Proof. intros Hi Hv. unfold glVertexAttribPointer. rewrite Hi, Hv. reflexivity. Qed.

Lemma glBindVertexArray_dead st n :
  n <> 0%N -> gl_vaos st !! n = None -> glBindVertexArray n st = gl_raise GL_INVALID_OPERATION st.
Proof. intros Hn Hv. unfold glBindVertexArray. rewrite decide_False, Hv by exact Hn. reflexivity. Qed.

Lemma glDrawArrays_unbound st mode first count :
  (0 <= count)%Z -> gl_vertex_array st = 0%N ->
  glDrawArrays mode first count st = gl_raise GL_INVALID_OPERATION st.
Proof.
  intros Hc Hv. unfold glDrawArrays.
  destruct (Z.ltb_spec count 0); [lia|]. rewrite decide_True by exact Hv. reflexivity.
Qed.

(** Once the flag is raised, a failing call changes nothing at all. *)
Lemma gl_raise_raised st e : is_Some (gl_error st) -> gl_raise e st = st.
Proof. intros [e' He]. unfold gl_raise. rewrite He. reflexivity. Qed.

Lemma glDrawArrays_dead st mode first count :
  (0 <= count)%Z -> gl_vertex_array st = 0%N -> is_Some (gl_error st) ->
  glDrawArrays mode first count st = st.
Proof. intros Hc Hv He. rewrite glDrawArrays_unbound by assumption. apply gl_raise_raised, He. Qed.

Lemma glEnableVertexAttribArray_bad st i :
  attrib_index_ok i = false -> glEnableVertexAttribArray i st = gl_raise GL_INVALID_VALUE st.
Proof. intros Hi. unfold glEnableVertexAttribArray. rewrite Hi. reflexivity. Qed.

Lemma glVertexAttribPointer_bad st i :
  attrib_index_ok i = false -> glVertexAttribPointer i st = gl_raise GL_INVALID_VALUE st.
Proof. intros Hi. unfold glVertexAttribPointer. rewrite Hi. reflexivity. Qed.

(** The projections of a state on an error path, as rewrite rules. *)
Lemma gl_raise_buffers st e : gl_buffers (gl_raise e st) = gl_buffers st.
Proof. apply gl_raise_spec. Qed.
Lemma gl_raise_vaos st e : gl_vaos (gl_raise e st) = gl_vaos st.
Proof. apply gl_raise_spec. Qed.
Lemma gl_raise_array_buffer st e : gl_array_buffer (gl_raise e st) = gl_array_buffer st.
Proof. apply gl_raise_spec. Qed.
Lemma gl_raise_vertex_array st e : gl_vertex_array (gl_raise e st) = gl_vertex_array st.
Proof. apply gl_raise_spec. Qed.
Lemma gl_raise_log st e : gl_log (gl_raise e st) = gl_log st.
Proof. apply gl_raise_spec. Qed.
Lemma gl_raise_error st e : gl_error (gl_raise e st) = Some (default e (gl_error st)).
Proof. apply gl_raise_spec. Qed.
(** A context in which nothing can be drawn: no vertex array bound, an
    error already pending. *)
Definition gl_dead (st : gl_state R) : Prop := gl_vertex_array st = 0%N /\ is_Some (gl_error st).

(** [st'] follows [st] in a dead context, adding [out] to the log and
    changing no object. *)
Definition gl_quiet (st st' : gl_state R) (out : list (gl_call R)) : Prop :=
  gl_dead st' /\ gl_vaos st' = gl_vaos st /\ gl_error st' = gl_error st /\ gl_log st' = gl_log st ++ out.

Lemma gl_quiet_trans st1 st2 st3 o1 o2 :
  gl_quiet st1 st2 o1 -> gl_quiet st2 st3 o2 -> gl_quiet st1 st3 (o1 ++ o2).
Proof.
  intros (_ & Hv & He & Hl) (Hd & Hv' & He' & Hl').
  repeat split; try apply Hd; [congruence | congruence | rewrite Hl', Hl, app_assoc; reflexivity].
Qed.

(** A loop whose every iteration is quiet in a dead context is quiet. *)
Lemma fold_left_quiet {A} (step : gl_state R -> A -> gl_state R) (out : A -> list (gl_call R)) (l : list A) :
  (forall st x, gl_dead st -> gl_quiet st (step st x) (out x)) ->
  forall st, gl_dead st -> gl_quiet st (fold_left step l st) (flat_map out l).
Proof.
  intros Hstep. induction l as [|x l IH]; intros st Hd; unfold gl_quiet; simpl.
  - rewrite app_nil_r. repeat split; apply Hd.
  - destruct (Hstep st x Hd) as [Hd' Hq].
    apply (gl_quiet_trans _ _ _ _ _ (conj Hd' Hq)), IH, Hd'.
Qed.

Lemma gl_emit_quiet st c : gl_dead st -> gl_quiet st (gl_emit c st) [c].
Proof. intros Hd. repeat split; apply Hd. Qed.
End Steps.

(** A raised flag stays raised: the error code of the first failure. *)
Lemma default_Some_eq {A} (d x : A) : default d (Some x) = x.
Proof. reflexivity. Qed.

Create Rewrite HintDb gl_proj.
#[export] Hint Rewrite @gl_raise_buffers @gl_raise_vaos @gl_raise_array_buffer
  @gl_raise_vertex_array @gl_raise_log @gl_raise_error
  @glDrawArrays_vertex_array @glUniform2f_vertex_array @default_Some_eq : gl_proj.

(** Projections of a state built by a sequence of calls. *)
Ltac gl_proj :=
  repeat (cbn [gl_buffers gl_vaos gl_array_buffer gl_vertex_array gl_log gl_error
               gl_emit gl_set_buffers gl_set_vaos glUniform1f glUniform2f glUniform4fv] in *;
          autorewrite with gl_proj in *).

#[export] Hint Resolve fresh_name_fresh fresh_name_pos : cpp.

(** The side conditions of the step lemmas on a state built by the
    previous calls: a name bound by the last insert, or a fact at hand. *)
Ltac gl_side :=
  cbn; first [ assumption | apply lookup_insert_eq
             | rewrite lookup_insert_eq; eexists; reflexivity ].

(** Names the pair each [glGen*] call of the goal returns. *)
Ltac gl_name_gens :=
  repeat match goal with
  | |- context [glGenBuffers ?st] => let E := fresh "Egen" in destruct (glGenBuffers st) eqn:E
  | |- context [glGenVertexArrays ?st] => let E := fresh "Egen" in destruct (glGenVertexArrays st) eqn:E
  end.

(** ** The current program

    Only [glUseProgram] changes the current program. *)
Section Program.
Context {R : Type}.
Implicit Types st : gl_state R.

Lemma gl_program_raise st e : gl_program (gl_raise e st) = gl_program st.
Proof. unfold gl_raise. destruct (gl_error st); reflexivity. Qed.

Local Ltac keeps := intros; repeat case_match; simplify_eq/=; rewrite ?gl_program_raise; reflexivity.

Lemma gl_program_glGenBuffers_eq st st' n : glGenBuffers st = (n, st') -> gl_program st' = gl_program st.
Proof. unfold glGenBuffers. keeps. Qed.
Lemma gl_program_glGenVertexArrays_eq st st' n :
  glGenVertexArrays st = (n, st') -> gl_program st' = gl_program st.
Proof. unfold glGenVertexArrays. keeps. Qed.
Lemma gl_program_glDeleteBuffers st n : gl_program (glDeleteBuffers n st) = gl_program st.
Proof. reflexivity. Qed.
Lemma gl_program_glDeleteVertexArrays st n : gl_program (glDeleteVertexArrays n st) = gl_program st.
Proof. reflexivity. Qed.
Lemma gl_program_glBindBuffer st n : gl_program (glBindBuffer n st) = gl_program st.
Proof. unfold glBindBuffer. keeps. Qed.
Lemma gl_program_glBindVertexArray st n : gl_program (glBindVertexArray n st) = gl_program st.
Proof. unfold glBindVertexArray. keeps. Qed.
Lemma gl_program_glBufferData st d : gl_program (glBufferData d st) = gl_program st.
Proof. unfold glBufferData. keeps. Qed.
Lemma gl_program_glEnableVertexAttribArray st i :
  gl_program (glEnableVertexAttribArray i st) = gl_program st.
Proof. unfold glEnableVertexAttribArray. keeps. Qed.
Lemma gl_program_glVertexAttribPointer st i :
  gl_program (glVertexAttribPointer i st) = gl_program st.
Proof. unfold glVertexAttribPointer. keeps. Qed.
Lemma gl_program_glDrawArrays st m f c : gl_program (glDrawArrays m f c st) = gl_program st.
Proof. unfold glDrawArrays. keeps. Qed.
End Program.

Create Rewrite HintDb gl_prog.
#[export] Hint Rewrite @gl_program_glDeleteBuffers @gl_program_glDeleteVertexArrays
  @gl_program_glBindBuffer @gl_program_glBindVertexArray @gl_program_glBufferData
  @gl_program_glEnableVertexAttribArray @gl_program_glVertexAttribPointer
  @gl_program_glDrawArrays : gl_prog.

(** The current program after a sequence of calls without
    [glUseProgram]. *)
Ltac gl_prog :=
  repeat progress (autorewrite with gl_prog;
          cbn [gl_program glUniform1f glUniform2f glUniform4fv gl_emit];
          match goal with
          | E : glGenBuffers _ = (_, ?st) |- context [gl_program ?st] =>
              rewrite (gl_program_glGenBuffers_eq _ _ _ E)
          | E : glGenVertexArrays _ = (_, ?st) |- context [gl_program ?st] =>
              rewrite (gl_program_glGenVertexArrays_eq _ _ _ E)
          | _ => idtac
          end).
