(* ===== verification/Motion.v ===== *)
(** * The motion integrator: [Asteroids::update] and [Enemies::update]

    [update] (asteroids.cpp, lines 92-114; enemies.cpp, lines 92-114)
    first runs the zig-zag timer shared by the whole formation
    ([zigzag_tick]: subtract [deltaTime] from [tempo_atual_restante]; when
    it reaches zero, flip [sentido] and reload [CONST_TEMPO_ZIG_ZAG]), then
    moves every ship ([advance_asteroid]): down by a vertical drop,
    sideways by [sentido * deltaTime], rotate by
    [glm::wrapAngle], and wrap each coordinate once around the square
    [-1, 1] ([wrap_axis]).  The two classes differ only in the drop:
    the double [0.4 * deltaTime] for [Asteroids], the game speed
    [m_gameData.fator_vel_jogo * deltaTime] for [Enemies].

    The timer and ship-list equations of one frame ([update_timer],
    [update_asteroids], [update_iter_period]) hold at every instance and
    serve [Runs] (the IEEE runs) and [Game].  At the exact instance
    [Q_num] the section [Exact] defines the invariant of a formation
    between frames ([formation_inv]: a positive period, a timer in
    (0, period], a direction of +1 or -1, every ship in the square with a
    wrapped rotation) with its boolean test, used by [Formation] for the
    state [initializeGL] builds, and shows that one frame longer than
    2 s takes a ship on the edge out of the square
    ([update_long_frame_leaves_square]): the single wrap-around is only
    enough for frames of at most 2 s.  Properties of long runs of
    [update] are proved at the IEEE instance in [Runs], where the
    rounding of the timer changes them. *)

From Stdlib Require Import ZArith QArith Qround Qabs Lqa Lia List.
From S2P Require Import Prelude QExact Actor Random.
Import ListNotations.

Section Motion.
Context {R : Type} `{Num R}.
Local Open Scope cpp_scope.

(** [glm::two_pi<float>()]: the double constant rounded to float. *)
Definition two_pi : R :=
  flit (628318530717958647692528676655900576 # 100000000000000000000000000000000000).

(** [glm::mod(x, y) = x - y * floor(x / y)] on floats. *)
Definition glm_mod (x y : R) : R := fsub x (fmul y (num_floor (fdiv x y))).

(** [glm::wrapAngle(angle) = abs(mod(angle, two_pi<T>()))]. *)
Definition wrapAngle (angle : R) : R := num_abs (glm_mod angle two_pi).

(** Lines 94-100: the timer and the direction of the zig-zag. *)
Definition zigzag_tick (period deltaTime rem : R) (sen : Z) : R * Z :=
  let rem := fsub rem deltaTime in
  if rem <=? fint 0 then (period, sen * -1)%Z else (rem, sen).

(** Lines 109-112: one wrap-around test on each side of an axis. *)
Definition wrap_axis (c : R) : R :=
  let c := if c <? flit (-1) then fadd c (flit 2) else c in
  if c >? flit 1 then fsub c (flit 2) else c.

(** Lines 103-112, the body of the loop over the ships: [drop] is the
    value subtracted from [m_translation.y]. *)
Definition advance_asteroid (drop : R) (sen : Z) (deltaTime : R)
           (a : Asteroid R) : Asteroid R :=
  let t := m_translation a in
  let ty := num_to_float (vy t - drop) in
  let tx := fsub (vx t) (fmul (fint sen) deltaTime) in
  let rot := wrapAngle (fadd (m_rotation a) (fmul (m_angularVelocity a) deltaTime)) in
  set_motion (mkvec2 (wrap_axis tx) (wrap_axis ty)) rot a.

(** [Asteroids::update(float deltaTime)], asteroids.cpp lines 92-114. *)
Definition update {G} (deltaTime : R) (s : Asteroids R G) : Asteroids R G :=
  let '(rem, sen) := zigzag_tick (CONST_TEMPO_ZIG_ZAG s) deltaTime
                                 (tempo_atual_restante s) (sentido s) in
  set_timer rem sen
    (map (advance_asteroid (num_lit (4 # 10) * deltaTime) sen deltaTime)
         (m_asteroids s)) s.

(** [struct GameData] (gamedata.hpp, not in the repository): the field
    read by [Enemies::update], a [float]. *)
Record GameData := mkGameData { fator_vel_jogo : R }.

(** [Enemies::update(GameData m_gameData, float deltaTime)],
    enemies.cpp lines 92-114. *)
Definition update_enemies {G} (m_gameData : GameData) (deltaTime : R)
           (s : Asteroids R G) : Asteroids R G :=
  let '(rem, sen) := zigzag_tick (CONST_TEMPO_ZIG_ZAG s) deltaTime
                                 (tempo_atual_restante s) (sentido s) in
  set_timer rem sen
    (map (advance_asteroid (fmul (fator_vel_jogo m_gameData) deltaTime) sen deltaTime)
         (m_asteroids s)) s.
End Motion.

Arguments GameData : clear implicits.

(** The timer of a frame is [zigzag_tick] of the timer before it, in
    every arithmetic. *)
Lemma update_timer {R} `{Num R} {G} (dt : R) (s : Asteroids R G) :
  (tempo_atual_restante (update dt s), sentido (update dt s))
    = zigzag_tick (CONST_TEMPO_ZIG_ZAG s) dt (tempo_atual_restante s) (sentido s)
  /\ CONST_TEMPO_ZIG_ZAG (update dt s) = CONST_TEMPO_ZIG_ZAG s.
Proof. unfold update. destruct (zigzag_tick _ _ _ _). split; reflexivity. Qed.

(** The ships of a frame are the old ones advanced with the new
    direction. *)
Lemma update_asteroids {R} `{Num R} {G} (dt : R) (s : Asteroids R G) :
  m_asteroids (update dt s)
    = map (advance_asteroid (num_lit (4 # 10) * dt)%cpp (sentido (update dt s)) dt)
          (m_asteroids s).
Proof. unfold update. destruct (zigzag_tick _ _ _ _). reflexivity. Qed.

(** The period never changes. *)
Lemma update_iter_period {R} `{Num R} {G} (dt : R) (s : Asteroids R G) (m : nat) :
  CONST_TEMPO_ZIG_ZAG (Nat.iter m (update dt) s) = CONST_TEMPO_ZIG_ZAG s.
Proof. induction m; [reflexivity|]. simpl. rewrite (proj2 (update_timer _ _)). exact IHm. Qed.

(** The zig-zag state of an object: period, timer and direction. *)
Definition zigzag_state {R G} (s : Asteroids R G) : R * R * Z :=
  (CONST_TEMPO_ZIG_ZAG s, tempo_atual_restante s, sentido s).

(** The zig-zag state after a run of frames depends only on the
    zig-zag state before it: the ships do not feed back into the timer. *)
Lemma update_run_zigzag {R} `{Num R} {G} (dts : list R) (s1 s2 : Asteroids R G) :
  zigzag_state s1 = zigzag_state s2 ->
  zigzag_state (fold_left (fun s dt => update dt s) dts s1)
  = zigzag_state (fold_left (fun s dt => update dt s) dts s2).
Proof.
  revert s1 s2. induction dts as [|dt dts IH]; intros s1 s2 E; simpl; [exact E|].
  apply IH. unfold zigzag_state in *. injection E as E1 E2 E3.
  destruct (update_timer dt s1) as [T1 C1], (update_timer dt s2) as [T2 C2].
  rewrite E1, E2, E3, <- T2 in T1. injection T1 as -> ->. rewrite C1, C2, E1. reflexivity.
Qed.

(** ** Theorems in exact arithmetic *)

Section Exact.
Local Open Scope Q_scope.

(** The timer state: a positive remainder of at most one period and a
    direction of +1 or -1. *)
Definition timer_inv (period rem : Q) (sen : Z) : Prop :=
  0 < rem <= period /\ (sen = 1 \/ sen = -1)%Z.

(** A ship inside the square [-1, 1] x [-1, 1] with a wrapped rotation. *)
Definition ship_inv (a : Asteroid Q) : Prop :=
  -1 <= vx (m_translation a) <= 1 /\ -1 <= vy (m_translation a) <= 1
  /\ 0 <= m_rotation a < two_pi.

(** The invariant of an [Asteroids] object between two frames. *)
Definition formation_inv {G} (s : Asteroids Q G) : Prop :=
  0 < CONST_TEMPO_ZIG_ZAG s
  /\ timer_inv (CONST_TEMPO_ZIG_ZAG s) (tempo_atual_restante s) (sentido s)
  /\ Forall ship_inv (m_asteroids s).

(** The same invariants as boolean tests, for concrete states. *)
Definition ship_invb (a : Asteroid Q) : bool :=
  Qle_bool (-1) (vx (m_translation a)) && Qle_bool (vx (m_translation a)) 1
  && Qle_bool (-1) (vy (m_translation a)) && Qle_bool (vy (m_translation a)) 1
  && Qle_bool 0 (m_rotation a) && negb (Qle_bool two_pi (m_rotation a)).

Definition formation_invb {G} (s : Asteroids Q G) : bool :=
  negb (Qle_bool (CONST_TEMPO_ZIG_ZAG s) 0)
  && negb (Qle_bool (tempo_atual_restante s) 0)
  && Qle_bool (tempo_atual_restante s) (CONST_TEMPO_ZIG_ZAG s)
  && (Z.eqb (sentido s) 1 || Z.eqb (sentido s) (-1))
  && forallb ship_invb (m_asteroids s).

(** A ship of the default shape at a given position. *)
Definition ship_at (x y : Q) : Asteroid Q :=
  set_translation (mkvec2 x y) default_asteroid.

Lemma two_pi_pos : 0 < (two_pi : Q).
Proof. reflexivity. Qed.

Lemma update_ships {G} (dt : Q) (s : Asteroids Q G) :
  m_asteroids (update dt s)
    = map (advance_asteroid ((4 # 10) * dt) (sentido (update dt s)) dt) (m_asteroids s).
Proof. unfold update. destruct (zigzag_tick _ _ _ _). reflexivity. Qed.

Lemma ship_invb_sound (a : Asteroid Q) : ship_invb a = true -> ship_inv a.
Proof.
  unfold ship_invb, ship_inv.
  rewrite !Bool.andb_true_iff, Bool.negb_true_iff, !Qle_bool_iff.
  intros (((((H1 & H2) & H3) & H4) & H5) & H6). apply Q_leb_false in H6.
  repeat split; assumption.
Qed.

Lemma formation_invb_sound {G} (s : Asteroids Q G) :
  formation_invb s = true -> formation_inv s.
Proof.
  unfold formation_invb, formation_inv, timer_inv.
  rewrite !Bool.andb_true_iff, !Bool.negb_true_iff, Bool.orb_true_iff,
          !Z.eqb_eq, Qle_bool_iff, forallb_forall.
  intros ((((Hp & Hr) & Hle) & Hs) & Hf).
  apply Q_leb_false in Hp, Hr.
  split; [exact Hp|]. split; [split; [split|]; assumption|].
  apply Forall_forall. intros a Ha. apply ship_invb_sound, Hf, Ha.
Qed.

(** A ship on the right edge, the direction +1 and the timer full. *)
Definition right_edge_state : Asteroids Q Z :=
  set_timer 1 1 [ship_at 1 0] new_Asteroids.

(** C9: A frame longer than 2 s breaks the formation invariant: for every deltaTime > 2, the state with one ship on the right edge x = 1, a full timer of 1 second and direction +1 satisfies the invariant, but one frame flips the direction, moves the ship to 1 + deltaTime and the single wrap-around leaves it at deltaTime - 1 > 1, outside the square. *)
Theorem update_long_frame_leaves_square (dt : Q) :
  2 < dt ->
  formation_inv right_edge_state
  /\ (exists a, m_asteroids (update dt right_edge_state) = [a] /\ vx (m_translation a) == dt - 1)
  /\ ~ formation_inv (update dt right_edge_state).
Proof.
  intros Hdt.
  assert (Hs : sentido (update dt right_edge_state) = (-1)%Z).
  { unfold update, right_edge_state, zigzag_tick. cbn [tempo_atual_restante set_timer sentido
      CONST_TEMPO_ZIG_ZAG new_Asteroids]. qunfold. qcase; [reflexivity|].
    unfold inject_Z in *. lra. }
  assert (Hx : forall a, m_asteroids (update dt right_edge_state) = [a] -> vx (m_translation a) == dt - 1).
  { rewrite update_ships, Hs. intros a [= <-].
    unfold advance_asteroid, wrap_axis, set_motion. cbn [m_translation vx].
    change (vx (m_translation (ship_at 1 0))) with 1. qunfold.
    repeat qcase; unfold inject_Z in *; lra. }
  split; [apply formation_invb_sound; vm_compute; reflexivity|].
  rewrite update_ships, Hs in *. split.
  - eexists. split; [reflexivity|]. apply Hx. reflexivity.
  - intros (_ & _ & Hf). rewrite update_ships, Hs in Hf. cbn [map] in Hf.
    apply Forall_inv in Hf as (Hax & _). specialize (Hx _ eq_refl). lra.
Qed.

Lemma update_long_frame_leaves_square_witness :
  2 < 3
  /\ formation_inv right_edge_state
  /\ (exists a, m_asteroids (update 3 right_edge_state) = [a] /\ vx (m_translation a) == 3 - 1)
  /\ ~ formation_inv (update 3 right_edge_state).
Proof. split; [reflexivity|]. apply update_long_frame_leaves_square. reflexivity. Defined.
End Exact.
