(* ===== verification/Formation.v ===== *)
(** * The formation builder: [createAsteroid], [initializeGL], [terminateGL]

    [createAsteroid] (asteroids.cpp, lines 116-185) makes one ship: fixed
    shape data (16 sides, colour (1, 0.5, 0.5, 1), scale 0.02, rotation 0),
    three draws of the random distribution (the angular velocity, then the
    two components of a direction whose normalised seventh is the
    velocity), and the GL objects of its 16-point fan: a buffer holding
    the points and a vertex array reading them as attribute
    ["inPosition"].

    [initializeGL] (lines 6-56) deletes the previous formation's GL
    objects ([terminateGL], lines 85-90), seeds the engine with the
    clock, reads the uniform locations, replaces the list by
    [CONST_QUANTIDADE_NAVES] fresh ships and places them on three rows:
    [place_asteroid] is the body of the placement loop, [formation_loop]
    the loop with its variables [x] (a double) and [index].

    The state is passed explicitly: the object, its random engine and the
    GL context go in, their new values come out, in the order the code
    performs the calls.

    The theorems: in exact arithmetic the ships sit at the slots of the
    specification's table ([initializeGL_layout]) and, for at most 14
    ships, inside the square ([initializeGL_inv]); in every arithmetic the
    old GL objects are deleted and each ship gets a fresh buffer and
    vertex array of its own, without a GL error ([initializeGL_objects]),
    all of which the next [terminateGL] deletes
    ([initializeGL_terminateGL_roundtrip]);
    when the program has no attribute [inPosition] the unchecked location
    makes [glEnableVertexAttribArray] and [glVertexAttribPointer] fail
    with [GL_INVALID_VALUE] and the ship's vertex array reads nothing
    ([createAsteroid_missing_attribute]); with the libstdc++
    engine every angular velocity is in [-1, 1)
    ([initializeGL_angular_velocity_range]).  [initializeGL] keeps the
    zig-zag timer and direction, so a restart continues the old zig-zag
    over every later run of frames ([initializeGL_restart_keeps_zigzag]);
    [terminateGL] leaves the deleted names in the ships, and the next
    teardown deletes whatever object holds them by then
    ([initializeGL_reclaims_stale_names]). *)

From Stdlib Require Import String.
From stdpp Require Import base gmap.
From Stdlib Require Import ZArith QArith Qround Lqa Lia List.
From S2P Require Import Prelude QExact Actor Random GL Motion.
Import ListNotations.

Section Builder.
Context {R : Type} `{Num R} {G : Type} `{RandomEngine R G}.
Local Open Scope cpp_scope.

(** [glm::dot] and [glm::normalize] on a [vec2] of floats:
    [v * inversesqrt(dot(v, v))], [inversesqrt(x) = 1 / sqrt(x)]. *)
Definition glm_dot (v w : vec2 R) : R :=
  fadd (fmul (vx v) (vx w)) (fmul (vy v) (vy w)).

Definition glm_normalize (v : vec2 R) : vec2 R :=
  let inv := fdiv (flit 1) (num_to_float (num_sqrt (glm_dot v v))) in
  mkvec2 (fmul (vx v) inv) (fmul (vy v) inv).

(** The [std::array<glm::vec2, 16> positions] of lines 142-158: the fan's
    centre, fourteen rim points and the first rim point again. *)
Definition ship_positions : list (Q * Q) :=
  [(0, 0);
   (1 # 2, -2); (1 # 2, -5); (3, - (1 # 2)); (3, 3 # 2);
   (3 # 2, 5 # 2); (1 # 2, 5 # 2); (1 # 2, 2); (- (1 # 2), 2);
   (- (1 # 2), 5 # 2); (- (3 # 2), 5 # 2); (-3, 3 # 2); (-3, - (1 # 2));
   (- (1 # 2), -5); (- (1 # 2), -2);
   (1 # 2, -2)].

(** The bytes [glBufferData] copies: the floats of [positions.data()]. *)
Definition positions_data : list R :=
  flat_map (fun p => [flit (fst p); flit (snd p)]) ship_positions.

(** The vertex array [createAsteroid] leaves: attribute [pos] enabled and
    reading the ship's buffer [vbo]. *)
Definition ship_vao (pos : Z) (vbo : N) : gl_vao := mkVao [pos] (Some (pos, vbo)).

(** The ships of [l] own their GL objects in [gl]: a buffer with the fan
    and a vertex array reading it. *)
Definition ships_own (gl : gl_state R) (pos : Z) (l : list (Asteroid R)) : Prop :=
  Forall (fun a => gl_buffers gl !! m_vbo a = Some positions_data
                   /\ gl_vaos gl !! m_vao a = Some (ship_vao pos (m_vbo a))
                   /\ m_vao a <> 0%N) l.

(** [Asteroids::createAsteroid(glm::vec2 translation)], lines 116-185. *)
Definition createAsteroid (m_program : N) (translation : vec2 R) (re : G)
           (gl : gl_state R) : Asteroid R * G * gl_state R :=
  let '(angularVelocity, re) := random_dist re in
  let '(dx, re) := random_dist re in
  let '(dy, re) := random_dist re in
  let n := glm_normalize (mkvec2 dx dy) in
  let velocity := mkvec2 (fdiv (vx n) (flit 7)) (fdiv (vy n) (flit 7)) in
  let '(vbo, gl) := glGenBuffers gl in
  let gl := glBindBuffer vbo gl in
  let gl := glBufferData positions_data gl in
  let gl := glBindBuffer 0 gl in
  let positionAttribute := glGetAttribLocation m_program "inPosition"%string gl in
  let '(vao, gl) := glGenVertexArrays gl in
  let gl := glBindVertexArray vao gl in
  let gl := glBindBuffer vbo gl in
  let gl := glEnableVertexAttribArray positionAttribute gl in
  let gl := glVertexAttribPointer positionAttribute gl in
  let gl := glBindBuffer 0 gl in
  let gl := glBindVertexArray 0 gl in
  ({| m_vao := vao; m_vbo := vbo;
      m_angularVelocity := angularVelocity;
      m_color := mkvec4 (flit 1) (flit (1 # 2)) (flit (1 # 2)) (flit 1);
      m_hit := false;
      m_polygonSides := 16;
      m_rotation := flit 0;
      m_scale := num_to_float (num_lit (2 # 100));
      m_translation := translation;
      m_velocity := velocity |}, re, gl).

(** The call [createAsteroid()] of the loop (line 32) takes the default
    argument of the declaration, [translation = glm::vec2(0)]
    (asteroids.hpp, line 56). *)
Definition createAsteroid_default (m_program : N) (re : G) (gl : gl_state R) : Asteroid R * G * gl_state R :=
  createAsteroid m_program (mkvec2 (flit 0) (flit 0)) re gl.

(** Lines 34-53: the branch on [index] that places one ship and moves
    [x] on; [n] is [CONST_QUANTIDADE_NAVES]. *)
Definition place_asteroid (n index : Z) (x : R) (a : Asteroid R) : Asteroid R * R :=
  if ((1 <=? index) && (index <? 6))%Z then
    (set_translation (mkvec2 (num_to_float x) (flit (9 # 10))) a, x + num_lit (4 # 10))
  else if ((6 <=? index) && (index <? 10))%Z then
    let x := if (index =? 6)%Z then num_lit (- (6 # 10)) else x in
    (set_translation (mkvec2 (num_to_float x) (flit (7 # 10))) a, x + num_lit (4 # 10))
  else if ((10 <=? index) && (index <=? n))%Z then
    let x := if (index =? 10)%Z then num_lit (- (8 # 10)) else x in
    (set_translation (mkvec2 (num_to_float x) (flit (5 # 10))) a, x + num_lit (4 # 10))
  else (a, x).

(** Lines 29-55: [for (auto &asteroid : m_asteroids) { asteroid =
    createAsteroid(); ... index++; }]. *)
Fixpoint formation_loop (m_program : N) (n : Z) (l : list (Asteroid R)) (x : R)
         (index : Z) (re : G) (gl : gl_state R) : list (Asteroid R) * G * gl_state R :=
  match l with
  | [] => ([], re, gl)
  | _ :: rest =>
      let '(a, re, gl) := createAsteroid_default m_program re gl in
      let '(a, x) := place_asteroid n index x a in
      let '(rest, re, gl) := formation_loop m_program n rest x (index + 1) re gl in
      (a :: rest, re, gl)
  end.

(** [Asteroids::terminateGL()], lines 85-90. *)
Definition terminateGL (s : Asteroids R G) (gl : gl_state R) : gl_state R :=
  fold_left (fun gl a => glDeleteVertexArrays (m_vao a) (glDeleteBuffers (m_vbo a) gl))
            (m_asteroids s) gl.

(** [Asteroids::initializeGL(GLuint program)], lines 6-56; [seed] is
    the clock count read at line 10.  [clear] then [resize] (lines 20-21)
    leave [CONST_QUANTIDADE_NAVES] default ships; the member is 14 and is
    never assigned, so the negative sizes for which [resize] would throw
    [std::length_error] do not arise ([Z.to_nat] reads them as 0). *)
Definition initializeGL (program : N) (seed : Z) (s : Asteroids R G) (gl : gl_state R)
  : Asteroids R G * gl_state R :=
  let gl := terminateGL s gl in
  let re := engine_seed seed in
  let colorLoc := glGetUniformLocation program "color"%string gl in
  let rotationLoc := glGetUniformLocation program "rotation"%string gl in
  let scaleLoc := glGetUniformLocation program "scale"%string gl in
  let translationLoc := glGetUniformLocation program "translation"%string gl in
  let l := repeat default_asteroid (Z.to_nat (CONST_QUANTIDADE_NAVES s)) in
  let '(l, re, gl) :=
    formation_loop program (CONST_QUANTIDADE_NAVES s) l (num_lit (- (8 # 10))) 1 re gl in
  ({| m_program := program;
      m_colorLoc := colorLoc;
      m_rotationLoc := rotationLoc;
      m_scaleLoc := scaleLoc;
      m_translationLoc := translationLoc;
      CONST_QUANTIDADE_NAVES := CONST_QUANTIDADE_NAVES s;
      CONST_TEMPO_ZIG_ZAG := CONST_TEMPO_ZIG_ZAG s;
      tempo_atual_restante := tempo_atual_restante s;
      sentido := sentido s;
      m_asteroids := l;
      m_randomEngine := re |}, gl).
End Builder.

Arguments createAsteroid_default {_ _ _ _} _ _ _ /.

(** ** The specification's table, and fixtures for concrete runs *)

Section Table.
Local Open Scope Q_scope.

(** The table of the specification: ship [i] (from 1) sits on row 1
    ([i <= 5], y = 0.9, x from -0.8), row 2 ([6 <= i <= 9], y = 0.7, x from
    -0.6) or row 3 ([i >= 10], y = 0.5, x from -0.8), 0.4 apart. *)
Definition slot_x (i : Z) : Q :=
  if (i <? 6)%Z then - (8 # 10) + (4 # 10) * (inject_Z i - 1)
  else if (i <? 10)%Z then - (6 # 10) + (4 # 10) * (inject_Z i - 6)
  else - (8 # 10) + (4 # 10) * (inject_Z i - 10).

Definition slot_y (i : Z) : Q :=
  if (i <? 6)%Z then 9 # 10 else if (i <? 10)%Z then 7 # 10 else 5 # 10.

(** The value of the loop variable [x] when the loop reaches [index]. *)
Definition x_before (i : Z) : Q :=
  if (i <=? 6)%Z then - (8 # 10) + (4 # 10) * (inject_Z i - 1)
  else if (i <=? 10)%Z then - (6 # 10) + (4 # 10) * (inject_Z i - 6)
  else - (8 # 10) + (4 # 10) * (inject_Z i - 10).
End Table.

(** A GL context whose programs put every uniform and attribute at 0. *)
Definition gl0 : gl_state Q := gl_initial (fun _ _ => 0%Z) (fun _ _ => 0%Z).

(** A fresh [Asteroids] object whose formation has [n] ships. *)
Definition asteroids_of_size (n : Z) : Asteroids Q Z :=
  {| m_program := 0; m_colorLoc := 0; m_rotationLoc := 0; m_translationLoc := 0;
     m_scaleLoc := 0; CONST_QUANTIDADE_NAVES := n; CONST_TEMPO_ZIG_ZAG := 1;
     tempo_atual_restante := 1; sentido := 1; m_asteroids := [];
     m_randomEngine := 1%Z |}.

(** ** The GL objects of the formation *)

Section Objects.
Context {R : Type} `{Num R} {G : Type} `{RandomEngine R G}.

Lemma createAsteroid_gl (program : N) (t : vec2 R) (re : G) (gl : gl_state R) :
  attrib_index_ok (glGetAttribLocation program "inPosition" gl) = true ->
  let '(a, re', gl') := createAsteroid program t re gl in
  let pos := glGetAttribLocation program "inPosition" gl in
  gl_buffers gl !! m_vbo a = None /\ m_vbo a <> 0%N
  /\ gl_vaos gl !! m_vao a = None /\ m_vao a <> 0%N
  /\ gl_buffers gl' = <[m_vbo a := positions_data]> (gl_buffers gl)
  /\ gl_vaos gl' = <[m_vao a := ship_vao pos (m_vbo a)]> (gl_vaos gl)
  /\ gl_array_buffer gl' = 0%N /\ gl_vertex_array gl' = 0%N
  /\ gl_log gl' = gl_log gl
  /\ gl_uniform_locations gl' = gl_uniform_locations gl
  /\ gl_attrib_locations gl' = gl_attrib_locations gl
  /\ gl_error gl' = gl_error gl.
Proof.
  intros Hi. unfold glGetAttribLocation in Hi. unfold createAsteroid.
  destruct (random_dist re) as [av re1]. destruct (random_dist re1) as [dx re2].
  destruct (random_dist re2) as [dy re3].
  pose proof (fresh_name_fresh (gl_buffers gl)) as Hb.
  pose proof (fresh_name_pos (gl_buffers gl)) as Hb0.
  pose proof (fresh_name_fresh (gl_vaos gl)) as Hv.
  pose proof (fresh_name_pos (gl_vaos gl)) as Hv0.
  cbn -[fresh_name glBindBuffer glBufferData glBindVertexArray glEnableVertexAttribArray
        glVertexAttribPointer positions_data].
  set (vbo := fresh_name (gl_buffers gl)) in *.
  rewrite (glBindBuffer_live _ vbo) by gl_side.
  rewrite glBufferData_bound by gl_side.
  rewrite glBindBuffer_0. cbn [gl_vaos gl_set_buffers gl_buffers gl_array_buffer gl_vertex_array].
  set (vao := fresh_name (gl_vaos gl)) in *.
  rewrite (glBindVertexArray_live _ vao) by gl_side.
  rewrite (glBindBuffer_live _ vbo) by gl_side.
  erewrite glEnableVertexAttribArray_bound by gl_side.
  erewrite glVertexAttribPointer_bound by gl_side.
  rewrite glBindBuffer_0, glBindVertexArray_0.
  cbn [gl_buffers gl_vaos gl_set_buffers gl_set_vaos gl_array_buffer gl_vertex_array
       gl_log gl_uniform_locations gl_attrib_locations gl_error glGetAttribLocation vao_enabled
       vao_attrib].
  rewrite !insert_insert_eq.
  repeat split; assumption.
Qed.
(** C16: createAsteroid does not check the location glGetAttribLocation returns: when the program has no attribute inPosition (location -1, or any index out of range), glEnableVertexAttribArray and glVertexAttribPointer fail with GL_INVALID_VALUE, so the new ship's buffer holds its 16 points but its vertex array reads no position attribute at all, and the error flag records GL_INVALID_VALUE. *)
Theorem createAsteroid_missing_attribute (program : N) (t : vec2 R) (re : G) (gl : gl_state R) :
  attrib_index_ok (glGetAttribLocation program "inPosition" gl) = false ->
  let '(a, re', gl') := createAsteroid program t re gl in
  gl_buffers gl' !! m_vbo a = Some positions_data
  /\ gl_vaos gl' !! m_vao a = Some (mkVao [] None)
  /\ gl_error gl' = Some (default GL_INVALID_VALUE (gl_error gl)).
Proof.
  intros Hi. unfold glGetAttribLocation in Hi. unfold createAsteroid.
  destruct (random_dist re) as [av re1]. destruct (random_dist re1) as [dx re2].
  destruct (random_dist re2) as [dy re3].
  pose proof (fresh_name_fresh (gl_buffers gl)) as Hb.
  pose proof (fresh_name_pos (gl_buffers gl)) as Hb0.
  pose proof (fresh_name_fresh (gl_vaos gl)) as Hv.
  pose proof (fresh_name_pos (gl_vaos gl)) as Hv0.
  cbn -[fresh_name glBindBuffer glBufferData glBindVertexArray glEnableVertexAttribArray
        glVertexAttribPointer positions_data].
  set (vbo := fresh_name (gl_buffers gl)) in *.
  rewrite (glBindBuffer_live _ vbo) by gl_side.
  rewrite glBufferData_bound by gl_side.
  rewrite !glBindBuffer_0. cbn [gl_vaos gl_set_buffers gl_buffers gl_array_buffer gl_vertex_array].
  set (vao := fresh_name (gl_vaos gl)) in *.
  rewrite (glBindVertexArray_live _ vao) by gl_side.
  rewrite (glBindBuffer_live _ vbo) by gl_side.
  rewrite glEnableVertexAttribArray_bad by exact Hi.
  rewrite glVertexAttribPointer_bad by exact Hi.
  rewrite ?glBindBuffer_0, glBindVertexArray_0. gl_proj.
  rewrite !lookup_insert_eq. repeat split.
Qed.

Lemma place_asteroid_objects (n index : Z) (x : R) (a : Asteroid R) :
  m_vbo (fst (place_asteroid n index x a)) = m_vbo a
  /\ m_vao (fst (place_asteroid n index x a)) = m_vao a
  /\ m_polygonSides (fst (place_asteroid n index x a)) = m_polygonSides a
  /\ m_rotation (fst (place_asteroid n index x a)) = m_rotation a.
Proof. unfold place_asteroid. repeat case_match; repeat split. Qed.

(** The fixed fields of a new ship. *)
Lemma createAsteroid_fields (program : N) (t : vec2 R) (re : G) (gl : gl_state R) :
  let a := fst (fst (createAsteroid program t re gl)) in
  m_polygonSides a = 16%Z /\ m_rotation a = flit 0 /\ m_translation a = t
  /\ m_scale a = num_to_float (num_lit (2 # 100)) /\ m_hit a = false.
Proof.
  unfold createAsteroid. repeat destruct (random_dist _).
  repeat destruct (glGenBuffers _). repeat destruct (glGenVertexArrays _).
  repeat split.
Qed.

(** Every ship the loop builds has 16 sides. *)
Lemma formation_loop_sides (program : N) (n : Z) (l : list (Asteroid R)) :
  forall x index re gl,
  Forall (fun a => m_polygonSides a = 16%Z)
         (fst (fst (formation_loop program n l x index re gl))).
Proof.
  induction l as [|b l IH]; intros x index re gl; simpl; [constructor|].
  pose proof (createAsteroid_fields program (mkvec2 (flit 0) (flit 0)) re gl) as (Hs & _).
  destruct (createAsteroid program _ re gl) as [[a re1] gl1]. simpl in Hs.
  pose proof (place_asteroid_objects n index x a) as (_ & _ & Hps & _).
  destruct (place_asteroid n index x a) as [a' x']. simpl in Hps.
  specialize (IH x' (index + 1)%Z re1 gl1).
  destruct (formation_loop program n l x' (index + 1) re1 gl1) as [[rest re2] gl2].
  constructor; [congruence | exact IH].
Qed.

(** The loop creates one buffer and one vertex array per ship, with
    fresh, distinct names, owned by the ship, and touches nothing else. *)
Lemma formation_loop_gl (program : N) (n : Z) (l : list (Asteroid R)) :
  forall x index re gl,
  attrib_index_ok (glGetAttribLocation program "inPosition" gl) = true ->
  let l' := fst (fst (formation_loop program n l x index re gl)) in
  let gl' := snd (formation_loop program n l x index re gl) in
  NoDup (map m_vbo l') /\ NoDup (map m_vao l')
  /\ Forall (fun a => gl_buffers gl !! m_vbo a = None /\ gl_vaos gl !! m_vao a = None) l'
  /\ ships_own gl' (glGetAttribLocation program "inPosition" gl) l'
  /\ (forall b, Forall (fun a => m_vbo a <> b) l' -> gl_buffers gl' !! b = gl_buffers gl !! b)
  /\ (forall v, Forall (fun a => m_vao a <> v) l' -> gl_vaos gl' !! v = gl_vaos gl !! v)
  /\ gl_log gl' = gl_log gl /\ gl_attrib_locations gl' = gl_attrib_locations gl
  /\ gl_uniform_locations gl' = gl_uniform_locations gl
  /\ gl_error gl' = gl_error gl.
Proof.
  induction l as [|b0 l IH]; intros x index re gl Hi; simpl.
  { repeat split; try constructor; auto. }
  pose proof (createAsteroid_gl program (mkvec2 (flit 0) (flit 0)) re gl Hi) as Hc.
  destruct (createAsteroid program _ re gl) as [[a re1] gl1].
  destruct Hc as (Hfb & Hb0 & Hfv & Hv0 & Hbuf & Hvao & _ & _ & Hlog & Hul & Hal & Herr).
  pose proof (place_asteroid_objects n index x a) as (Hpb & Hpv & _).
  destruct (place_asteroid n index x a) as [a' x']. simpl in Hpb, Hpv.
  specialize (IH x' (index + 1)%Z re1 gl1).
  unfold glGetAttribLocation in IH, Hi. rewrite Hal in IH. specialize (IH Hi).
  destruct (formation_loop program n l x' (index + 1) re1 gl1) as [[rest re2] gl2].
  simpl in *.
  destruct IH as (Hnb & Hnv & Hfr & Hown & Hfb' & Hfv' & Hlog' & Hal' & Hul' & Herr').
  unfold glGetAttribLocation in *.
  rewrite Hpb, Hpv.
  assert (Hfresh : Forall (fun c => m_vbo c <> m_vbo a /\ m_vao c <> m_vao a
                                    /\ gl_buffers gl !! m_vbo c = None
                                    /\ gl_vaos gl !! m_vao c = None) rest).
  { eapply Forall_impl; [|exact Hfr]. intros c [Hc1 Hc2].
    rewrite Hbuf in Hc1. rewrite Hvao in Hc2.
    apply lookup_insert_None in Hc1 as [? ?]. apply lookup_insert_None in Hc2 as [? ?].
    repeat split; congruence. }
  repeat split.
  - apply NoDup_map_cons_fresh; [|exact Hnb].
    eapply Forall_impl; [|exact Hfresh]. intros c (? & _). assumption.
  - apply NoDup_map_cons_fresh; [|exact Hnv].
    eapply Forall_impl; [|exact Hfresh]. intros c (_ & ? & _). assumption.
  - constructor; [rewrite Hpb, Hpv; split; assumption|].
    eapply Forall_impl; [|exact Hfresh]. intros c (_ & _ & ? & ?). split; assumption.
  - constructor; [|exact Hown]. rewrite Hpb, Hpv.
    rewrite Hfb', Hfv', Hbuf, Hvao, !lookup_insert_eq; [repeat split; exact Hv0| |];
      (eapply Forall_impl; [|exact Hfresh]); intros c (? & ? & _); congruence.
  - intros b Hb. inversion Hb as [|? ? Hab Hrest]; subst.
    rewrite Hfb' by exact Hrest. rewrite Hbuf. apply lookup_insert_ne. congruence.
  - intros v Hv. inversion Hv as [|? ? Hav Hrest]; subst.
    rewrite Hfv' by exact Hrest. rewrite Hvao. apply lookup_insert_ne. congruence.
  - congruence.
  - congruence.
  - congruence.
  - congruence.
Qed.
(** [terminateGL] deletes exactly the objects the list names. *)
Lemma terminateGL_gl (s : Asteroids R G) (gl : gl_state R) :
  (forall b, gl_buffers (terminateGL s gl) !! b
             = if existsb (fun a => N.eqb (m_vbo a) b) (m_asteroids s) then None
               else gl_buffers gl !! b)
  /\ (forall v, gl_vaos (terminateGL s gl) !! v
             = if existsb (fun a => N.eqb (m_vao a) v) (m_asteroids s) then None
               else gl_vaos gl !! v)
  /\ gl_log (terminateGL s gl) = gl_log gl
  /\ gl_attrib_locations (terminateGL s gl) = gl_attrib_locations gl
  /\ gl_uniform_locations (terminateGL s gl) = gl_uniform_locations gl
  /\ gl_error (terminateGL s gl) = gl_error gl.
Proof.
  unfold terminateGL. generalize gl. induction (m_asteroids s) as [|a l IH]; intros g; simpl.
  { repeat split. }
  destruct (IH (glDeleteVertexArrays (m_vao a) (glDeleteBuffers (m_vbo a) g)))
    as (Hb & Hv & Hl & Ha & Hu & He).
  repeat split; try (intros; rewrite ?Hb, ?Hv); try assumption.
  - simpl. destruct (N.eqb_spec (m_vbo a) b) as [<-|Hne]; simpl.
    + destruct (existsb _ l); [reflexivity|]. apply lookup_delete_eq.
    + destruct (existsb _ l); [reflexivity|]. apply lookup_delete_ne. exact Hne.
  - simpl. destruct (N.eqb_spec (m_vao a) v) as [<-|Hne]; simpl.
    + destruct (existsb _ l); [reflexivity|]. apply lookup_delete_eq.
    + destruct (existsb _ l); [reflexivity|]. apply lookup_delete_ne. exact Hne.
Qed.

(** [terminateGL] with no vertex array bound leaves none bound. *)
Lemma terminateGL_vertex_array (s : Asteroids R G) (gl : gl_state R) :
  gl_vertex_array gl = 0%N -> gl_vertex_array (terminateGL s gl) = 0%N.
Proof.
  unfold terminateGL. generalize gl. induction (m_asteroids s) as [|a l IH]; intros g Hg; simpl;
    [exact Hg|].
  apply IH. cbn. rewrite Hg. destruct (decide (0%N = m_vao a)); reflexivity.
Qed.

Lemma initializeGL_sides_aux (program : N) (seed : Z) (s : Asteroids R G) (gl : gl_state R) :
  Forall (fun a => m_polygonSides a = 16%Z) (m_asteroids (fst (initializeGL program seed s gl))).
Proof.
  unfold initializeGL. destruct (formation_loop _ _ _ _ _ _ _) as [[l re] g] eqn:E.
  pose proof (formation_loop_sides program (CONST_QUANTIDADE_NAVES s)
                (repeat default_asteroid (Z.to_nat (CONST_QUANTIDADE_NAVES s)))
                (num_lit (- (8 # 10))) 1 (engine_seed seed) (terminateGL s gl)) as Hs.
  rewrite E in Hs. exact Hs.
Qed.

Lemma initializeGL_loop (program : N) (seed : Z) (s : Asteroids R G) (gl : gl_state R) :
  let r := formation_loop program (CONST_QUANTIDADE_NAVES s)
             (repeat default_asteroid (Z.to_nat (CONST_QUANTIDADE_NAVES s)))
             (num_lit (- (8 # 10))) 1 (engine_seed seed) (terminateGL s gl) in
  m_asteroids (fst (initializeGL program seed s gl)) = fst (fst r)
  /\ snd (initializeGL program seed s gl) = snd r.
Proof. unfold initializeGL. destruct (formation_loop _ _ _ _ _ _ _) as [[l re] g]. split; reflexivity. Qed.

(** The ship placement moves a ship and leaves its motion alone. *)
Lemma place_asteroid_motion (n index : Z) (x : R) (a : Asteroid R) :
  m_angularVelocity (fst (place_asteroid n index x a)) = m_angularVelocity a
  /\ m_velocity (fst (place_asteroid n index x a)) = m_velocity a.
Proof. unfold place_asteroid. repeat case_match; split; reflexivity. Qed.

(** The draws of [createAsteroid]: an invariant [P] of the engine state
    that every draw keeps, and a property [Pv] every drawn value has,
    reach every ship of the loop and the final state of the engine. *)
Section EngineInvariant.
Variable P : G -> Prop.
Variable Pv : R -> Prop.
Hypothesis draw_ok : forall g, P g -> Pv (fst (random_dist g)) /\ P (snd (random_dist g)).

Lemma createAsteroid_engine (program : N) (t : vec2 R) (re : G) (gl : gl_state R) :
  P re ->
  Pv (m_angularVelocity (fst (fst (createAsteroid program t re gl))))
  /\ P (snd (fst (createAsteroid program t re gl))).
Proof.
  intros Hre. unfold createAsteroid.
  destruct (draw_ok re Hre) as [Hv1 Hre1]. destruct (random_dist re) as [av re1].
  destruct (draw_ok re1 Hre1) as [_ Hre2]. destruct (random_dist re1) as [dx re2].
  destruct (draw_ok re2 Hre2) as [_ Hre3]. destruct (random_dist re2) as [dy re3].
  repeat destruct (glGenBuffers _). repeat destruct (glGenVertexArrays _).
  split; assumption.
Qed.

Lemma formation_loop_engine (program : N) (n : Z) (l : list (Asteroid R)) :
  forall x index re gl, P re ->
  Forall (fun a => Pv (m_angularVelocity a)) (fst (fst (formation_loop program n l x index re gl)))
  /\ P (snd (fst (formation_loop program n l x index re gl))).
Proof.
  induction l as [|b l IH]; intros x index re gl Hre; simpl; [split; [constructor | exact Hre]|].
  pose proof (createAsteroid_engine program (mkvec2 (flit 0) (flit 0)) re gl Hre) as [Hv Hre1].
  destruct (createAsteroid program _ re gl) as [[a re1] gl1]. simpl in Hv, Hre1.
  pose proof (place_asteroid_motion n index x a) as [Hav _].
  destruct (place_asteroid n index x a) as [a' x']. simpl in Hav.
  specialize (IH x' (index + 1)%Z re1 gl1 Hre1).
  destruct (formation_loop program n l x' (index + 1) re1 gl1) as [[rest re2] gl2].
  destruct IH as [IHl IHr]. split; [constructor; [congruence | exact IHl] | exact IHr].
Qed.

Lemma initializeGL_engine (program : N) (seed : Z) (s : Asteroids R G) (gl : gl_state R) :
  P (engine_seed seed) ->
  Forall (fun a => Pv (m_angularVelocity a)) (m_asteroids (fst (initializeGL program seed s gl)))
  /\ P (m_randomEngine (fst (initializeGL program seed s gl))).
Proof.
  intros Hs. unfold initializeGL.
  pose proof (formation_loop_engine program (CONST_QUANTIDADE_NAVES s)
                (repeat default_asteroid (Z.to_nat (CONST_QUANTIDADE_NAVES s)))
                (num_lit (- (8 # 10))) 1 (engine_seed seed) (terminateGL s gl) Hs) as Hl.
  destruct (formation_loop _ _ _ _ _ _ _) as [[l re] g]. exact Hl.
Qed.
End EngineInvariant.
End Objects.

(** A GL context whose programs lack every attribute. *)
Definition gl_no_attribs : gl_state Q := gl_initial (fun _ _ => 0%Z) (fun _ _ => (-1)%Z).

Lemma createAsteroid_missing_attribute_witness :
  attrib_index_ok (glGetAttribLocation 1 "inPosition" gl_no_attribs) = false
  /\ (let '(a, re', gl') := createAsteroid 1 (mkvec2 0 0) 1%Z gl_no_attribs in
      gl_buffers gl' !! m_vbo a = Some positions_data
      /\ gl_vaos gl' !! m_vao a = Some (mkVao [] None)
      /\ gl_error gl' = Some (default GL_INVALID_VALUE (gl_error gl_no_attribs))).
Proof.
  split; [reflexivity|].
  apply (createAsteroid_missing_attribute 1 (mkvec2 0 0) 1%Z gl_no_attribs). reflexivity.
Defined.

(** ** The layout in exact arithmetic *)

Section Layout.
Context {G : Type} `{RandomEngine Q G}.
Local Open Scope Q_scope.

Lemma inject_Z_succ (i : Z) : inject_Z (i + 1) == inject_Z i + 1.
Proof. rewrite inject_Z_plus. reflexivity. Qed.

Lemma place_asteroid_slot (n index : Z) (x : Q) (a : Asteroid Q) :
  (1 <= index <= n)%Z -> x == x_before index ->
  vx (m_translation (fst (place_asteroid n index x a))) == slot_x index
  /\ vy (m_translation (fst (place_asteroid n index x a))) == slot_y index
  /\ m_rotation (fst (place_asteroid n index x a)) = m_rotation a
  /\ snd (place_asteroid n index x a) == x_before (index + 1).
Proof.
  intros Hi Hx. pose proof (inject_Z_succ index) as HS.
  unfold place_asteroid, slot_x, slot_y, x_before in *. qunfold.
  assert (Hr : (index <= 5 \/ index = 6 \/ 7 <= index <= 9 \/ index = 10 \/ 11 <= index)%Z)
    by lia.
  destruct Hr as [Hr|[->|[Hr|[->|Hr]]]]; zbool_in Hx; zbool; simpl in *; rewrite ?HS;
    repeat split; try reflexivity; unfold inject_Z in *; lra.
Qed.

(** The placement loop, from [index] on: every ship gets its slot and
    keeps the rotation [createAsteroid] gave it. *)
Lemma formation_loop_layout (program : N) (n : Z) (l : list (Asteroid Q)) :
  forall x index re gl,
  (1 <= index)%Z -> (forall k, (k < length l)%nat -> (index + Z.of_nat k <= n)%Z) ->
  x == x_before index ->
  let l' := fst (fst (formation_loop program n l x index re gl)) in
  length l' = length l
  /\ forall k a, nth_error l' k = Some a ->
     vx (m_translation a) == slot_x (index + Z.of_nat k)
     /\ vy (m_translation a) == slot_y (index + Z.of_nat k)
     /\ m_rotation a = 0.
Proof.
  induction l as [|b l IH]; intros x index re gl Hi Hn Hx; simpl.
  - split; [reflexivity|]. intros [|k] a Ha; discriminate.
  - pose proof (createAsteroid_fields program (mkvec2 (flit 0) (flit 0)) re gl)
      as (_ & Hrot & _).
    destruct (createAsteroid program _ re gl) as [[a re1] gl1]. simpl in Hrot.
    destruct (place_asteroid_slot n index x a ltac:(specialize (Hn 0%nat); simpl in Hn; lia) Hx)
      as (Hpx & Hpy & Hpr & Hpn).
    destruct (place_asteroid n index x a) as [a' x'] eqn:Hp. simpl in *.
    destruct (IH x' (index + 1)%Z re1 gl1 ltac:(lia)
                 ltac:(intros k Hk; specialize (Hn (S k)); lia) Hpn) as [Hlen Hl].
    destruct (formation_loop program n l x' (index + 1) re1 gl1) as [[l' re2] gl2].
    simpl in *. split; [lia|].
    intros [|k] c Hk; simpl in Hk.
    + injection Hk as <-. rewrite Z.add_0_r. repeat split; congruence.
    + destruct (Hl k c Hk) as (H1 & H2 & H3).
      replace (index + Z.of_nat (S k))%Z with (index + 1 + Z.of_nat k)%Z by lia.
      repeat split; assumption.
Qed.

Lemma slot_in_square (i : Z) :
  (1 <= i <= 14)%Z -> -1 <= slot_x i <= 1 /\ -1 <= slot_y i <= 1.
Proof.
  intros Hi.
  assert (inject_Z 1 <= inject_Z i) by (rewrite <- Zle_Qle; lia).
  assert (inject_Z i <= inject_Z 14) by (rewrite <- Zle_Qle; lia).
  unfold slot_x, slot_y.
  destruct (Z.ltb_spec i 6) as [H6|H6]; [|destruct (Z.ltb_spec i 10) as [H10|H10]].
  - assert (inject_Z i <= inject_Z 5) by (rewrite <- Zle_Qle; lia).
    unfold inject_Z in *. split; lra.
  - assert (inject_Z 6 <= inject_Z i) by (rewrite <- Zle_Qle; lia).
    assert (inject_Z i <= inject_Z 9) by (rewrite <- Zle_Qle; lia).
    unfold inject_Z in *. split; lra.
  - assert (inject_Z 10 <= inject_Z i) by (rewrite <- Zle_Qle; lia).
    unfold inject_Z in *. split; lra.
Qed.

Lemma initializeGL_unfold (program : N) (seed : Z) (s : Asteroids Q G) (gl : gl_state Q) :
  m_asteroids (fst (initializeGL program seed s gl))
    = fst (fst (formation_loop program (CONST_QUANTIDADE_NAVES s)
                  (repeat default_asteroid (Z.to_nat (CONST_QUANTIDADE_NAVES s)))
                  (- (8 # 10)) 1 (engine_seed seed) (terminateGL s gl)))
  /\ CONST_TEMPO_ZIG_ZAG (fst (initializeGL program seed s gl)) = CONST_TEMPO_ZIG_ZAG s
  /\ tempo_atual_restante (fst (initializeGL program seed s gl)) = tempo_atual_restante s
  /\ sentido (fst (initializeGL program seed s gl)) = sentido s.
Proof.
  unfold initializeGL. destruct (formation_loop _ _ _ _ _ _ _) as [[l re] gl'].
  repeat split.
Qed.
End Layout.

(** ** Theorems of the builder *)

Section BuilderTheorems.
Context {G : Type} `{RandomEngine Q G}.
Local Open Scope Q_scope.

(** C2: Asteroids::initializeGL builds exactly CONST_QUANTIDADE_NAVES ships and places ship k+1 at the row/column of the specification's table: rows y = 0.9, 0.7, 0.5 with x from -0.8, -0.6, -0.8 in steps of 0.4. *)
Theorem initializeGL_layout (program : N) (seed : Z) (s : Asteroids Q G) (gl : gl_state Q) :
  length (m_asteroids (fst (initializeGL program seed s gl)))
    = Z.to_nat (CONST_QUANTIDADE_NAVES s)
  /\ forall k a, nth_error (m_asteroids (fst (initializeGL program seed s gl))) k = Some a ->
     vx (m_translation a) == slot_x (1 + Z.of_nat k)
     /\ vy (m_translation a) == slot_y (1 + Z.of_nat k).
Proof.
  destruct (initializeGL_unfold program seed s gl) as (-> & _).
  destruct (formation_loop_layout program (CONST_QUANTIDADE_NAVES s)
              (repeat default_asteroid (Z.to_nat (CONST_QUANTIDADE_NAVES s)))
              (- (8 # 10)) 1 (engine_seed seed) (terminateGL s gl))
    as [Hlen Hl]; [lia | | reflexivity |].
  - intros k Hk. rewrite repeat_length in Hk. lia.
  - rewrite Hlen, repeat_length. split; [reflexivity|].
    intros k a Hk. destruct (Hl k a Hk) as (? & ? & _). split; assumption.
Qed.

(** [initializeGL] establishes the invariant of [update]. *)
Lemma initializeGL_establishes_inv (program : N) (seed : Z) (s : Asteroids Q G) (gl : gl_state Q) :
  (CONST_QUANTIDADE_NAVES s <= 14)%Z -> 0 < CONST_TEMPO_ZIG_ZAG s ->
  timer_inv (CONST_TEMPO_ZIG_ZAG s) (tempo_atual_restante s) (sentido s) ->
  formation_inv (fst (initializeGL program seed s gl)).
Proof.
  intros Hn Hp Ht.
  destruct (initializeGL_unfold program seed s gl) as (Hl & Hc & Hr & Hs).
  unfold formation_inv. rewrite Hc, Hr, Hs. split; [exact Hp|]. split; [exact Ht|].
  destruct (formation_loop_layout program (CONST_QUANTIDADE_NAVES s)
              (repeat default_asteroid (Z.to_nat (CONST_QUANTIDADE_NAVES s)))
              (- (8 # 10)) 1 (engine_seed seed) (terminateGL s gl))
    as [Hlen Hk]; [lia | | reflexivity |].
  { intros k Hk. rewrite repeat_length in Hk. lia. }
  rewrite Hl. apply Forall_nth_error_intro. intros k a Ha.
  pose proof (nth_error_lt _ _ _ Ha) as Hkl.
  rewrite Hlen, repeat_length in Hkl.
  destruct (Hk k a Ha) as (Hx & Hy & Hrot).
  destruct (slot_in_square (1 + Z.of_nat k) ltac:(lia)) as [Hsx Hsy].
  pose proof two_pi_pos.
  unfold ship_inv. rewrite Hx, Hy, Hrot. repeat split; lra.
Qed.

(** C4: When CONST_QUANTIDADE_NAVES <= 14 and the timer invariant holds, Asteroids::initializeGL establishes the invariant of update: every ship inside [-1, 1] x [-1, 1] with rotation 0. *)
Theorem initializeGL_inv (program : N) (seed : Z) (s : Asteroids Q G) (gl : gl_state Q) :
  (CONST_QUANTIDADE_NAVES s <= 14)%Z -> 0 < CONST_TEMPO_ZIG_ZAG s ->
  timer_inv (CONST_TEMPO_ZIG_ZAG s) (tempo_atual_restante s) (sentido s) ->
  formation_inv (fst (initializeGL program seed s gl)).
Proof. apply initializeGL_establishes_inv. Qed.
End BuilderTheorems.

Lemma initializeGL_inv_witness :
  formation_inv (fst (initializeGL 1 42 (asteroids_of_size 14) gl0)).
Proof.
  apply initializeGL_inv.
  - vm_compute. discriminate.
  - vm_compute. reflexivity.
  - split; [split; vm_compute; [reflexivity | discriminate] | left; reflexivity].
Defined.

(** ** The GL objects after a rebuild *)

Section ObjectTheorems.
Context {R : Type} `{Num R} {G : Type} `{RandomEngine R G}.

Lemma initializeGL_objects_spec (program : N) (seed : Z) (s : Asteroids R G) (gl : gl_state R) :
  attrib_index_ok (glGetAttribLocation program "inPosition" gl) = true ->
  let s' := fst (initializeGL program seed s gl) in
  let gl' := snd (initializeGL program seed s gl) in
  NoDup (map m_vbo (m_asteroids s')) /\ NoDup (map m_vao (m_asteroids s'))
  /\ ships_own gl' (glGetAttribLocation program "inPosition" gl) (m_asteroids s')
  /\ (forall b, Forall (fun a => m_vbo a <> b) (m_asteroids s') ->
        gl_buffers gl' !! b = if existsb (fun a => N.eqb (m_vbo a) b) (m_asteroids s)
                              then None else gl_buffers gl !! b)
  /\ (forall v, Forall (fun a => m_vao a <> v) (m_asteroids s') ->
        gl_vaos gl' !! v = if existsb (fun a => N.eqb (m_vao a) v) (m_asteroids s)
                           then None else gl_vaos gl !! v)
  /\ Forall (fun a => gl_buffers (terminateGL s gl) !! m_vbo a = None
                     /\ gl_vaos (terminateGL s gl) !! m_vao a = None) (m_asteroids s')
  /\ gl_error gl' = gl_error gl.
Proof.
  intros Hi. cbv zeta. destruct (initializeGL_loop program seed s gl) as [-> ->].
  destruct (terminateGL_gl s gl) as (Htb & Htv & _ & Hta & _ & Hte).
  unfold glGetAttribLocation in Hi. rewrite <- Hta in Hi.
  destruct (formation_loop_gl program (CONST_QUANTIDADE_NAVES s)
              (repeat default_asteroid (Z.to_nat (CONST_QUANTIDADE_NAVES s)))
              (num_lit (- (8 # 10))) 1 (engine_seed seed) (terminateGL s gl) Hi)
    as (Hnb & Hnv & Hfr & Hown & Hfb & Hfv & _ & _ & _ & He).
  unfold glGetAttribLocation in *. rewrite Hta in Hown.
  repeat split; try assumption; try congruence.
  - intros b Hb. rewrite Hfb by exact Hb. apply Htb.
  - intros v Hv. rewrite Hfv by exact Hv. apply Htv.
Qed.

(** C3: When the program has a vertex attribute inPosition, Asteroids::initializeGL deletes exactly the buffers and vertex arrays named by the old ships, creates for each new ship a fresh buffer and vertex array (all names distinct, unused after the teardown), the array reading the ship's own 16-point buffer, leaves every other GL object as it was, and raises no GL error. *)
Theorem initializeGL_objects (program : N) (seed : Z) (s : Asteroids R G) (gl : gl_state R) :
  attrib_index_ok (glGetAttribLocation program "inPosition" gl) = true ->
  let s' := fst (initializeGL program seed s gl) in
  let gl' := snd (initializeGL program seed s gl) in
  NoDup (map m_vbo (m_asteroids s')) /\ NoDup (map m_vao (m_asteroids s'))
  /\ ships_own gl' (glGetAttribLocation program "inPosition" gl) (m_asteroids s')
  /\ (forall b, Forall (fun a => m_vbo a <> b) (m_asteroids s') ->
        gl_buffers gl' !! b = if existsb (fun a => N.eqb (m_vbo a) b) (m_asteroids s)
                              then None else gl_buffers gl !! b)
  /\ (forall v, Forall (fun a => m_vao a <> v) (m_asteroids s') ->
        gl_vaos gl' !! v = if existsb (fun a => N.eqb (m_vao a) v) (m_asteroids s)
                           then None else gl_vaos gl !! v)
  /\ Forall (fun a => gl_buffers (terminateGL s gl) !! m_vbo a = None
                     /\ gl_vaos (terminateGL s gl) !! m_vao a = None) (m_asteroids s')
  /\ gl_error gl' = gl_error gl.
Proof. apply initializeGL_objects_spec. Qed.

(** A table rebuilt and torn down again: [del] is [m'] without the
    names of [l], [m'] agrees with [m0] off those names, and [m0] has none
    of them; then [del] is [m0]. *)
Lemma table_after_rebuild {A} (del m' m0 : gmap N A) (f : Asteroid R -> N) (l : list (Asteroid R)) :
  (forall k, del !! k = if existsb (fun a => N.eqb (f a) k) l then None else m' !! k) ->
  (forall k, Forall (fun a => f a <> k) l -> m' !! k = m0 !! k) ->
  Forall (fun a => m0 !! f a = None) l ->
  del = m0.
Proof.
  intros Hdel Hm' Hm0. apply map_eq. intros k. rewrite Hdel.
  destruct (existsb _ l) eqn:E.
  - apply existsb_exists in E as (a & Ha & Hk). apply N.eqb_eq in Hk as <-.
    rewrite Forall_forall in Hm0. symmetry. apply Hm0, Ha.
  - apply Hm'. rewrite Forall_forall. intros a Ha <-.
    enough (existsb (fun b => N.eqb (f b) (f a)) l = true) by congruence.
    apply existsb_exists. exists a. split; [exact Ha | apply N.eqb_refl].
Qed.

(** C19: Rebuilding then tearing down is a round trip on the GL objects: when the program has a vertex attribute inPosition, terminateGL after initializeGL leaves exactly the buffers and vertex arrays that terminateGL alone leaves, so every object the rebuild creates is deleted by the next teardown and no other object is touched. *)
Theorem initializeGL_terminateGL_roundtrip (program : N) (seed : Z) (s : Asteroids R G) (gl : gl_state R) :
  attrib_index_ok (glGetAttribLocation program "inPosition" gl) = true ->
  let s' := fst (initializeGL program seed s gl) in
  let gl' := snd (initializeGL program seed s gl) in
  gl_buffers (terminateGL s' gl') = gl_buffers (terminateGL s gl)
  /\ gl_vaos (terminateGL s' gl') = gl_vaos (terminateGL s gl).
Proof.
  intros Hi. cbv zeta.
  destruct (initializeGL_objects_spec program seed s gl Hi) as (_ & _ & _ & Hb & Hv & Hfresh & _).
  destruct (terminateGL_gl s gl) as (Htb & Htv & _).
  destruct (terminateGL_gl (fst (initializeGL program seed s gl)) (snd (initializeGL program seed s gl)))
    as (Htb' & Htv' & _).
  apply Forall_and_inv in Hfresh as [Hfb Hfv].
  split; eapply table_after_rebuild; eauto; intros k Hk.
  - rewrite Hb, Htb by exact Hk. reflexivity.
  - rewrite Hv, Htv by exact Hk. reflexivity.
Qed.



(** [initializeGL] keeps the zig-zag state of the object (lines 6-56
    assign neither [tempo_atual_restante] nor [sentido]). *)
Lemma initializeGL_zigzag (program : N) (seed : Z) (s : Asteroids R G) (gl : gl_state R) :
  zigzag_state (fst (initializeGL program seed s gl)) = zigzag_state s.
Proof. unfold initializeGL. destruct (formation_loop _ _ _ _ _ _ _) as [[l re] g]. reflexivity. Qed.

(** C14: Asteroids::initializeGL assigns neither tempo_atual_restante nor sentido, so a restarted game continues the zig-zag where it was: in every arithmetic, for every object, GL context and sequence of later frame times, the timer, direction and period of the rebuilt formation after those frames are exactly those the object would have had without the rebuild. *)
Theorem initializeGL_restart_keeps_zigzag (program : N) (seed : Z) (s : Asteroids R G)
        (gl : gl_state R) (dts : list R) :
  let run := fold_left (fun s dt => update dt s) dts in
  tempo_atual_restante (run (fst (initializeGL program seed s gl))) = tempo_atual_restante (run s)
  /\ sentido (run (fst (initializeGL program seed s gl))) = sentido (run s)
  /\ CONST_TEMPO_ZIG_ZAG (run (fst (initializeGL program seed s gl))) = CONST_TEMPO_ZIG_ZAG (run s).
Proof.
  cbv zeta. pose proof (update_run_zigzag dts _ s (initializeGL_zigzag program seed s gl)) as E.
  unfold zigzag_state in E. injection E as E1 E2 E3. repeat split; assumption.
Qed.
End ObjectTheorems.

Lemma initializeGL_objects_witness :
  attrib_index_ok (glGetAttribLocation 1 "inPosition" gl0) = true
  /\ (let s' := fst (initializeGL 1 42 (asteroids_of_size 2) gl0) in
      let gl' := snd (initializeGL 1 42 (asteroids_of_size 2) gl0) in
      NoDup (map m_vbo (m_asteroids s')) /\ NoDup (map m_vao (m_asteroids s'))
      /\ ships_own gl' (glGetAttribLocation 1 "inPosition" gl0) (m_asteroids s')
      /\ (forall b, Forall (fun a => m_vbo a <> b) (m_asteroids s') ->
            gl_buffers gl' !! b = if existsb (fun a => N.eqb (m_vbo a) b)
                                            (m_asteroids (asteroids_of_size 2))
                                  then None else gl_buffers gl0 !! b)
      /\ (forall v, Forall (fun a => m_vao a <> v) (m_asteroids s') ->
            gl_vaos gl' !! v = if existsb (fun a => N.eqb (m_vao a) v)
                                         (m_asteroids (asteroids_of_size 2))
                               then None else gl_vaos gl0 !! v)
      /\ Forall (fun a => gl_buffers (terminateGL (asteroids_of_size 2) gl0) !! m_vbo a = None
                         /\ gl_vaos (terminateGL (asteroids_of_size 2) gl0) !! m_vao a = None)
               (m_asteroids s')
      /\ gl_error gl' = gl_error gl0).
Proof.
  split; [reflexivity|].
  apply (initializeGL_objects 1 42 (asteroids_of_size 2) gl0). reflexivity.
Defined.

Lemma initializeGL_terminateGL_roundtrip_witness :
  attrib_index_ok (glGetAttribLocation 1 "inPosition" gl0) = true
  /\ gl_buffers (terminateGL (fst (initializeGL 1 42 (asteroids_of_size 2) gl0))
                               (snd (initializeGL 1 42 (asteroids_of_size 2) gl0)))
     = gl_buffers (terminateGL (asteroids_of_size 2) gl0)
  /\ gl_vaos (terminateGL (fst (initializeGL 1 42 (asteroids_of_size 2) gl0))
                           (snd (initializeGL 1 42 (asteroids_of_size 2) gl0)))
     = gl_vaos (terminateGL (asteroids_of_size 2) gl0).
Proof.
  split; [reflexivity|].
  apply (initializeGL_terminateGL_roundtrip 1 42 (asteroids_of_size 2) gl0). reflexivity.
Defined.




(** ** The draws of the libstdc++ engine *)

(** C5: with the libstdc++ engine (minstd_rand0 seeded from the clock) and exact arithmetic, initializeGL gives every ship an angular velocity in [-1, 1), the range of m_randomDist, for every seed, and leaves the engine state in [1, 2^31 - 2] so that later draws stay in range. *)
Theorem initializeGL_angular_velocity_range (program : N) (seed : Z)
        (s : Asteroids Q Z) (gl : gl_state Q) :
  Forall (fun a => -1 <= m_angularVelocity a < 1)%Q
         (m_asteroids (fst (initializeGL (G := Z) program seed s gl)))
  /\ minstd_state_ok (m_randomEngine (fst (initializeGL (G := Z) program seed s gl))).
Proof.
  apply (initializeGL_engine minstd_state_ok (fun v => -1 <= v < 1)%Q).
  - exact minstd_draw_range.
  - exact (minstd_seed_ok seed).
Qed.
