(* ===== verification/Render.v ===== *)
(** * The renderer: [Asteroids::paintGL]

    [paintGL] (asteroids.cpp, lines 60-83) selects the program, then for
    every ship binds its vertex array, sets the colour and scale uniforms
    and draws the ship nine times, at its translation shifted by -2, 0 and
    +2 on each axis (the outer loop on [i] shifts y, the inner loop on
    [j] shifts x), each time a triangle fan of [m_polygonSides + 2]
    vertices; it ends by unbinding the vertex array and the program.
    [paint_tile] is the body of the inner loop (lines 72-75),
    [paint_tiles] the double loop, [paint_asteroid] the loop body,
    [paintGL] the whole function, all as transformers of the GL state of
    [GL].

    The theorems: [paintGL] issues exactly the calls of [paint_calls],
    in order ([paintGL_log]), and changes no buffer or vertex array; and,
    since every ship's buffer holds the 16 points of [createAsteroid]
    while [m_polygonSides + 2 = 18], every one of its draw calls reads two
    vertices past the end of the buffer ([paintGL_draws_out_of_bounds]).
    A frame drawn after [terminateGL] binds deleted vertex arrays: the
    first bind raises [GL_INVALID_OPERATION], every draw then fails with
    no vertex array bound, and the frame only sends its uniforms
    ([paint_asteroid_dead], proved by quiet steps of [GL], and
    [paintGL_after_terminateGL]). *)

From Stdlib Require Import String.
From stdpp Require Import base gmap.
From Stdlib Require Import ZArith QArith Lia List.
From S2P Require Import Prelude QExact Actor Random GL Formation.
Import ListNotations.

Section Render.
Context {R : Type} `{Num R} {G : Type}.

(** [for (auto i : {-2, 0, 2})] and [for (auto j : {-2, 0, 2})]. *)
Definition tile_offsets : list Z := [-2; 0; 2]%Z.

(** Lines 72-75, the body of the inner loop: one translated copy. *)
Definition paint_tile (s : Asteroids R G) (a : Asteroid R) (i j : Z) (gl : gl_state R) : gl_state R :=
  let gl := glUniform2f (m_translationLoc s) (fadd (vx (m_translation a)) (fint j))
                        (fadd (vy (m_translation a)) (fint i)) gl in
  glDrawArrays GL_TRIANGLE_FAN 0 (m_polygonSides a + 2) gl.

(** Lines 70-77: the nine translated copies of one ship. *)
Definition paint_tiles (s : Asteroids R G) (a : Asteroid R) (gl : gl_state R) : gl_state R :=
  fold_left (fun gl i => fold_left (fun gl j => paint_tile s a i j gl) tile_offsets gl)
    tile_offsets gl.

(** Lines 63-80: the body of the loop over the ships. *)
Definition paint_asteroid (s : Asteroids R G) (gl : gl_state R) (a : Asteroid R) : gl_state R :=
  let gl := glBindVertexArray (m_vao a) gl in
  let c := m_color a in
  let gl := glUniform4fv (m_colorLoc s) (vr c) (vg c) (vb c) (va c) gl in
  let gl := glUniform1f (m_scaleLoc s) (m_scale a) gl in
  let gl := paint_tiles s a gl in
  glBindVertexArray 0 gl.

(** [Asteroids::paintGL()], lines 60-83. *)
Definition paintGL (s : Asteroids R G) (gl : gl_state R) : gl_state R :=
  let gl := glUseProgram (m_program s) gl in
  let gl := fold_left (paint_asteroid s) (m_asteroids s) gl in
  glUseProgram 0 gl.

(** The calls [paint_asteroid] issues for one ship, in order. *)
Definition paint_calls (s : Asteroids R G) (a : Asteroid R) : list (gl_call R) :=
  let c := m_color a in
  [CallUniform4fv (m_colorLoc s) (vr c) (vg c) (vb c) (va c);
   CallUniform1f (m_scaleLoc s) (m_scale a)]
  ++ flat_map (fun i => flat_map (fun j =>
        [CallUniform2f (m_translationLoc s) (fadd (vx (m_translation a)) (fint j))
                       (fadd (vy (m_translation a)) (fint i));
         CallDrawArrays GL_TRIANGLE_FAN 0 (m_polygonSides a + 2) (m_vao a)])
        tile_offsets) tile_offsets.
End Render.

(** ** The calls of [paintGL] *)

Section RenderTheorems.
Context {R : Type} `{Num R} {G : Type}.

(** A ship [paintGL] can draw without an error: its vertex array is
    live (not 0) and its vertex count is not negative. *)
Definition paint_ready (gl : gl_state R) (a : Asteroid R) : Prop :=
  m_vao a <> 0%N /\ is_Some (gl_vaos gl !! m_vao a) /\ (0 <= m_polygonSides a + 2)%Z.

Lemma paint_asteroid_spec (s : Asteroids R G) (gl : gl_state R) (a : Asteroid R) :
  paint_ready gl a ->
  gl_log (paint_asteroid s gl a) = gl_log gl ++ paint_calls s a
  /\ gl_buffers (paint_asteroid s gl a) = gl_buffers gl
  /\ gl_vaos (paint_asteroid s gl a) = gl_vaos gl
  /\ gl_error (paint_asteroid s gl a) = gl_error gl.
Proof.
  intros (Hv0 & Hv & Hc). unfold paint_asteroid, paint_tiles, paint_tile.
  rewrite (glBindVertexArray_live gl (m_vao a)) by assumption.
  cbn [fold_left tile_offsets].
  repeat rewrite glDrawArrays_bound
    by (lia || (repeat (rewrite glUniform2f_vertex_array || rewrite glDrawArrays_vertex_array);
                exact Hv0)).
  rewrite glBindVertexArray_0. simpl.
  rewrite <- !app_assoc. repeat split.
Qed.

Lemma paint_fold_spec (s : Asteroids R G) (l : list (Asteroid R)) :
  forall gl, Forall (paint_ready gl) l ->
  gl_log (fold_left (paint_asteroid s) l gl) = gl_log gl ++ flat_map (paint_calls s) l
  /\ gl_buffers (fold_left (paint_asteroid s) l gl) = gl_buffers gl
  /\ gl_vaos (fold_left (paint_asteroid s) l gl) = gl_vaos gl
  /\ gl_error (fold_left (paint_asteroid s) l gl) = gl_error gl.
Proof.
  induction l as [|a l IH]; intros gl Hl; simpl.
  { rewrite app_nil_r. repeat split. }
  inversion Hl as [|? ? Ha Hrest]; subst.
  destruct (paint_asteroid_spec s gl a Ha) as (Hlog & Hb & Hv & He).
  destruct (IH (paint_asteroid s gl a)) as (Hlog' & Hb' & Hv' & He');
    [unfold paint_ready; rewrite Hv; exact Hrest|].
  rewrite Hlog', Hlog, Hb', Hb, Hv', Hv, He', He, <- app_assoc. repeat split.
Qed.

Lemma paint_calls_draws (s : Asteroids R G) (a : Asteroid R) :
  length (filter is_draw (paint_calls s a)) = 9%nat.
Proof. reflexivity. Qed.

Lemma paint_calls_draw_in (s : Asteroids R G) (a : Asteroid R) mode first count vao :
  In (CallDrawArrays mode first count vao) (paint_calls s a) ->
  first = 0%Z /\ count = (m_polygonSides a + 2)%Z /\ vao = m_vao a.
Proof.
  simpl. intros Hin.
  repeat (destruct Hin as [Hin|Hin]; [try discriminate Hin; injection Hin; intros; subst; auto|]).
  contradiction.
Qed.

Lemma positions_data_length `{Num R} : length (positions_data (R := R)) = 32%nat.
Proof. reflexivity. Qed.

(** A ship whose vertex array has been deleted. *)
Definition paint_dead (gl : gl_state R) (a : Asteroid R) : Prop :=
  m_vao a <> 0%N /\ gl_vaos gl !! m_vao a = None /\ (0 <= m_polygonSides a + 2)%Z.

(** The calls of a ship that are not draws. *)
Definition paint_calls_nodraw (s : Asteroids R G) (a : Asteroid R) : list (gl_call R) :=
  filter (fun c => negb (is_draw c)) (paint_calls s a).

Lemma filter_draw_nodraw (l : list (gl_call R)) :
  filter is_draw (filter (fun c => negb (is_draw c)) l) = [].
Proof. induction l as [|c l IH]; [reflexivity|]. simpl. destruct (is_draw c) eqn:E; simpl; rewrite ?E; auto. Qed.

Lemma nodraw_no_draw (s : Asteroids R G) (l : list (Asteroid R)) :
  filter is_draw (flat_map (paint_calls_nodraw s) l) = [].
Proof.
  induction l as [|a l IH]; [reflexivity|]. cbn [flat_map].
  rewrite filter_app, IH, app_nil_r. apply filter_draw_nodraw.
Qed.

(** The uniforms of the nine copies of one ship. *)
Definition tile_uniforms (s : Asteroids R G) (a : Asteroid R) : list (gl_call R) :=
  flat_map (fun i => flat_map (fun j =>
    [CallUniform2f (m_translationLoc s) (fadd (vx (m_translation a)) (fint j))
                   (fadd (vy (m_translation a)) (fint i))]) tile_offsets) tile_offsets.

Lemma paint_calls_nodraw_eq (s : Asteroids R G) (a : Asteroid R) :
  paint_calls_nodraw s a
  = [CallUniform4fv (m_colorLoc s) (vr (m_color a)) (vg (m_color a)) (vb (m_color a)) (va (m_color a));
     CallUniform1f (m_scaleLoc s) (m_scale a)] ++ tile_uniforms s a.
Proof. reflexivity. Qed.

(** In a dead context every draw of the nine copies fails silently. *)
Lemma paint_tiles_quiet (s : Asteroids R G) (a : Asteroid R) (gl : gl_state R) :
  gl_dead gl -> (0 <= m_polygonSides a + 2)%Z -> gl_quiet gl (paint_tiles s a gl) (tile_uniforms s a).
Proof.
  intros Hd Hc. unfold paint_tiles, paint_tile, tile_uniforms.
  apply fold_left_quiet; [|exact Hd]. intros gl1 i Hd1.
  apply fold_left_quiet; [|exact Hd1]. intros gl2 j Hd2. cbv zeta.
  rewrite glDrawArrays_dead by (exact Hc || apply Hd2). apply gl_emit_quiet, Hd2.
Qed.

(** Drawing a ship whose vertex array is gone: the bind fails, every
    draw finds no vertex array bound; only the uniforms reach the log. *)
Lemma paint_asteroid_dead (s : Asteroids R G) (gl : gl_state R) (a : Asteroid R) :
  paint_dead gl a -> gl_vertex_array gl = 0%N ->
  gl_log (paint_asteroid s gl a) = gl_log gl ++ paint_calls_nodraw s a
  /\ gl_vertex_array (paint_asteroid s gl a) = 0%N
  /\ gl_vaos (paint_asteroid s gl a) = gl_vaos gl
  /\ gl_error (paint_asteroid s gl a) = Some (default GL_INVALID_OPERATION (gl_error gl)).
Proof.
  intros (Hv0 & Hv & Hc) Hva. unfold paint_asteroid.
  rewrite (glBindVertexArray_dead gl (m_vao a)) by assumption.
  set (gl1 := gl_raise GL_INVALID_OPERATION gl).
  assert (Hd1 : gl_dead gl1) by (split; unfold gl1; gl_proj; [exact Hva | eexists; reflexivity]).
  unfold glUniform1f, glUniform4fv.
  set (c4 := CallUniform4fv (m_colorLoc s) (vr (m_color a)) (vg (m_color a)) (vb (m_color a)) (va (m_color a))).
  set (c1 := CallUniform1f (m_scaleLoc s) (m_scale a)).
  pose proof (gl_emit_quiet gl1 c4 Hd1) as Hq4.
  pose proof (gl_quiet_trans _ _ _ _ _ Hq4 (gl_emit_quiet _ c1 (proj1 Hq4))) as Hq.
  destruct (gl_quiet_trans _ _ _ _ _ Hq (paint_tiles_quiet s a _ (proj1 Hq) Hc)) as (_ & Hv' & He' & Hl').
  rewrite glBindVertexArray_0. cbn [gl_set_vaos gl_log gl_vertex_array gl_vaos gl_error].
  rewrite Hv', He', Hl', paint_calls_nodraw_eq. unfold gl1. gl_proj. repeat split.
Qed.

Lemma paint_fold_dead (s : Asteroids R G) (l : list (Asteroid R)) :
  forall gl, Forall (paint_dead gl) l -> gl_vertex_array gl = 0%N ->
  gl_log (fold_left (paint_asteroid s) l gl) = gl_log gl ++ flat_map (paint_calls_nodraw s) l
  /\ gl_vertex_array (fold_left (paint_asteroid s) l gl) = 0%N
  /\ (l <> [] -> gl_error (fold_left (paint_asteroid s) l gl)
                 = Some (default GL_INVALID_OPERATION (gl_error gl))).
Proof.
  induction l as [|a l IH]; intros gl Hl Hva; simpl.
  { rewrite app_nil_r. repeat split; [exact Hva | intros []; reflexivity]. }
  inversion Hl as [|? ? Ha Hrest]; subst.
  destruct (paint_asteroid_dead s gl a Ha Hva) as (Hlog & Hva' & Hv & He).
  destruct (IH (paint_asteroid s gl a)) as (Hlog' & Hva'' & He');
    [unfold paint_dead; rewrite Hv; exact Hrest | exact Hva'|].
  rewrite Hlog', Hlog, <- app_assoc. split; [reflexivity|]. split; [exact Hva''|].
  intros _. destruct l as [|b l]; [exact He|].
  rewrite He' by discriminate. rewrite He. reflexivity.
Qed.
End RenderTheorems.

Section RenderClaims.
Context {R : Type} `{Num R} {G : Type}.

Lemma paintGL_log_spec (s : Asteroids R G) (gl : gl_state R) :
  Forall (paint_ready gl) (m_asteroids s) ->
  gl_log (paintGL s gl)
    = gl_log gl ++ [CallUseProgram (m_program s)]
      ++ flat_map (paint_calls s) (m_asteroids s) ++ [CallUseProgram 0]
  /\ gl_buffers (paintGL s gl) = gl_buffers gl /\ gl_vaos (paintGL s gl) = gl_vaos gl
  /\ gl_error (paintGL s gl) = gl_error gl.
Proof.
  intros Hl. unfold paintGL.
  destruct (paint_fold_spec s (m_asteroids s) (glUseProgram (m_program s) gl))
    as (Hlog & Hb & Hv & He); [exact Hl|].
  cbn [gl_log glUseProgram gl_emit gl_buffers gl_vaos gl_error] in *.
  rewrite Hlog, Hb, Hv, He, <- !app_assoc. repeat split.
Qed.

(** The ships of a built formation can be drawn. *)
Lemma ships_own_paint_ready (gl : gl_state R) (pos : Z) (l : list (Asteroid R)) :
  ships_own gl pos l -> Forall (fun a => m_polygonSides a = 16%Z) l -> Forall (paint_ready gl) l.
Proof.
  unfold ships_own. rewrite !Forall_forall. intros Hown Hs a Ha.
  destruct (Hown a Ha) as (_ & Hv & Hv0). specialize (Hs a Ha).
  split; [exact Hv0|]. split; [rewrite Hv; eexists; reflexivity | lia].
Qed.

Lemma paintGL_draws_out_of_bounds (s : Asteroids R G) (gl : gl_state R) (pos : Z) :
  ships_own gl pos (m_asteroids s) ->
  Forall (fun a => m_polygonSides a = 16%Z) (m_asteroids s) ->
  exists calls,
    gl_log (paintGL s gl) = gl_log gl ++ calls
    /\ length (filter is_draw calls) = (9 * length (m_asteroids s))%nat
    /\ forall mode first count vao, In (CallDrawArrays mode first count vao) calls ->
       ~ draw_in_bounds (paintGL s gl) first count vao.
Proof.
  intros Hown Hsides.
  destruct (paintGL_log_spec s gl (ships_own_paint_ready _ _ _ Hown Hsides)) as (Hlog & Hb & Hv & _).
  eexists. split; [exact Hlog|]. split.
  - rewrite !filter_app. simpl. rewrite length_app, Nat.add_0_r.
    clear. induction (m_asteroids s) as [|a l IH]; [reflexivity|].
    change (flat_map (paint_calls s) (a :: l)) with (paint_calls s a ++ flat_map (paint_calls s) l).
    rewrite filter_app, length_app, paint_calls_draws, IH. simpl. lia.
  - intros mode first count vao Hin (v & index & buf & data & Hva & Hatt & Hbuf & Hle).
    rewrite Hv, Hb in *.
    apply in_app_or in Hin as [Hin|Hin]; [destruct Hin as [Hin|[]]; discriminate|].
    apply in_app_or in Hin as [Hin|Hin]; [|destruct Hin as [Hin|[]]; discriminate].
    apply in_flat_map in Hin as (a & Ha & Hin).
    apply paint_calls_draw_in in Hin as (-> & -> & ->).
    unfold ships_own in Hown. rewrite Forall_forall in Hown, Hsides.
    destruct (Hown a Ha) as (Hd & Hvao & _). rewrite Hsides in Hle by exact Ha.
    rewrite Hvao in Hva. injection Hva as <-. simpl in Hatt. injection Hatt as <- <-.
    rewrite Hd in Hbuf. injection Hbuf as <-. rewrite positions_data_length in Hle. lia.
Qed.
End RenderClaims.


(** ** A frame after the teardown *)

Section AfterTeardown.
Context {R : Type} `{Num R} {G : Type}.

Lemma paintGL_after_terminateGL_spec (s : Asteroids R G) (gl : gl_state R) (pos : Z) :
  ships_own gl pos (m_asteroids s) -> Forall (fun a => m_polygonSides a = 16%Z) (m_asteroids s) ->
  m_asteroids s <> [] -> gl_vertex_array gl = 0%N -> gl_error gl = None ->
  filter is_draw (gl_log (paintGL s (terminateGL s gl))) = filter is_draw (gl_log (terminateGL s gl))
  /\ gl_error (paintGL s (terminateGL s gl)) = Some GL_INVALID_OPERATION.
Proof.
  intros Hown Hs Hne Hva He.
  destruct (terminateGL_gl s gl) as (_ & Htv & _ & _ & _ & Hte).
  assert (Hdead : Forall (paint_dead (glUseProgram (m_program s) (terminateGL s gl))) (m_asteroids s)).
  { unfold ships_own in Hown. rewrite Forall_forall in Hown, Hs |- *. intros a Ha.
    destruct (Hown a Ha) as (_ & _ & Hv0). specialize (Hs a Ha).
    split; [exact Hv0|]. split; [|lia]. cbn. rewrite Htv.
    replace (existsb _ _) with true; [reflexivity|]. symmetry.
    apply existsb_exists. exists a. split; [exact Ha | apply N.eqb_refl]. }
  destruct (paint_fold_dead s (m_asteroids s) _ Hdead) as (Hlog & _ & Herr);
    [cbn; apply terminateGL_vertex_array, Hva|].
  unfold paintGL. cbn [glUseProgram gl_emit gl_log gl_error] in *.
  rewrite Hlog, (Herr Hne). cbn [gl_log gl_error glUseProgram gl_emit] in Herr |- *.
  rewrite Hte, He. split; [|reflexivity].
  rewrite !filter_app. simpl.
  rewrite nodraw_no_draw, !app_nil_r. reflexivity.
Qed.

(** C17: A frame drawn between terminateGL and the next initializeGL (which the specification forbids): for a built formation of at least one ship with no vertex array bound and no pending error, paintGL binds each ship's deleted vertex array (GL_INVALID_OPERATION), so every glDrawArrays finds no vertex array bound and draws nothing; the frame issues no draw at all and leaves GL_INVALID_OPERATION in the error flag. *)
Theorem paintGL_after_terminateGL (s : Asteroids R G) (gl : gl_state R) (pos : Z) :
  ships_own gl pos (m_asteroids s) -> Forall (fun a => m_polygonSides a = 16%Z) (m_asteroids s) ->
  m_asteroids s <> [] -> gl_vertex_array gl = 0%N -> gl_error gl = None ->
  filter is_draw (gl_log (paintGL s (terminateGL s gl))) = filter is_draw (gl_log (terminateGL s gl))
  /\ gl_error (paintGL s (terminateGL s gl)) = Some GL_INVALID_OPERATION.
Proof. apply paintGL_after_terminateGL_spec. Qed.
End AfterTeardown.

(** Two ships built in [gl0], torn down, then drawn. *)
Definition built_two : Asteroids Q Z * gl_state Q := initializeGL 1 42 (asteroids_of_size 2) gl0.

Lemma paintGL_after_terminateGL_witness :
  ships_own (snd built_two) 0 (m_asteroids (fst built_two))
  /\ Forall (fun a => m_polygonSides a = 16%Z) (m_asteroids (fst built_two))
  /\ m_asteroids (fst built_two) <> [] /\ gl_vertex_array (snd built_two) = 0%N
  /\ gl_error (snd built_two) = None
  /\ (filter is_draw (gl_log (paintGL (fst built_two) (terminateGL (fst built_two) (snd built_two))))
      = filter is_draw (gl_log (terminateGL (fst built_two) (snd built_two)))
     /\ gl_error (paintGL (fst built_two) (terminateGL (fst built_two) (snd built_two)))
        = Some GL_INVALID_OPERATION).
Proof.
  split; [vm_compute; repeat (apply Forall_cons || apply Forall_nil || split);
          first [reflexivity | discriminate]|].
  split; [vm_compute; repeat constructor|].
  split; [vm_compute; discriminate|]. split; [vm_compute; reflexivity|]. split; [vm_compute; reflexivity|].
  apply (paintGL_after_terminateGL (fst built_two) (snd built_two) 0).
  - vm_compute; repeat (apply Forall_cons || apply Forall_nil || split); first [reflexivity | discriminate].
  - vm_compute; repeat constructor.
  - vm_compute; discriminate.
  - vm_compute; reflexivity.
  - vm_compute; reflexivity.
Defined.

(** ** From a rebuild to the first frame *)

Section Frame.
Context {R : Type} `{Num R} {G : Type} `{RandomEngine R G}.

(** C1: When the program has a vertex attribute inPosition (at a valid index), after Asteroids::initializeGL the first paintGL issues exactly 9 draw calls per ship and every one of them reads m_polygonSides + 2 = 18 vertices from a vertex buffer that holds the 16 points of createAsteroid, i.e. past the end of the buffer. *)
Theorem initializeGL_paintGL_out_of_bounds (program : N) (seed : Z)
        (s : Asteroids R G) (gl : gl_state R) :
  attrib_index_ok (glGetAttribLocation program "inPosition" gl) = true ->
  let s' := fst (initializeGL program seed s gl) in
  let gl' := snd (initializeGL program seed s gl) in
  exists calls,
    gl_log (paintGL s' gl') = gl_log gl' ++ calls
    /\ length (filter is_draw calls) = (9 * length (m_asteroids s'))%nat
    /\ forall mode first count vao, In (CallDrawArrays mode first count vao) calls ->
       ~ draw_in_bounds (paintGL s' gl') first count vao.
Proof.
  intros Hi. cbv zeta.
  destruct (initializeGL_objects_spec program seed s gl Hi) as (_ & _ & Hown & _).
  exact (paintGL_draws_out_of_bounds _ _ _ Hown (initializeGL_sides_aux program seed s gl)).
Qed.
End Frame.

Section LogClaim.
Context {R : Type} `{Num R} {G : Type}.

(** C12: When every ship's vertex array is live and nonzero and its vertex count m_polygonSides + 2 is not negative, Asteroids::paintGL issues glUseProgram(m_program), then for each ship the colour and scale uniforms and nine translation/draw pairs at offsets (j, i) in {-2, 0, 2}^2 with i outer, then glUseProgram(0), changes no buffer or vertex array and raises no GL error. *)
Theorem paintGL_log (s : Asteroids R G) (gl : gl_state R) :
  Forall (paint_ready gl) (m_asteroids s) ->
  gl_log (paintGL s gl)
    = gl_log gl ++ [CallUseProgram (m_program s)]
      ++ flat_map (paint_calls s) (m_asteroids s) ++ [CallUseProgram 0]
  /\ gl_buffers (paintGL s gl) = gl_buffers gl /\ gl_vaos (paintGL s gl) = gl_vaos gl
  /\ gl_error (paintGL s gl) = gl_error gl.
Proof. apply paintGL_log_spec. Qed.
End LogClaim.

(** A formation of one ship, built and drawn once. *)
Lemma paintGL_log_witness :
  let r := initializeGL 1 42 (asteroids_of_size 1) gl0 in
  gl_log (paintGL (fst r) (snd r))
    = gl_log (snd r) ++ [CallUseProgram (m_program (fst r))]
      ++ flat_map (paint_calls (fst r)) (m_asteroids (fst r)) ++ [CallUseProgram 0]
  /\ gl_buffers (paintGL (fst r) (snd r)) = gl_buffers (snd r)
  /\ gl_vaos (paintGL (fst r) (snd r)) = gl_vaos (snd r)
  /\ gl_error (paintGL (fst r) (snd r)) = gl_error (snd r).
Proof.
  apply paintGL_log. apply Forall_cons; [|apply Forall_nil].
  vm_compute. split; [discriminate | split; [eexists; reflexivity | discriminate]].
Defined.

(** The first frame of a formation of two ships, built in [gl0]. *)
Lemma initializeGL_paintGL_out_of_bounds_witness :
  attrib_index_ok (glGetAttribLocation 1 "inPosition" gl0) = true
  /\ exists calls,
    gl_log (paintGL (fst (initializeGL 1 42 (asteroids_of_size 2) gl0))
                    (snd (initializeGL 1 42 (asteroids_of_size 2) gl0)))
      = gl_log (snd (initializeGL 1 42 (asteroids_of_size 2) gl0)) ++ calls
    /\ length (filter is_draw calls)
       = (9 * length (m_asteroids (fst (initializeGL 1 42 (asteroids_of_size 2) gl0))))%nat
    /\ forall mode first count vao, In (CallDrawArrays mode first count vao) calls ->
       ~ draw_in_bounds (paintGL (fst (initializeGL 1 42 (asteroids_of_size 2) gl0))
                                 (snd (initializeGL 1 42 (asteroids_of_size 2) gl0))) first count vao.
Proof.
  split; [reflexivity|].
  apply (initializeGL_paintGL_out_of_bounds 1 42 (asteroids_of_size 2) gl0). reflexivity.
Defined.

