(* ===== verification/Enemies.v ===== *)
(** * The [Enemies] class of [ataqueATerra/enemies.cpp]

    [Enemies] is a copy of [Asteroids] for the "Ataque a Terra" game: its
    [initializeGL] (lines 7-57), [paintGL] (61-83), [terminateGL] (85-90)
    and [createEnemy] (116-185) have the same statements as their
    [Asteroids] counterparts, and [update] (92-114, [Motion.update_enemies])
    takes the vertical speed from [GameData].  The header [enemies.hpp] is
    not in the repository; the members the code uses have the names and
    types of [Asteroids]' members, so [Actor.Asteroids] is the object
    record here too ([m_enemies] is its list field).

    The definitions below transcribe enemies.cpp.  Each one reduces to
    the [Asteroids] operation of the same line numbers (the two files
    have the same statements; [initializeGL_enemies_eq],
    [paintGL_enemies_eq]), which is how [enemies_paintGL_out_of_bounds],
    the out-of-bounds draw of [Render] for this class, is proved: by
    rewriting to the [Asteroids] case. *)

From Stdlib Require Import String.
From stdpp Require Import base gmap.
From Stdlib Require Import ZArith QArith Lia List.
From S2P Require Import Prelude QExact Actor Random GL Motion Formation Render.
Import ListNotations.

Section Enemies.
Context {R : Type} `{Num R} {G : Type} `{RandomEngine R G}.
Local Open Scope cpp_scope.

(** [Enemies::createEnemy(glm::vec2 translation)], lines 116-185. *)
Definition createEnemy (m_program : N) (translation : vec2 R) (re : G)
           (gl : gl_state R) : Asteroid R * G * gl_state R :=
  let '(angularVelocity, re) := random_dist re in
  let '(dx, re) := random_dist re in
  let '(dy, re) := random_dist re in
  let n := glm_normalize (mkvec2 dx dy) in
  let velocity := mkvec2 (fdiv (vx n) (flit 7)) (fdiv (vy n) (flit 7)) in
  let '(vbo, gl) := glGenBuffers gl in
  let gl := glBindBuffer vbo gl in
  let gl := glBufferData positions_data gl in
  let gl := glBindBuffer 0 gl in
  let positionAttribute := glGetAttribLocation m_program "inPosition"%string gl in
  let '(vao, gl) := glGenVertexArrays gl in
  let gl := glBindVertexArray vao gl in
  let gl := glBindBuffer vbo gl in
  let gl := glEnableVertexAttribArray positionAttribute gl in
  let gl := glVertexAttribPointer positionAttribute gl in
  let gl := glBindBuffer 0 gl in
  let gl := glBindVertexArray 0 gl in
  ({| m_vao := vao; m_vbo := vbo;
      m_angularVelocity := angularVelocity;
      m_color := mkvec4 (flit 1) (flit (1 # 2)) (flit (1 # 2)) (flit 1);
      m_hit := false;
      m_polygonSides := 16;
      m_rotation := flit 0;
      m_scale := num_to_float (num_lit (2 # 100));
      m_translation := translation;
      m_velocity := velocity |}, re, gl).

(** Lines 35-54: the placement of one enemy. *)
Definition place_enemy (n index : Z) (x : R) (a : Asteroid R) : Asteroid R * R :=
  if ((1 <=? index) && (index <? 6))%Z then
    (set_translation (mkvec2 (num_to_float x) (flit (9 # 10))) a, x + num_lit (4 # 10))
  else if ((6 <=? index) && (index <? 10))%Z then
    let x := if (index =? 6)%Z then num_lit (- (6 # 10)) else x in
    (set_translation (mkvec2 (num_to_float x) (flit (7 # 10))) a, x + num_lit (4 # 10))
  else if ((10 <=? index) && (index <=? n))%Z then
    let x := if (index =? 10)%Z then num_lit (- (8 # 10)) else x in
    (set_translation (mkvec2 (num_to_float x) (flit (5 # 10))) a, x + num_lit (4 # 10))
  else (a, x).

(** Lines 30-56: the loop over [m_enemies]. *)
Fixpoint enemies_loop (m_program : N) (n : Z) (l : list (Asteroid R)) (x : R)
         (index : Z) (re : G) (gl : gl_state R) : list (Asteroid R) * G * gl_state R :=
  match l with
  | [] => ([], re, gl)
  | _ :: rest =>
      let '(a, re, gl) := createEnemy m_program (mkvec2 (flit 0) (flit 0)) re gl in
      let '(a, x) := place_enemy n index x a in
      let '(rest, re, gl) := enemies_loop m_program n rest x (index + 1) re gl in
      (a :: rest, re, gl)
  end.

(** [Enemies::terminateGL()], lines 85-90. *)
Definition terminateGL_enemies (s : Asteroids R G) (gl : gl_state R) : gl_state R :=
  fold_left (fun gl a => glDeleteVertexArrays (m_vao a) (glDeleteBuffers (m_vbo a) gl))
            (m_asteroids s) gl.

(** [Enemies::initializeGL(GLuint program)], lines 7-57. *)
Definition initializeGL_enemies (program : N) (seed : Z) (s : Asteroids R G) (gl : gl_state R)
  : Asteroids R G * gl_state R :=
  let gl := terminateGL_enemies s gl in
  let re := engine_seed seed in
  let colorLoc := glGetUniformLocation program "color"%string gl in
  let rotationLoc := glGetUniformLocation program "rotation"%string gl in
  let scaleLoc := glGetUniformLocation program "scale"%string gl in
  let translationLoc := glGetUniformLocation program "translation"%string gl in
  let l := repeat default_asteroid (Z.to_nat (CONST_QUANTIDADE_NAVES s)) in
  let '(l, re, gl) :=
    enemies_loop program (CONST_QUANTIDADE_NAVES s) l (num_lit (- (8 # 10))) 1 re gl in
  ({| m_program := program;
      m_colorLoc := colorLoc;
      m_rotationLoc := rotationLoc;
      m_scaleLoc := scaleLoc;
      m_translationLoc := translationLoc;
      CONST_QUANTIDADE_NAVES := CONST_QUANTIDADE_NAVES s;
      CONST_TEMPO_ZIG_ZAG := CONST_TEMPO_ZIG_ZAG s;
      tempo_atual_restante := tempo_atual_restante s;
      sentido := sentido s;
      m_asteroids := l;
      m_randomEngine := re |}, gl).

(** Lines 70-77: the nine copies of one enemy. *)
Definition paint_enemy_tiles (s : Asteroids R G) (a : Asteroid R) (gl : gl_state R) : gl_state R :=
  fold_left (fun gl i =>
    fold_left (fun gl j =>
      let gl := glUniform2f (m_translationLoc s) (fadd (vx (m_translation a)) (fint j))
                            (fadd (vy (m_translation a)) (fint i)) gl in
      glDrawArrays GL_TRIANGLE_FAN 0 (m_polygonSides a + 2) gl)
      tile_offsets gl)
    tile_offsets gl.

(** Lines 64-80: the body of the loop over the enemies. *)
Definition paint_enemy (s : Asteroids R G) (gl : gl_state R) (a : Asteroid R) : gl_state R :=
  let gl := glBindVertexArray (m_vao a) gl in
  let c := m_color a in
  let gl := glUniform4fv (m_colorLoc s) (vr c) (vg c) (vb c) (va c) gl in
  let gl := glUniform1f (m_scaleLoc s) (m_scale a) gl in
  let gl := paint_enemy_tiles s a gl in
  glBindVertexArray 0 gl.

(** [Enemies::paintGL()], lines 61-83. *)
Definition paintGL_enemies (s : Asteroids R G) (gl : gl_state R) : gl_state R :=
  let gl := glUseProgram (m_program s) gl in
  let gl := fold_left (paint_enemy s) (m_asteroids s) gl in
  glUseProgram 0 gl.
End Enemies.

(** ** Each operation computes what the [Asteroids] one computes

    Proved piece by piece, so that the kernel never compares the two
    loops as whole terms. *)

Section SameAsAsteroids.
Context {R : Type} `{Num R} {G : Type} `{RandomEngine R G}.

Lemma createEnemy_eq (program : N) (t : vec2 R) (re : G) (gl : gl_state R) :
  createEnemy program t re gl = createAsteroid program t re gl.
Proof. reflexivity. Qed.

Lemma place_enemy_eq (n index : Z) (x : R) (a : Asteroid R) :
  place_enemy n index x a = place_asteroid n index x a.
Proof. reflexivity. Qed.

Lemma enemies_loop_eq (program : N) (n : Z) (l : list (Asteroid R)) (x : R) (index : Z) (re : G) (gl : gl_state R) :
  enemies_loop program n l x index re gl = formation_loop program n l x index re gl.
Proof.
  revert x index re gl. induction l as [|a l IH]; intros x index re gl; [reflexivity|].
  cbn [enemies_loop formation_loop]. unfold createAsteroid_default. rewrite createEnemy_eq.
  destruct (createAsteroid _ _ _ _) as [[a' re'] gl']. rewrite place_enemy_eq.
  destruct (place_asteroid _ _ _ _) as [a'' x']. rewrite IH. reflexivity.
Qed.

Lemma initializeGL_enemies_eq (program : N) (seed : Z) (s : Asteroids R G) (gl : gl_state R) :
  initializeGL_enemies program seed s gl = initializeGL program seed s gl.
Proof.
  unfold initializeGL_enemies, initializeGL. change (terminateGL_enemies s gl) with (terminateGL s gl).
  rewrite enemies_loop_eq. reflexivity.
Qed.

Lemma paintGL_enemies_eq (s : Asteroids R G) (gl : gl_state R) :
  paintGL_enemies s gl = paintGL s gl.
Proof. reflexivity. Qed.
End SameAsAsteroids.

Section EnemyFrame.
Context {R : Type} `{Num R} {G : Type} `{RandomEngine R G}.

(** C13: When the program has a vertex attribute inPosition, after Enemies::initializeGL every draw call of Enemies::paintGL (9 per enemy) reads 18 vertices from a 16-vertex buffer. *)
Theorem enemies_paintGL_out_of_bounds (program : N) (seed : Z)
        (s : Asteroids R G) (gl : gl_state R) :
  attrib_index_ok (glGetAttribLocation program "inPosition" gl) = true ->
  let s' := fst (initializeGL_enemies program seed s gl) in
  let gl' := snd (initializeGL_enemies program seed s gl) in
  exists calls,
    gl_log (paintGL_enemies s' gl') = gl_log gl' ++ calls
    /\ length (filter is_draw calls) = (9 * length (m_asteroids s'))%nat
    /\ forall mode first count vao, In (CallDrawArrays mode first count vao) calls ->
       ~ draw_in_bounds (paintGL_enemies s' gl') first count vao.
Proof.
  intros Hi. cbv zeta. rewrite initializeGL_enemies_eq, !paintGL_enemies_eq.
  destruct (initializeGL_objects_spec program seed s gl Hi) as (_ & _ & Hown & _).
  exact (paintGL_draws_out_of_bounds _ _ _ Hown (initializeGL_sides_aux program seed s gl)).
Qed.
End EnemyFrame.

(** The first frame of two enemies built in [gl0]. *)
Lemma enemies_paintGL_out_of_bounds_witness :
  attrib_index_ok (glGetAttribLocation 1 "inPosition" gl0) = true
  /\ exists calls,
    gl_log (paintGL_enemies (fst (initializeGL_enemies 1 42 (asteroids_of_size 2) gl0))
                            (snd (initializeGL_enemies 1 42 (asteroids_of_size 2) gl0)))
      = gl_log (snd (initializeGL_enemies 1 42 (asteroids_of_size 2) gl0)) ++ calls
    /\ length (filter is_draw calls)
       = (9 * length (m_asteroids (fst (initializeGL_enemies 1 42 (asteroids_of_size 2) gl0))))%nat
    /\ forall mode first count vao, In (CallDrawArrays mode first count vao) calls ->
       ~ draw_in_bounds (paintGL_enemies (fst (initializeGL_enemies 1 42 (asteroids_of_size 2) gl0))
                                         (snd (initializeGL_enemies 1 42 (asteroids_of_size 2) gl0)))
                        first count vao.
Proof.
  split; [reflexivity|].
  apply (enemies_paintGL_out_of_bounds 1 42 (asteroids_of_size 2) gl0). reflexivity.
Defined.
