(* ===== verification/Runs.v ===== *)
(** * The code in IEEE arithmetic

    This file runs the definitions of [Motion] and [Formation] at the
    IEEE instance [Binary.binary_num], bit for bit as the compiled code,
    and shows where rounding changes what exact arithmetic
    ([QExact.Q_num]) would promise:

    - the zig-zag timer: at 60 frames per second ([deltaTime] the float
      nearest 1/60) the direction flips every 61 frames, although 60
      frames of that length already make the period of 1 second; the
      float timer is left just above 0 after 60 subtractions;
    - the rotation: [glm::wrapAngle] of a tiny negative angle is
      [two_pi<float>()], which is larger than 2 pi, so the rotation leaves
      [0, 2 pi); the libstdc++ engine seeded with 67017027 gives the first
      ship the angular velocity [-2^-24] that makes the first frame do so.
    - the countdown: a frame time of 2^-25 s is absorbed by the float
      subtraction from the full timer 1.0f, so the timer never decreases
      and the direction never flips ([update_stall] in any arithmetic,
      [update_countdown_stalls_binary]);
    - the layout: for up to 14 ships every ship sits exactly at the float
      nearest its slot of the table; the double [x] of the loop drifts
      from the decimal values but never onto another float;
    - a NaN frame time, which [update] does not reject, freezes the
      formation for good: the timer and every ship's position and
      rotation are NaN after that frame and after every later one, and
      the direction never flips again ([update_nan_frame_freezes]).

    The timer theorem is proved once for any arithmetic ([Section
    Phases]): if the timer, started full, stays positive for [k - 1]
    subtractions of [dt] and not for [k], the direction is a square wave
    of [k] frames; the IEEE instance discharges the check by evaluation. *)

From Stdlib Require Import ZArith QArith List Lia Floats.SpecFloat.
From S2P Require Import Prelude Actor Random Binary GL Motion Formation.
Import ListNotations.

(** ** The timer of the zig-zag in any arithmetic *)

Section Phases.
Context {R : Type} `{Num R}.

(** The timer [j] frames into a phase: [period - dt - ... - dt]. *)
Definition phase_timer (period dt : R) (j : nat) : R :=
  Nat.iter j (fun r => fsub r dt) period.

(** The timer stays positive for [k - 1] frames and runs out at frame [k]. *)
Definition phase_ok (period dt : R) (k : nat) : bool :=
  forallb (fun j => negb (num_leb (phase_timer period dt (S j)) (fint 0))) (seq 0 (k - 1))
  && num_leb (phase_timer period dt k) (fint 0).

Lemma phase_ok_tick (period dt : R) (k j : nat) (sen : Z) :
  phase_ok period dt k = true -> (j < k)%nat ->
  ((S j < k)%nat -> zigzag_tick period dt (phase_timer period dt j) sen
                    = (phase_timer period dt (S j), sen))
  /\ (S j = k -> zigzag_tick period dt (phase_timer period dt j) sen = (period, (sen * -1)%Z)).
Proof.
  unfold phase_ok. rewrite Bool.andb_true_iff, forallb_forall. intros [Hall Hk] Hj.
  unfold zigzag_tick. change (fsub (phase_timer period dt j) dt) with (phase_timer period dt (S j)).
  split; intros Hjk.
  - assert (Hin : In j (seq 0 (k - 1))) by (apply in_seq; lia).
    apply Hall, Bool.negb_true_iff in Hin. rewrite Hin. reflexivity.
  - rewrite Hjk, Hk. reflexivity.
Qed.

Lemma update_phases {G} (dt : R) (k : nat) (s : Asteroids R G) :
  phase_ok (CONST_TEMPO_ZIG_ZAG s) dt k = true -> (1 <= k)%nat ->
  tempo_atual_restante s = CONST_TEMPO_ZIG_ZAG s ->
  forall m : nat,
    tempo_atual_restante (Nat.iter m (update dt) s) = phase_timer (CONST_TEMPO_ZIG_ZAG s) dt (m mod k)
    /\ sentido (Nat.iter m (update dt) s)
       = if Nat.even (m / k) then sentido s else (- sentido s)%Z.
Proof.
  intros Hok Hk Hrem m. induction m as [|m [IHr IHs]].
  - simpl. rewrite Nat.Div0.mod_0_l, Nat.Div0.div_0_l. split; [exact Hrem | reflexivity].
  - set (sm := Nat.iter m (update dt) s) in *.
    change (Nat.iter (S m) (update dt) s) with (update dt sm).
    destruct (update_timer dt sm) as [Ht _].
    pose proof (update_iter_period dt s m) as Hcs. fold sm in Hcs. rewrite Hcs, IHr in Ht.
    assert (Hmod : (m mod k < k)%nat) by (apply Nat.mod_upper_bound; lia).
    destruct (phase_ok_tick _ dt k (m mod k) (sentido sm) Hok Hmod) as [Hlt Heq].
    destruct (Nat.eq_dec (S (m mod k)) k) as [E|E].
    + destruct (succ_mod_div_eq k m E) as [-> ->].
      rewrite (Heq E) in Ht. injection Ht as -> ->. split; [reflexivity|].
      rewrite IHs, Nat.even_succ, <- Nat.negb_even.
      destruct (Nat.even (m / k)); simpl; lia.
    + destruct (succ_mod_div_lt k m ltac:(lia)) as [-> ->].
      rewrite (Hlt ltac:(lia)) in Ht. injection Ht as -> ->. split; [reflexivity | exact IHs].
Qed.
(** When the subtraction of the frame time leaves a positive timer
    unchanged, the countdown never ends. *)
Lemma update_stall {G} (dt : R) (s : Asteroids R G) :
  fsub (tempo_atual_restante s) dt = tempo_atual_restante s ->
  num_leb (tempo_atual_restante s) (fint 0) = false ->
  forall m : nat,
    tempo_atual_restante (Nat.iter m (update dt) s) = tempo_atual_restante s
    /\ sentido (Nat.iter m (update dt) s) = sentido s.
Proof.
  intros Hsub Hpos m. induction m as [|m [IHt IHs]]; [split; reflexivity|].
  set (sm := Nat.iter m (update dt) s) in *.
  change (Nat.iter (S m) (update dt) s) with (update dt sm).
  destruct (update_timer dt sm) as [Htick _]. unfold zigzag_tick in Htick.
  rewrite IHt, Hsub, Hpos, IHs in Htick. injection Htick as -> ->. split; reflexivity.
Qed.
End Phases.

(** ** The first ship of a formation *)

Section FirstShip.
Context {R : Type} `{Num R} {G : Type} `{RandomEngine R G}.

(** The angular velocity of a new ship is the first draw. *)
Lemma createAsteroid_spin (program : N) (t : vec2 R) (re : G) (gl : gl_state R) :
  m_angularVelocity (fst (fst (createAsteroid program t re gl))) = fst (random_dist re).
Proof.
  unfold createAsteroid. destruct (random_dist re) as [av re1].
  repeat destruct (random_dist _). repeat destruct (glGenBuffers _).
  repeat destruct (glGenVertexArrays _). reflexivity.
Qed.

Lemma formation_loop_head (program : N) (n : Z) (b : Asteroid R) (l : list (Asteroid R))
      (x : R) (index : Z) (re : G) (gl : gl_state R) :
  exists a rest, fst (fst (formation_loop program n (b :: l) x index re gl)) = a :: rest
    /\ m_angularVelocity a = fst (random_dist re) /\ m_rotation a = flit 0.
Proof.
  simpl.
  pose proof (createAsteroid_spin program (mkvec2 (flit 0) (flit 0)) re gl) as Hav.
  pose proof (createAsteroid_fields program (mkvec2 (flit 0) (flit 0)) re gl) as (_ & Hrot & _).
  destruct (createAsteroid program _ re gl) as [[a re1] gl1]. simpl in Hav, Hrot.
  pose proof (place_asteroid_motion n index x a) as [Hav' _].
  pose proof (place_asteroid_objects n index x a) as (_ & _ & _ & Hrot').
  destruct (place_asteroid n index x a) as [a' x'].
  destruct (formation_loop program n l x' (index + 1) re1 gl1) as [[rest re2] gl2].
  exists a', rest. simpl in *. split; [reflexivity | split; congruence].
Qed.

(** [initializeGL] gives its first ship the first draw of the engine
    seeded with the clock, and rotation 0. *)
Lemma initializeGL_first_ship (program : N) (seed : Z) (s : Asteroids R G) (gl : gl_state R) :
  (1 <= CONST_QUANTIDADE_NAVES s)%Z ->
  exists a rest, m_asteroids (fst (initializeGL program seed s gl)) = a :: rest
    /\ m_angularVelocity a = fst (random_dist (engine_seed seed)) /\ m_rotation a = flit 0.
Proof.
  intros Hn. rewrite (proj1 (initializeGL_loop program seed s gl)).
  replace (Z.to_nat (CONST_QUANTIDADE_NAVES s)) with (S (Z.to_nat (CONST_QUANTIDADE_NAVES s) - 1))
    by lia.
  apply formation_loop_head.
Qed.
End FirstShip.

(** ** Runs at 60 frames per second *)

(** [deltaTime] at 60 frames per second: the float nearest 1/60. *)
Definition dt60 : spec_float := flit (1 # 60).

(** A GL context whose programs put every location at 0. *)
Definition gl_binary : gl_state spec_float := gl_initial (fun _ _ => 0%Z) (fun _ _ => 0%Z).

(** C6: In IEEE arithmetic at 60 frames per second (deltaTime the float nearest 1/60), an object whose period is 1 second and whose timer is full reverses its direction every 61 frames, for ever, although 60 frames of that length already make one period (in exact arithmetic it would be 60). *)
Theorem update_square_wave_binary {G} (s : Asteroids spec_float G) :
  CONST_TEMPO_ZIG_ZAG s = flit 1 -> tempo_atual_restante s = flit 1 ->
  (forall m : nat, sentido (Nat.iter m (update dt60) s)
                   = if Nat.even (m / 61) then sentido s else (- sentido s)%Z)
  /\ (59 * b64_to_Q dt60 < 1 <= 60 * b64_to_Q dt60)%Q.
Proof.
  intros Hc Ht. split.
  - intros m. refine (proj2 (update_phases dt60 61 s _ _ _ m)); [rewrite Hc | lia | congruence].
    vm_compute. reflexivity.
  - split; vm_compute; [reflexivity | discriminate].
Qed.

Lemma update_square_wave_binary_witness :
  CONST_TEMPO_ZIG_ZAG (new_Asteroids (R := spec_float) (G := Z)) = flit 1
  /\ tempo_atual_restante (new_Asteroids (R := spec_float) (G := Z)) = flit 1
  /\ ((forall m : nat, sentido (Nat.iter m (update dt60) (new_Asteroids (R := spec_float) (G := Z)))
        = if Nat.even (m / 61) then 1%Z else (-1)%Z)
      /\ (59 * b64_to_Q dt60 < 1 <= 60 * b64_to_Q dt60)%Q).
Proof.
  split; [reflexivity|]. split; [reflexivity|].
  apply (update_square_wave_binary new_Asteroids); reflexivity.
Defined.

(** A frame of 2^-25 second, a float. *)
Definition dt_tiny : spec_float := flit (1 # 33554432).

(** C21: In IEEE arithmetic the zig-zag countdown need not terminate: with the positive float frame time 2^-25 s, the float subtraction tempo_atual_restante -= deltaTime rounds 1.0f - 2^-25 back to 1.0f (a tie, to even), so from a full timer of 1.0f no number of frames changes the timer or the direction. *)
Theorem update_countdown_stalls_binary {G} (s : Asteroids spec_float G) :
  tempo_atual_restante s = flit 1 ->
  (0 < b64_to_Q dt_tiny)%Q
  /\ forall m : nat,
       tempo_atual_restante (Nat.iter m (update dt_tiny) s) = flit 1
       /\ sentido (Nat.iter m (update dt_tiny) s) = sentido s.
Proof.
  intros Ht. split; [vm_compute; reflexivity|]. intros m. rewrite <- Ht.
  apply update_stall; rewrite Ht; vm_compute; reflexivity.
Qed.

Lemma update_countdown_stalls_binary_witness :
  tempo_atual_restante (new_Asteroids (R := spec_float) (G := Z)) = flit 1
  /\ (0 < b64_to_Q dt_tiny)%Q
  /\ forall m : nat,
       tempo_atual_restante (Nat.iter m (update dt_tiny) (new_Asteroids (R := spec_float) (G := Z))) = flit 1
       /\ sentido (Nat.iter m (update dt_tiny) (new_Asteroids (R := spec_float) (G := Z)))
          = sentido (new_Asteroids (R := spec_float) (G := Z)).
Proof. split; [reflexivity|]. apply (update_countdown_stalls_binary new_Asteroids). reflexivity. Defined.

(** C7: In IEEE arithmetic, initializeGL with the clock seed 67017027 (any program, GL context and object with at least one ship) gives the first ship the angular velocity -2^-24; one frame at 60 frames per second then leaves its rotation at glm::wrapAngle's two_pi<float>(), which is above 2 pi: the rotation leaves [0, 2 pi). *)
Theorem initializeGL_update_rotation_two_pi (program : N) (s : Asteroids spec_float Z)
        (gl : gl_state spec_float) :
  (1 <= CONST_QUANTIDADE_NAVES s)%Z ->
  exists a rest,
    m_asteroids (update dt60 (fst (initializeGL program 67017027 s gl))) = a :: rest
    /\ m_angularVelocity a = b64_lit (- 1 # 16777216)
    /\ m_rotation a = two_pi
    /\ (62831853071795864770 # 10000000000000000000 < b64_to_Q (m_rotation a))%Q.
Proof.
  intros Hn.
  destruct (initializeGL_first_ship program 67017027 s gl Hn) as (a & rest & Hl & Hav & Hrot).
  rewrite update_asteroids, Hl. simpl map.
  eexists _, _. split; [reflexivity|].
  unfold advance_asteroid, set_motion. cbn [m_rotation m_angularVelocity].
  rewrite Hav, Hrot. vm_compute. split; [reflexivity | split; reflexivity].
Qed.

Lemma initializeGL_update_rotation_two_pi_witness :
  (1 <= CONST_QUANTIDADE_NAVES (new_Asteroids (R := spec_float) (G := Z)))%Z
  /\ exists a rest,
    m_asteroids (update dt60 (fst (initializeGL 1 67017027 new_Asteroids gl_binary))) = a :: rest
    /\ m_angularVelocity a = b64_lit (- 1 # 16777216)
    /\ m_rotation a = two_pi
    /\ (62831853071795864770 # 10000000000000000000 < b64_to_Q (m_rotation a))%Q.
Proof.
  split; [simpl; lia|].
  apply initializeGL_update_rotation_two_pi. simpl; lia.
Defined.

(** ** The layout in IEEE arithmetic *)

Section Placements.
Context {R : Type} `{Num R} {G : Type} `{RandomEngine R G}.

(** The translations the placement loop gives [cnt] new ships. *)
Fixpoint placements (n : Z) (cnt : nat) (x : R) (index : Z) : list (vec2 R) :=
  match cnt with
  | O => []
  | S c =>
      let '(a, x') := place_asteroid n index x
                        (set_translation (mkvec2 (flit 0) (flit 0)) default_asteroid) in
      m_translation a :: placements n c x' (index + 1)
  end.

(** The placement of a ship reads nothing of it but its translation. *)
Lemma place_asteroid_translation (n index : Z) (x : R) (a b : Asteroid R) :
  m_translation a = m_translation b ->
  m_translation (fst (place_asteroid n index x a)) = m_translation (fst (place_asteroid n index x b))
  /\ snd (place_asteroid n index x a) = snd (place_asteroid n index x b).
Proof.
  intros Ht. unfold place_asteroid.
  destruct ((1 <=? index) && (index <? 6))%Z; [split; reflexivity|].
  destruct ((6 <=? index) && (index <? 10))%Z; [split; reflexivity|].
  destruct ((10 <=? index) && (index <=? n))%Z; split; first [reflexivity | exact Ht].
Qed.

Lemma formation_loop_translations (program : N) (n : Z) (l : list (Asteroid R)) :
  forall x index re gl,
  map m_translation (fst (fst (formation_loop program n l x index re gl)))
    = placements n (length l) x index.
Proof.
  induction l as [|b l IH]; intros x index re gl; [reflexivity|]. simpl.
  pose proof (createAsteroid_fields program (mkvec2 (flit 0) (flit 0)) re gl) as (_ & _ & Ht & _).
  destruct (createAsteroid program _ re gl) as [[a re1] gl1]. simpl in Ht.
  destruct (place_asteroid_translation n index x a
              (set_translation (mkvec2 (flit 0) (flit 0)) default_asteroid) Ht) as [Hpt Hpx].
  destruct (place_asteroid n index x a) as [a' x'].
  destruct (place_asteroid n index x _) as [b' y']. simpl in Hpt, Hpx. subst y'.
  specialize (IH x' (index + 1)%Z re1 gl1).
  destruct (formation_loop program n l x' (index + 1) re1 gl1) as [[rest re2] gl2].
  simpl in *. rewrite IH, Hpt. reflexivity.
Qed.

Lemma initializeGL_translations (program : N) (seed : Z) (s : Asteroids R G) (gl : gl_state R) :
  map m_translation (m_asteroids (fst (initializeGL program seed s gl)))
    = placements (CONST_QUANTIDADE_NAVES s) (Z.to_nat (CONST_QUANTIDADE_NAVES s))
                 (num_lit (- (8 # 10))) 1.
Proof.
  rewrite (proj1 (initializeGL_loop program seed s gl)), formation_loop_translations.
  rewrite repeat_length. reflexivity.
Qed.
End Placements.

(** C8: In IEEE arithmetic, for every formation size 0 <= CONST_QUANTIDADE_NAVES <= 14, program, seed and GL context, initializeGL puts ship i exactly at the float nearest the table's slot (row, column) of the specification: the double loop variable x += 0.4 drifts, but never onto another float, so the exact layout of initializeGL_layout holds bit for bit after rounding. *)
Theorem initializeGL_layout_binary {G} `{RandomEngine spec_float G}
        (program : N) (seed : Z) (s : Asteroids spec_float G) (gl : gl_state spec_float) :
  (0 <= CONST_QUANTIDADE_NAVES s <= 14)%Z ->
  map m_translation (m_asteroids (fst (initializeGL program seed s gl)))
    = map (fun i => mkvec2 (flit (slot_x i)) (flit (slot_y i)))
          (map Z.of_nat (seq 1 (Z.to_nat (CONST_QUANTIDADE_NAVES s)))).
Proof.
  intros Hn. rewrite initializeGL_translations.
  rewrite <- (Z2Nat.id (CONST_QUANTIDADE_NAVES s)) at 1 by lia.
  assert (Hk : (Z.to_nat (CONST_QUANTIDADE_NAVES s) <= 14)%nat) by lia.
  revert Hk. generalize (Z.to_nat (CONST_QUANTIDADE_NAVES s)) as k. intros k Hk.
  do 15 (destruct k as [|k]; [vm_compute; reflexivity|]). lia.
Qed.

Lemma initializeGL_layout_binary_witness :
  (0 <= CONST_QUANTIDADE_NAVES (new_Asteroids (R := spec_float) (G := Z)) <= 14)%Z
  /\ map m_translation (m_asteroids (fst (initializeGL 1 67017027 new_Asteroids gl_binary)))
     = map (fun i => mkvec2 (flit (slot_x i)) (flit (slot_y i))) (map Z.of_nat (seq 1 14)).
Proof.
  split; [simpl; lia|].
  apply (initializeGL_layout_binary 1 67017027 new_Asteroids gl_binary). simpl; lia.
Defined.

(** ** A frame time that is not a number

    The code does not check [deltaTime] (line 92).  IEEE arithmetic
    propagates a NaN through every operation and makes every comparison
    with it false, so the test [tempo_atual_restante <= 0] of line 96
    and the wrap-around tests of lines 109-112 are never taken again. *)

Section NotANumber.
Lemma num_sub_nan_r (x : spec_float) : num_sub x S754_nan = S754_nan.
Proof. destruct x; reflexivity. Qed.

Lemma num_add_nan_r (x : spec_float) : num_add x S754_nan = S754_nan.
Proof. destruct x; reflexivity. Qed.

Lemma num_mul_nan_r (x : spec_float) : num_mul x S754_nan = S754_nan.
Proof. destruct x; reflexivity. Qed.

Lemma num_sub_nan_l (x : spec_float) : num_sub S754_nan x = S754_nan.
Proof. reflexivity. Qed.

Lemma num_add_nan_l (x : spec_float) : num_add S754_nan x = S754_nan.
Proof. reflexivity. Qed.

(** The float operations of the code on a NaN operand. *)
Lemma float_ops_nan (x : spec_float) :
  fsub x S754_nan = S754_nan /\ fsub S754_nan x = S754_nan /\ fmul x S754_nan = S754_nan
  /\ fadd x S754_nan = S754_nan /\ fadd S754_nan x = S754_nan /\ num_to_float S754_nan = S754_nan
  /\ wrap_axis S754_nan = S754_nan /\ wrapAngle S754_nan = S754_nan.
Proof.
  unfold fsub, fmul, fadd.
  rewrite num_sub_nan_r, num_sub_nan_l, num_mul_nan_r, num_add_nan_r, num_add_nan_l.
  repeat split; reflexivity.
Qed.

(** A ship whose position and rotation are NaN. *)
Definition ship_nan (a : Asteroid spec_float) : Prop :=
  vx (m_translation a) = S754_nan /\ vy (m_translation a) = S754_nan /\ m_rotation a = S754_nan.

Lemma advance_asteroid_nan (drop : spec_float) (sen : Z) (dt : spec_float) (a : Asteroid spec_float) :
  (dt = S754_nan /\ drop = S754_nan) \/ ship_nan a -> ship_nan (advance_asteroid drop sen dt a).
Proof.
  intros Hn. unfold advance_asteroid, ship_nan. cbn [set_motion m_translation m_rotation vx vy].
  destruct (float_ops_nan (vx (m_translation a))) as (E1 & _).
  destruct Hn as [[-> ->] | (-> & -> & ->)].
  - destruct (float_ops_nan (fint sen)) as (_ & _ & E3 & _).
    destruct (float_ops_nan (m_angularVelocity a)) as (_ & _ & E4 & _).
    destruct (float_ops_nan (m_rotation a)) as (_ & _ & _ & E5 & _ & E6 & E7 & E8).
    rewrite E3, E1, E4, E5, num_sub_nan_r, E6, E7, E8. repeat split.
  - destruct (float_ops_nan (fmul (fint sen) dt)) as (_ & E2 & _).
    destruct (float_ops_nan (fmul (m_angularVelocity a) dt)) as (_ & _ & _ & _ & E5 & E6 & E7 & E8).
    rewrite E2, num_sub_nan_l, E5, E6, E7, E8. repeat split.
Qed.

(** One frame from a state with a NaN timer and NaN ships, or with a
    NaN frame time, keeps the direction and leaves NaN everywhere. *)
Lemma update_nan {G} (dt : spec_float) (s : Asteroids spec_float G) :
  dt = S754_nan \/ (tempo_atual_restante s = S754_nan /\ Forall ship_nan (m_asteroids s)) ->
  tempo_atual_restante (update dt s) = S754_nan /\ sentido (update dt s) = sentido s
  /\ Forall ship_nan (m_asteroids (update dt s))
  /\ length (m_asteroids (update dt s)) = length (m_asteroids s).
Proof.
  intros Hn. destruct (update_timer dt s) as [T _].
  assert (Z : zigzag_tick (CONST_TEMPO_ZIG_ZAG s) dt (tempo_atual_restante s) (sentido s)
              = (S754_nan, sentido s)).
  { unfold zigzag_tick.
    destruct Hn as [-> | [-> _]]; rewrite (proj1 (float_ops_nan _)) || rewrite (proj1 (proj2 (float_ops_nan _)));
      reflexivity. }
  rewrite Z in T. injection T as -> ->.
  rewrite update_asteroids, length_map. split; [reflexivity|]. split; [reflexivity|].
  split; [|reflexivity]. apply Forall_map.
  destruct Hn as [-> | [_ Hf]].
  - apply Forall_forall. intros a _. apply advance_asteroid_nan. left.
    split; [reflexivity | apply num_mul_nan_r].
  - rewrite Forall_forall in Hf |- *. intros a Ha. apply advance_asteroid_nan. right. apply Hf, Ha.
Qed.

(** C22: In IEEE arithmetic Asteroids::update does not reject a NaN deltaTime: after one frame with deltaTime NaN, and after any sequence of later frames with any frame times, the timer and every ship's translation and rotation are NaN, the number of ships is unchanged and the direction sentido never changes again, because every comparison with NaN is false. *)
Theorem update_nan_frame_freezes {G} (s : Asteroids spec_float G) (dts : list spec_float) :
  let s' := fold_left (fun s dt => update dt s) dts (update S754_nan s) in
  tempo_atual_restante s' = S754_nan /\ sentido s' = sentido s
  /\ length (m_asteroids s') = length (m_asteroids s)
  /\ Forall (fun a => vx (m_translation a) = S754_nan /\ vy (m_translation a) = S754_nan
                      /\ m_rotation a = S754_nan) (m_asteroids s').
Proof.
  cbv zeta. destruct (update_nan S754_nan s (or_introl eq_refl)) as (Ht & Hs & Hf & Hl).
  rewrite <- Hs, <- Hl. generalize (update S754_nan s) Ht Hf. clear.
  induction dts as [|dt dts IH]; intros s1 Ht Hf; simpl; [repeat split; assumption|].
  destruct (update_nan dt s1 (or_intror (conj Ht Hf))) as (Ht' & Hs' & Hf' & Hl').
  rewrite <- Hs', <- Hl'. apply IH; assumption.
Qed.
End NotANumber.
