(* ===== verification/Game.v ===== *)
(** * The formation inside the game loop

    The abcg window (not in the repository) calls [initializeGL] when the
    game (re)starts, then once per frame [update] with the frame time and
    [paintGL], and [terminateGL] when the window closes.  [game_step] is
    that protocol as a step relation on the pair (object, GL context),
    with a flag that records whether the formation has been built and not
    torn down since; [reachable] is its reflexive-transitive closure from
    a fresh object.  A frame may have any frame time, as the clock of the
    window delivers it.

    By rule induction on [reachable]:
    - in every reachable live state every ship owns a live buffer of the
      16 points and a vertex array reading it, so every later frame draws
      out of bounds, not only the first ([game_frames_out_of_bounds]);
    - from a GL context without objects, the live buffers and vertex
      arrays are exactly the ships' ones (14 distinct names each) while
      the formation is built and none after [terminateGL]: no leak, at
      most [CONST_QUANTIDADE_NAVES] of each ([game_no_leak]);
    - no step changes the GL error flag: with a program that has the
      attribute [inPosition] ([step_init] requires it) no call of the
      formation code fails ([game_no_gl_error]). *)

From Stdlib Require Import String.
From stdpp Require Import base gmap.
From Stdlib Require Import ZArith QArith Lqa Lia List.
From S2P Require Import Prelude QExact Actor Random GL Motion Formation Render.
Import ListNotations.

Section Protocol.
Context {R : Type} `{Num R} {G : Type} `{RandomEngine R G}.

Record game := mkGame { g_obj : Asteroids R G; g_gl : gl_state R; g_live : bool }.

Inductive game_step : game -> game -> Prop :=
| step_init (program : N) (seed : Z) (g : game) :
    attrib_index_ok (glGetAttribLocation program "inPosition"%string (g_gl g)) = true ->
    game_step g (mkGame (fst (initializeGL program seed (g_obj g) (g_gl g)))
                        (snd (initializeGL program seed (g_obj g) (g_gl g))) true)
| step_frame (dt : R) (g : game) :
    g_live g = true ->
    game_step g (mkGame (update dt (g_obj g)) (paintGL (update dt (g_obj g)) (g_gl g)) true)
| step_terminate (g : game) :
    game_step g (mkGame (g_obj g) (terminateGL (g_obj g) (g_gl g)) false).

Inductive reachable (gl0 : gl_state R) : game -> Prop :=
| reach_start : reachable gl0 (mkGame new_Asteroids gl0 false)
| reach_step (g g' : game) : reachable gl0 g -> game_step g g' -> reachable gl0 g'.

(** ** The GL objects of the ships across frames *)

(** The ships of a live game own their GL objects and have 16 sides. *)
Definition ships_ready (g : game) : Prop :=
  g_live g = true ->
  (exists pos, ships_own (g_gl g) pos (m_asteroids (g_obj g)))
  /\ Forall (fun a => m_polygonSides a = 16%Z) (m_asteroids (g_obj g)).

Lemma update_ships_ready (dt : R) (s : Asteroids R G) (gl : gl_state R) (pos : Z) :
  ships_own gl pos (m_asteroids s) -> Forall (fun a => m_polygonSides a = 16%Z) (m_asteroids s) ->
  ships_own gl pos (m_asteroids (update dt s))
  /\ Forall (fun a => m_polygonSides a = 16%Z) (m_asteroids (update dt s)).
Proof.
  intros Hown Hs. rewrite update_asteroids. unfold ships_own.
  (* a frame moves and turns a ship; its names and sides stay *)
  split; [eapply Forall_map_intro; [|exact Hown] | eapply Forall_map_intro; [|exact Hs]];
    intros a Ha; exact Ha.
Qed.

(** [paintGL] of a built formation touches no buffer and no vertex
    array, and raises no error. *)
Lemma paintGL_keeps_objects (s : Asteroids R G) (gl : gl_state R) (pos : Z) :
  ships_own gl pos (m_asteroids s) -> Forall (fun a => m_polygonSides a = 16%Z) (m_asteroids s) ->
  ships_own (paintGL s gl) pos (m_asteroids s)
  /\ gl_buffers (paintGL s gl) = gl_buffers gl /\ gl_vaos (paintGL s gl) = gl_vaos gl
  /\ gl_error (paintGL s gl) = gl_error gl.
Proof.
  intros Hown Hs.
  destruct (paintGL_log_spec s gl (ships_own_paint_ready _ _ _ Hown Hs)) as (_ & Hb & Hv & He).
  unfold ships_own. rewrite Hb, Hv. repeat split; assumption.
Qed.

Lemma game_step_ready (g g' : game) : game_step g g' -> ships_ready g -> ships_ready g'.
Proof.
  intros Hstep Hg. destruct Hstep as [program seed g Hi | dt g Hlive | g]; intros Hl; simpl in *.
  - destruct (initializeGL_objects_spec program seed (g_obj g) (g_gl g) Hi) as (_ & _ & Hown & _).
    split; [eexists; exact Hown | apply initializeGL_sides_aux].
  - destruct (Hg Hlive) as ([pos Hown] & Hs).
    destruct (update_ships_ready dt (g_obj g) (g_gl g) pos Hown Hs) as [Hown' Hs'].
    split; [exists pos; apply (paintGL_keeps_objects _ _ _ Hown' Hs') | exact Hs'].
  - discriminate Hl.
Qed.

Lemma reachable_ready (gl0 : gl_state R) (g : game) : reachable gl0 g -> ships_ready g.
Proof.
  induction 1 as [|g g' _ IH Hstep]; [intros Hl; discriminate Hl|].
  exact (game_step_ready g g' Hstep IH).
Qed.

(** The loop builds one ship per entry of the list it is given. *)
Lemma formation_loop_length (program : N) (n : Z) (l : list (Asteroid R)) :
  forall x index re gl, length (fst (fst (formation_loop program n l x index re gl))) = length l.
Proof.
  induction l as [|b l IH]; intros x index re gl; [reflexivity|]. simpl.
  destruct (createAsteroid program _ re gl) as [[a re1] gl1].
  destruct (place_asteroid n index x a) as [a' x'].
  specialize (IH x' (index + 1)%Z re1 gl1).
  destruct (formation_loop program n l x' (index + 1) re1 gl1) as [[rest re2] gl2].
  simpl in *. rewrite IH. reflexivity.
Qed.

Lemma initializeGL_length (program : N) (seed : Z) (s : Asteroids R G) (gl : gl_state R) :
  length (m_asteroids (fst (initializeGL program seed s gl)))
    = Z.to_nat (CONST_QUANTIDADE_NAVES s)
  /\ CONST_QUANTIDADE_NAVES (fst (initializeGL program seed s gl)) = CONST_QUANTIDADE_NAVES s.
Proof.
  rewrite (proj1 (initializeGL_loop program seed s gl)), formation_loop_length, repeat_length.
  split; [reflexivity|]. unfold initializeGL. destruct (formation_loop _ _ _ _ _ _ _) as [[l re] g].
  reflexivity.
Qed.

Lemma update_length (dt : R) (s : Asteroids R G) :
  length (m_asteroids (update dt s)) = length (m_asteroids s)
  /\ CONST_QUANTIDADE_NAVES (update dt s) = CONST_QUANTIDADE_NAVES s.
Proof.
  rewrite update_asteroids, length_map. split; [reflexivity|].
  unfold update. destruct (zigzag_tick _ _ _ _). reflexivity.
Qed.
End Protocol.

Arguments game : clear implicits.

(** ** Every frame of a run *)

Section Frames.
Context {R : Type} `{Num R} {G : Type} `{RandomEngine R G}.

(** C10: In every state the game loop can reach from a fresh Asteroids object (initializeGL, frames of update then paintGL, terminateGL, in any order the window allows) while the formation is built, the next frame's paintGL issues nine draws per ship and every one of them reads past the end of its buffer: the out-of-bounds draw happens on every frame, not only on the first. *)
Theorem game_frames_out_of_bounds (gl0 : gl_state R) (g : game R G) (dt : R) :
  reachable gl0 g -> g_live g = true ->
  let s' := update dt (g_obj g) in
  exists calls,
    gl_log (paintGL s' (g_gl g)) = gl_log (g_gl g) ++ calls
    /\ length (filter is_draw calls) = (9 * length (m_asteroids s'))%nat
    /\ forall mode first count vao, In (CallDrawArrays mode first count vao) calls ->
       ~ draw_in_bounds (paintGL s' (g_gl g)) first count vao.
Proof.
  intros Hr Hl. cbv zeta.
  destruct (reachable_ready gl0 g Hr Hl) as ([pos Hown] & Hs).
  destruct (update_ships_ready dt (g_obj g) (g_gl g) pos Hown Hs) as [Hown' Hs'].
  exact (paintGL_draws_out_of_bounds _ _ _ Hown' Hs').
Qed.
End Frames.

(** A game after its first [initializeGL]. *)
Definition game_started : game Q Z :=
  mkGame (fst (initializeGL 1 5 new_Asteroids gl0)) (snd (initializeGL 1 5 new_Asteroids gl0)) true.

Lemma game_frames_out_of_bounds_witness :
  reachable gl0 game_started /\ g_live game_started = true
  /\ exists calls,
    gl_log (paintGL (update (1 # 60) (g_obj game_started)) (g_gl game_started))
      = gl_log (g_gl game_started) ++ calls
    /\ length (filter is_draw calls) = (9 * length (m_asteroids (update (1 # 60) (g_obj game_started))))%nat
    /\ forall mode first count vao, In (CallDrawArrays mode first count vao) calls ->
       ~ draw_in_bounds (paintGL (update (1 # 60) (g_obj game_started)) (g_gl game_started)) first count vao.
Proof.
  split; [exact (reach_step _ _ _ (reach_start _) (step_init 1 5 (mkGame new_Asteroids gl0 false) eq_refl))|]. split; [reflexivity|].
  apply (game_frames_out_of_bounds gl0 game_started (1 # 60));
    [exact (reach_step _ _ _ (reach_start _) (step_init 1 5 (mkGame new_Asteroids gl0 false) eq_refl)) | reflexivity].
Defined.

(** ** The GL objects alive in a run *)

Section Names.
Context {R : Type} {V : Type}.

Lemma existsb_name_In (f : Asteroid R -> N) (l : list (Asteroid R)) (b : N) :
  existsb (fun a => N.eqb (f a) b) l = true <-> In b (map f l).
Proof.
  rewrite existsb_exists, in_map_iff.
  split; intros (a & H1 & H2); exists a; split; try assumption; apply N.eqb_eq; assumption.
Qed.

Lemma not_In_map_Forall (f : Asteroid R -> N) (l : list (Asteroid R)) (b : N) :
  ~ In b (map f l) -> Forall (fun a => f a <> b) l.
Proof.
  intros Hn. apply Forall_forall. intros a Ha E. apply Hn. apply in_map_iff. exists a. auto.
Qed.

(** The objects of a name space after [initializeGL]: the new ships'
    names, when before it they were the old ships' names or none. *)
Lemma names_after_rebuild (M M' : gmap N V) (f : Asteroid R -> N) (old new : list (Asteroid R))
      (live : bool) :
  (forall b, is_Some (M !! b) <-> live = true /\ In b (map f old)) ->
  (forall b, Forall (fun a => f a <> b) new ->
     M' !! b = if existsb (fun a => N.eqb (f a) b) old then None else M !! b) ->
  (forall b, In b (map f new) -> is_Some (M' !! b)) ->
  forall b, is_Some (M' !! b) <-> In b (map f new).
Proof.
  intros Hold Hdel Hnew b. split; [|apply Hnew].
  intros Hs. destruct (in_dec N.eq_dec b (map f new)) as [Hin|Hout]; [exact Hin|exfalso].
  rewrite (Hdel b (not_In_map_Forall f new b Hout)) in Hs.
  destruct (existsb _ old) eqn:E; [destruct Hs as [? Hs]; discriminate Hs|].
  apply Hold in Hs as [_ Hs]. apply existsb_name_In in Hs. congruence.
Qed.

(** After [terminateGL] no object of a name space is left. *)
Lemma names_after_teardown (M M' : gmap N V) (f : Asteroid R -> N) (l : list (Asteroid R))
      (live : bool) :
  (forall b, is_Some (M !! b) <-> live = true /\ In b (map f l)) ->
  (forall b, M' !! b = if existsb (fun a => N.eqb (f a) b) l then None else M !! b) ->
  forall b, ~ is_Some (M' !! b).
Proof.
  intros Hold Hdel b Hs. rewrite Hdel in Hs.
  destruct (existsb _ l) eqn:E; [destruct Hs as [? Hs]; discriminate Hs|].
  apply Hold in Hs as [_ Hs]. apply existsb_name_In in Hs. congruence.
Qed.
End Names.

Section Resources.
Context {R : Type} `{Num R} {G : Type} `{RandomEngine R G}.

(** The buffers and vertex arrays alive in a state of the game: exactly
    the ships' ones, 14 distinct names of each, while the formation is
    built; none once it is torn down or before it is built. *)
Definition gl_exactly_ships (g : game R G) : Prop :=
  (forall b, is_Some (gl_buffers (g_gl g) !! b)
             <-> g_live g = true /\ In b (map m_vbo (m_asteroids (g_obj g))))
  /\ (forall v, is_Some (gl_vaos (g_gl g) !! v)
             <-> g_live g = true /\ In v (map m_vao (m_asteroids (g_obj g))))
  /\ CONST_QUANTIDADE_NAVES (g_obj g) = 14%Z
  /\ (g_live g = true -> NoDup (map m_vbo (m_asteroids (g_obj g)))
                        /\ NoDup (map m_vao (m_asteroids (g_obj g)))
                        /\ length (m_asteroids (g_obj g)) = 14%nat).

Lemma update_names (dt : R) (s : Asteroids R G) :
  map m_vbo (m_asteroids (update dt s)) = map m_vbo (m_asteroids s)
  /\ map m_vao (m_asteroids (update dt s)) = map m_vao (m_asteroids s).
Proof. rewrite update_asteroids, !map_map. split; apply map_ext; reflexivity. Qed.

Lemma ships_own_live (gl : gl_state R) (pos : Z) (l : list (Asteroid R)) :
  ships_own gl pos l ->
  (forall b, In b (map m_vbo l) -> is_Some (gl_buffers gl !! b))
  /\ (forall v, In v (map m_vao l) -> is_Some (gl_vaos gl !! v)).
Proof.
  unfold ships_own. rewrite Forall_forall. intros Hown.
  split; intros b Hb; apply in_map_iff in Hb as (a & <- & Ha);
    destruct (Hown a Ha) as (Hb & Hv & _); [rewrite Hb | rewrite Hv]; eexists; reflexivity.
Qed.
End Resources.

Section NoLeak.
Context {R : Type} `{Num R} {G : Type} `{RandomEngine R G}.

Lemma game_step_names (g g' : game R G) :
  game_step g g' -> ships_ready g -> gl_exactly_ships g -> gl_exactly_ships g'.
Proof.
  intros Hstep Hready (Hb & Hv & Hn & Hd).
  destruct Hstep as [program seed g Hi | dt g Hlive | g]; unfold gl_exactly_ships;
    cbn [g_gl g_obj g_live] in *.
  - destruct (initializeGL_objects_spec program seed (g_obj g) (g_gl g) Hi)
      as (Hnb & Hnv & Hown & Hfb & Hfv & _).
    destruct (ships_own_live _ _ _ Hown) as [Hlb Hlv].
    destruct (initializeGL_length program seed (g_obj g) (g_gl g)) as [Hl Hc].
    split; [intros b; rewrite (names_after_rebuild _ _ m_vbo _ _ _ Hb Hfb Hlb b); tauto|].
    split; [intros v; rewrite (names_after_rebuild _ _ m_vao _ _ _ Hv Hfv Hlv v); tauto|].
    rewrite Hc, Hl, Hn. split; [reflexivity|]. intros _. split; [exact Hnb|]. split; [exact Hnv | reflexivity].
  - destruct (Hready Hlive) as ([pos Hown] & Hs).
    destruct (update_ships_ready dt (g_obj g) (g_gl g) pos Hown Hs) as [Hown' Hs'].
    destruct (paintGL_keeps_objects _ _ _ Hown' Hs') as (_ & Hpb & Hpv & _).
    destruct (update_names dt (g_obj g)) as [Hbn Hvn].
    destruct (update_length dt (g_obj g)) as [Hl Hc].
    rewrite Hpb, Hpv, Hbn, Hvn, Hc, Hl. rewrite Hlive in Hb, Hv, Hd.
    split; [exact Hb|]. split; [exact Hv|]. split; [exact Hn | exact Hd].
  - destruct (terminateGL_gl (g_obj g) (g_gl g)) as (Htb & Htv & _).
    split; [intros b; split; [intros Hs; exfalso; exact (names_after_teardown _ _ _ _ _ Hb Htb b Hs)
                             | intros [Hf _]; discriminate Hf]|].
    split; [intros v; split; [intros Hs; exfalso; exact (names_after_teardown _ _ _ _ _ Hv Htv v Hs)
                             | intros [Hf _]; discriminate Hf]|].
    split; [exact Hn | discriminate].
Qed.

(** C11: Starting from a GL context with no objects, in every state the game loop can reach (initializeGL, frames of update then paintGL, terminateGL, in any order), the live buffers and vertex arrays are exactly those of the ships, 14 distinct names of each, while the formation is built, and there are none after terminateGL: rebuilding never leaks GL objects and never keeps more than CONST_QUANTIDADE_NAVES = 14 of each alive. *)
Theorem game_no_leak (uloc aloc : N -> String.string -> Z) (g : game R G) :
  reachable (gl_initial uloc aloc) g -> gl_exactly_ships g.
Proof.
  induction 1 as [|g g' Hr IH Hstep].
  - unfold gl_exactly_ships, gl_initial. cbn [g_gl g_obj g_live gl_buffers gl_vaos].
    split; [|split; [|split; [reflexivity | discriminate]]]; intros b; rewrite lookup_empty;
      (split; [intros [? Hs]; discriminate Hs | intros [Hf _]; discriminate Hf]).
  - exact (game_step_names g g' Hstep (reachable_ready _ g Hr) IH).
Qed.
End NoLeak.

Lemma game_no_leak_witness :
  reachable (gl_initial (fun _ _ => 0%Z) (fun _ _ => 0%Z)) game_started
  /\ gl_exactly_ships game_started.
Proof.
  split; [exact (reach_step _ _ _ (reach_start _) (step_init 1 5 (mkGame new_Asteroids gl0 false) eq_refl))|].
  apply (game_no_leak (fun _ _ => 0%Z) (fun _ _ => 0%Z) game_started).
  exact (reach_step _ _ _ (reach_start _) (step_init 1 5 (mkGame new_Asteroids gl0 false) eq_refl)).
Defined.

(** ** No GL error in a run *)

Section NoError.
Context {R : Type} `{Num R} {G : Type} `{RandomEngine R G}.

Lemma game_step_error (g g' : game R G) :
  game_step g g' -> ships_ready g -> gl_error (g_gl g') = gl_error (g_gl g).
Proof.
  intros Hstep Hready.
  destruct Hstep as [program seed g Hi | dt g Hlive | g]; cbn [g_gl g_obj g_live].
  - apply (initializeGL_objects_spec program seed (g_obj g) (g_gl g) Hi).
  - destruct (Hready Hlive) as ([pos Hown] & Hs).
    destruct (update_ships_ready dt (g_obj g) (g_gl g) pos Hown Hs) as [Hown' Hs'].
    apply (paintGL_keeps_objects _ _ _ Hown' Hs').
  - apply (terminateGL_gl (g_obj g) (g_gl g)).
Qed.

Lemma reachable_gl_error (gl0 : gl_state R) (g : game R G) :
  reachable gl0 g -> gl_error (g_gl g) = gl_error gl0.
Proof.
  induction 1 as [|g g' Hr IH Hstep]; [reflexivity|].
  rewrite (game_step_error g g' Hstep (reachable_ready _ g Hr)). exact IH.
Qed.

(** C18: Whatever the GL context the game starts in, no call of the formation code in any run of the game loop (initializeGL with a program that has the attribute inPosition, frames of update then paintGL, terminateGL) generates an OpenGL error: the error flag stays what it was at the start. *)
Theorem game_no_gl_error (gl0 : gl_state R) (g : game R G) :
  reachable gl0 g -> gl_error (g_gl g) = gl_error gl0.
Proof. apply reachable_gl_error. Qed.
End NoError.

Lemma game_no_gl_error_witness :
  reachable gl0 game_started /\ gl_error (g_gl game_started) = gl_error gl0.
Proof.
  split; [exact (reach_step _ _ _ (reach_start _) (step_init 1 5 (mkGame new_Asteroids gl0 false) eq_refl))|].
  apply (game_no_gl_error gl0).
  exact (reach_step _ _ _ (reach_start _) (step_init 1 5 (mkGame new_Asteroids gl0 false) eq_refl)).
Defined.

