(* ===== verification/Bindings.v ===== *)
(** * The GL bindings between the operations of the formation

    The binding discipline of the code, across every operation of the
    formation ([Formation], [Render]) and so across every run of the game
    loop ([Game.reachable]): [createAsteroid] ends with
    [glBindBuffer(GL_ARRAY_BUFFER, 0)] and [glBindVertexArray(0)]
    (asteroids.cpp, lines 165, 181-182), [paintGL] with
    [glBindVertexArray(0)] and [glUseProgram(0)] (lines 79, 82), and
    [terminateGL] binds nothing; so a context with nothing bound and no
    current program is left in that state by every operation
    ([gl_at_rest], [game_gl_at_rest]).  [Render.paintGL_after_terminateGL]
    assumes that no vertex array is bound at the teardown; this file shows
    every run guarantees it, and so that a frame drawn after the teardown
    draws nothing ([game_frame_after_teardown]). *)

From Stdlib Require Import String.
From stdpp Require Import base gmap.
From Stdlib Require Import ZArith QArith List.
From S2P Require Import Prelude QExact Actor Random GL Motion Formation Render Game.
Import ListNotations.

Section Operations.
Context {R : Type} `{Num R} {G : Type} `{RandomEngine R G}.

(** Nothing bound and no program in use. *)
Definition gl_at_rest (st : gl_state R) : Prop :=
  gl_array_buffer st = 0%N /\ gl_vertex_array st = 0%N /\ gl_program st = 0%N.

Lemma createAsteroid_at_rest (program : N) (t : vec2 R) (re : G) (gl : gl_state R) :
  gl_at_rest gl -> gl_at_rest (snd (createAsteroid program t re gl)).
Proof.
  intros (_ & _ & Hp). unfold createAsteroid.
  destruct (random_dist re) as [av re1]. destruct (random_dist re1) as [dx re2].
  destruct (random_dist re2) as [dy re3].
  gl_name_gens. cbn [snd]. rewrite glBindVertexArray_0, glBindBuffer_0.
  split; [reflexivity|]. split; [reflexivity|]. cbn [gl_set_vaos gl_set_buffers gl_program].
  gl_prog. exact Hp.
Qed.

Lemma formation_loop_preserve (P : gl_state R -> Prop) (program : N) (n : Z) (l : list (Asteroid R)) :
  (forall t re gl, P gl -> P (snd (createAsteroid program t re gl))) ->
  forall x index re gl, P gl -> P (snd (formation_loop program n l x index re gl)).
Proof.
  intros Hc. induction l as [|b l IH]; intros x index re gl Hgl; [exact Hgl|]. simpl.
  specialize (Hc (mkvec2 (flit 0%Q) (flit 0%Q)) re gl Hgl).
  destruct (createAsteroid program _ re gl) as [[a re1] gl1].
  destruct (place_asteroid n index x a) as [a' x'].
  specialize (IH x' (index + 1)%Z re1 gl1 Hc).
  destruct (formation_loop program n l x' (index + 1) re1 gl1) as [[rest re2] gl2]. exact IH.
Qed.

Lemma terminateGL_preserve (P : gl_state R -> Prop) (s : Asteroids R G) :
  (forall gl n, P gl -> P (glDeleteBuffers n gl)) ->
  (forall gl n, P gl -> P (glDeleteVertexArrays n gl)) ->
  forall gl, P gl -> P (terminateGL s gl).
Proof. intros Hb Hv. unfold terminateGL. apply fold_left_preserve. auto. Qed.

Lemma initializeGL_preserve (P : gl_state R -> Prop) (program : N) (seed : Z) (s : Asteroids R G) :
  (forall t re gl, P gl -> P (snd (createAsteroid program t re gl))) ->
  (forall gl n, P gl -> P (glDeleteBuffers n gl)) ->
  (forall gl n, P gl -> P (glDeleteVertexArrays n gl)) ->
  forall gl, P gl -> P (snd (initializeGL program seed s gl)).
Proof.
  intros Hc Hb Hv gl Hgl. rewrite (proj2 (initializeGL_loop program seed s gl)).
  apply formation_loop_preserve; [exact Hc|]. apply terminateGL_preserve; assumption.
Qed.

Lemma delete_at_rest (gl : gl_state R) (n : N) :
  gl_at_rest gl -> gl_at_rest (glDeleteBuffers n gl) /\ gl_at_rest (glDeleteVertexArrays n gl).
Proof.
  intros (Hab & Hva & Hp). unfold gl_at_rest, glDeleteBuffers, glDeleteVertexArrays. cbn.
  rewrite Hab, Hva. split; (split; [|split]); try assumption; repeat case_match; reflexivity.
Qed.

Lemma initializeGL_at_rest (program : N) (seed : Z) (s : Asteroids R G) (gl : gl_state R) :
  gl_at_rest gl -> gl_at_rest (snd (initializeGL program seed s gl)).
Proof. apply initializeGL_preserve; [apply createAsteroid_at_rest | |]; intros; apply delete_at_rest; assumption. Qed.

Lemma terminateGL_at_rest (s : Asteroids R G) (gl : gl_state R) :
  gl_at_rest gl -> gl_at_rest (terminateGL s gl).
Proof. apply terminateGL_preserve; intros; apply delete_at_rest; assumption. Qed.

(** A ship is drawn without touching the array-buffer binding and ends
    with no vertex array bound. *)
Lemma paint_asteroid_bindings (s : Asteroids R G) (gl : gl_state R) (a : Asteroid R) :
  gl_array_buffer (paint_asteroid s gl a) = gl_array_buffer gl
  /\ gl_vertex_array (paint_asteroid s gl a) = 0%N.
Proof.
  unfold paint_asteroid, paint_tiles, paint_tile. cbv zeta. rewrite glBindVertexArray_0. cbn [gl_set_vaos gl_array_buffer gl_vertex_array].
  split; [|reflexivity].
  assert (Hab : forall st : gl_state R, gl_array_buffer (glBindVertexArray (m_vao a) st) = gl_array_buffer st).
  { intros st. unfold glBindVertexArray. repeat case_match; gl_proj; reflexivity. }
  assert (Hd : forall (st : gl_state R) m f c, gl_array_buffer (glDrawArrays m f c st) = gl_array_buffer st).
  { intros st m f c. unfold glDrawArrays. repeat case_match; gl_proj; reflexivity. }
  apply (fold_left_preserve (fun st => gl_array_buffer st = gl_array_buffer gl)).
  - intros st i Hst. apply (fold_left_preserve (fun st => gl_array_buffer st = gl_array_buffer gl)); [|exact Hst].
    intros st' j Hst'. rewrite Hd. exact Hst'.
  - cbn [glUniform1f glUniform4fv gl_emit gl_array_buffer]. apply Hab.
Qed.

Lemma paintGL_at_rest (s : Asteroids R G) (gl : gl_state R) :
  gl_at_rest gl -> gl_at_rest (paintGL s gl).
Proof.
  intros (Hab & Hva & _). unfold paintGL. cbv zeta.
  assert (Hf : forall l st, gl_array_buffer st = 0%N -> gl_vertex_array st = 0%N ->
            gl_array_buffer (fold_left (paint_asteroid s) l st) = 0%N
            /\ gl_vertex_array (fold_left (paint_asteroid s) l st) = 0%N).
  { intros l st Hab' Hva'.
    apply (fold_left_preserve (fun st => gl_array_buffer st = 0%N /\ gl_vertex_array st = 0%N)); [|split; assumption].
    intros st' a [H1 _]. destruct (paint_asteroid_bindings s st' a) as [E1 E2]. rewrite E1, E2. split; [exact H1 | reflexivity]. }
  destruct (Hf (m_asteroids s) (glUseProgram (m_program s) gl)) as [H1 H2]; [exact Hab | exact Hva |].
  repeat split; assumption.
Qed.
End Operations.

(** ** Over a run of the game *)

Section Runs.
Context {R : Type} `{Num R} {G : Type} `{RandomEngine R G}.

Lemma game_step_at_rest (g g' : game R G) :
  game_step g g' -> gl_at_rest (g_gl g) -> gl_at_rest (g_gl g').
Proof.
  destruct 1; cbn [g_gl g_obj]; auto using initializeGL_at_rest, paintGL_at_rest, terminateGL_at_rest.
Qed.

Lemma reachable_at_rest (gl0 : gl_state R) (g : game R G) :
  gl_at_rest gl0 -> reachable gl0 g -> gl_at_rest (g_gl g).
Proof. intros Hw. induction 1 as [|g g' _ IH Hstep]; [exact Hw | exact (game_step_at_rest g g' Hstep IH)]. Qed.

(** C20: The formation code leaves no OpenGL binding behind: when the game starts with no array buffer, no vertex array and no program bound, then in every reachable state of the game loop none is bound, because createAsteroid unbinds its buffer and vertex array, paintGL unbinds its vertex arrays and the program, and terminateGL binds nothing. *)
Theorem game_gl_at_rest (gl0 : gl_state R) (g : game R G) :
  gl_at_rest gl0 -> reachable gl0 g -> gl_at_rest (g_gl g).
Proof. apply reachable_at_rest. Qed.

(** C23: In every run of the game loop that starts with nothing bound and no pending GL error, a frame drawn after terminateGL (which the protocol of the window does not do) while the formation has ships draws nothing: every glBindVertexArray names a deleted vertex array, every glDrawArrays finds none bound, and the error flag holds GL_INVALID_OPERATION. *)
Theorem game_frame_after_teardown (gl0 : gl_state R) (g : game R G) :
  gl_at_rest gl0 -> gl_error gl0 = None -> reachable gl0 g -> g_live g = true ->
  m_asteroids (g_obj g) <> [] ->
  filter is_draw (gl_log (paintGL (g_obj g) (terminateGL (g_obj g) (g_gl g))))
    = filter is_draw (gl_log (terminateGL (g_obj g) (g_gl g)))
  /\ gl_error (paintGL (g_obj g) (terminateGL (g_obj g) (g_gl g))) = Some GL_INVALID_OPERATION.
Proof.
  intros Hrest He Hr Hlive Hne.
  destruct (reachable_ready gl0 g Hr Hlive) as ([pos Hown] & Hs).
  apply (paintGL_after_terminateGL_spec _ _ pos Hown Hs Hne).
  - apply (reachable_at_rest gl0 g Hrest Hr).
  - rewrite (reachable_gl_error gl0 g Hr). exact He.
Qed.
End Runs.

(** The game after its first frame of 1/60 second. *)
Definition game_one_frame : game Q Z :=
  mkGame (update (1 # 60) (g_obj game_started))
         (paintGL (update (1 # 60) (g_obj game_started)) (g_gl game_started)) true.

Lemma game_one_frame_reachable : reachable gl0 game_one_frame.
Proof.
  apply (reach_step _ game_started).
  - exact (reach_step _ _ _ (reach_start _) (step_init 1 5 (mkGame new_Asteroids gl0 false) eq_refl)).
  - exact (step_frame (1 # 60) game_started eq_refl).
Qed.

Lemma game_gl_at_rest_witness :
  gl_at_rest gl0 /\ reachable gl0 game_one_frame /\ gl_at_rest (g_gl game_one_frame).
Proof.
  assert (Hr : gl_at_rest gl0) by (repeat split).
  split; [exact Hr|]. split; [exact game_one_frame_reachable|].
  exact (game_gl_at_rest gl0 _ Hr game_one_frame_reachable).
Defined.

Lemma game_frame_after_teardown_witness :
  gl_at_rest gl0 /\ gl_error gl0 = None /\ reachable gl0 game_one_frame
  /\ g_live game_one_frame = true /\ m_asteroids (g_obj game_one_frame) <> []
  /\ (filter is_draw (gl_log (paintGL (g_obj game_one_frame)
                                 (terminateGL (g_obj game_one_frame) (g_gl game_one_frame))))
        = filter is_draw (gl_log (terminateGL (g_obj game_one_frame) (g_gl game_one_frame)))
      /\ gl_error (paintGL (g_obj game_one_frame) (terminateGL (g_obj game_one_frame) (g_gl game_one_frame)))
         = Some GL_INVALID_OPERATION).
Proof.
  assert (Hr : gl_at_rest gl0) by (repeat split).
  assert (Hne : m_asteroids (g_obj game_one_frame) <> []) by (vm_compute; discriminate).
  split; [exact Hr|]. split; [reflexivity|]. split; [exact game_one_frame_reachable|].
  split; [reflexivity|]. split; [exact Hne|].
  exact (game_frame_after_teardown gl0 game_one_frame Hr eq_refl game_one_frame_reachable eq_refl Hne).
Defined.
