(* ===== verification/Screen.v ===== *)
(** * What a frame puts on the screen

    The log of [GL] is the stream of commands the code issues.  This
    file gives it the meaning OpenGL gives it, for the part the code
    uses: uniforms are state of the program object that holds them (a
    [glUniform*] call sets the value at a location of the current
    program, and the value stays until it is set again, across frames);
    a location of -1 (a name the linker did not find) is silently ignored;
    a draw call renders the bound vertex array with the uniform values of
    the current program at that moment.  [replay] runs a command stream
    from a GPU state [gpu] and returns the draws it renders, each with the
    vertex array, the vertex range and the uniforms it sees.

    The specification (section 4.3) says what [paintGL] must render: a
    3 x 3 tiling of every actor, offset by -2, 0, +2 on both axes, with
    its colour and scale.  [spec_tiles] lists these images, ship by ship,
    offset [i] (vertical) outer and offset [j] (horizontal) inner.  The
    refinement theorem [paintGL_renders_tiling] shows that the draws of
    [paintGL] are exactly these images, one draw per image, when the three
    uniforms the code sets have distinct locations, and that every other
    uniform keeps the value it had before the frame: the rotation, which
    the code never sends (the call is commented out, asteroids.cpp line
    68), is not rendered.  [paintGL_without_translation] shows what a
    program without the uniform [translation] renders. *)

From stdpp Require Import base gmap.
From Stdlib Require Import String ZArith QArith List.
From S2P Require Import Prelude QExact Actor Random GL Formation Render.
Import ListNotations.

Section Replay.
Context {R : Type}.

(** The uniform values of every program: (program, location) -> value. *)
Record gpu := mkGPU { gpu_program : N; gpu_uniforms : gmap (N * Z) (list R) }.

(** A rendered draw: the vertex array, the vertex range and the uniform
    value at each location of the current program. *)
Record draw := mkDraw {
  draw_vao : N; draw_first : Z; draw_count : Z; draw_uniform : Z -> option (list R) }.

(** [glUniform*(loc, v)] on the current program; location -1 is ignored. *)
Definition set_uniform (g : gpu) (loc : Z) (v : list R) : gpu :=
  if decide (loc = -1)%Z then g
  else mkGPU (gpu_program g) (<[(gpu_program g, loc) := v]> (gpu_uniforms g)).

(** The current uniform values. *)
Definition gpu_view (g : gpu) : Z -> option (list R) :=
  fun loc => gpu_uniforms g !! (gpu_program g, loc).

(** One command of the stream. *)
Definition gpu_step (g : gpu) (c : gl_call R) : gpu * list draw :=
  match c with
  | CallUseProgram p => (mkGPU p (gpu_uniforms g), [])
  | CallUniform1f loc v => (set_uniform g loc [v], [])
  | CallUniform2f loc v0 v1 => (set_uniform g loc [v0; v1], [])
  | CallUniform4fv loc v0 v1 v2 v3 => (set_uniform g loc [v0; v1; v2; v3], [])
  | CallDrawArrays _ first count vao => (g, [mkDraw vao first count (gpu_view g)])
  end.

(** A command stream, from a GPU state: the final state and the draws. *)
Fixpoint replay (g : gpu) (cs : list (gl_call R)) : gpu * list draw :=
  match cs with
  | [] => (g, [])
  | c :: cs =>
      let '(g1, d1) := gpu_step g c in
      let '(g2, d2) := replay g1 cs in
      (g2, d1 ++ d2)
  end.

Lemma replay_app (g : gpu) (l1 l2 : list (gl_call R)) :
  replay g (l1 ++ l2)
  = (fst (replay (fst (replay g l1)) l2), snd (replay g l1) ++ snd (replay (fst (replay g l1)) l2)).
Proof.
  revert g. induction l1 as [|c l1 IH]; intros g; simpl.
  - destruct (replay g l2); reflexivity.
  - destruct (gpu_step g c) as [g1 d1]. rewrite IH.
    destruct (replay g1 l1) as [g2 d2]. simpl. rewrite app_assoc. reflexivity.
Qed.

(** A stream that is a concatenation of blocks keeps an invariant [I]
    of the GPU state when each block does, and its draws are related
    block by block to the images [h x] of the blocks. *)
Lemma replay_flat_map {A B} (I : gpu -> Prop) (spec : draw -> B -> Prop)
      (f : A -> list (gl_call R)) (h : A -> list B) (l : list A) :
  (forall g x, In x l -> I g -> I (fst (replay g (f x))) /\ Forall2 spec (snd (replay g (f x))) (h x)) ->
  forall g, I g -> I (fst (replay g (flat_map f l))) /\ Forall2 spec (snd (replay g (flat_map f l))) (flat_map h l).
Proof.
  intros Hf. induction l as [|x l IH]; intros g Hg; [split; [exact Hg | constructor]|].
  cbn [flat_map]. rewrite replay_app. cbn [fst snd].
  destruct (Hf g x (or_introl eq_refl) Hg) as [Hg1 Hd1].
  destruct (IH (fun g y Hy => Hf g y (or_intror Hy)) _ Hg1) as [Hg2 Hd2].
  split; [exact Hg2 | apply Forall2_app; assumption].
Qed.

Lemma map_as_flat_map {A B} (f : A -> B) (l : list A) : map f l = flat_map (fun x => [f x]) l.
Proof. induction l as [|x l IH]; [reflexivity | simpl; rewrite IH; reflexivity]. Qed.

Lemma set_uniform_program (g : gpu) loc v : gpu_program (set_uniform g loc v) = gpu_program g.
Proof. unfold set_uniform. case_decide; reflexivity. Qed.

(** Setting a location changes the view there and nowhere else. *)
Lemma set_uniform_view (g : gpu) loc v l :
  loc <> (-1)%Z ->
  gpu_view (set_uniform g loc v) l = if decide (l = loc) then Some v else gpu_view g l.
Proof.
  intros Hl. unfold set_uniform, gpu_view. rewrite decide_False by exact Hl. cbn.
  case_decide as E; [subst; apply lookup_insert_eq|].
  apply lookup_insert_ne. congruence.
Qed.

Lemma set_uniform_ignored (g : gpu) v : set_uniform g (-1)%Z v = g.
Proof. unfold set_uniform. rewrite decide_True by reflexivity. reflexivity. Qed.
End Replay.

Arguments gpu : clear implicits.
Arguments draw : clear implicits.

(** ** The tiling of the specification *)

Section Tiling.
Context {R : Type} `{Num R} {G : Type}.

(** The images the specification asks for: ship by ship, vertical
    offset [i] outer, horizontal offset [j] inner. *)
Definition spec_tiles (s : Asteroids R G) : list (Asteroid R * Z * Z) :=
  flat_map (fun a => flat_map (fun i => map (fun j => (a, i, j)) tile_offsets) tile_offsets)
           (m_asteroids s).

(** The three uniform locations the code sets are distinct and exist. *)
Definition uniform_locs_ok (s : Asteroids R G) : Prop :=
  m_colorLoc s <> (-1)%Z /\ m_scaleLoc s <> (-1)%Z /\ m_translationLoc s <> (-1)%Z
  /\ m_colorLoc s <> m_scaleLoc s /\ m_colorLoc s <> m_translationLoc s
  /\ m_scaleLoc s <> m_translationLoc s.

(** A uniform the frame does not set. *)
Definition other_loc (s : Asteroids R G) (l : Z) : Prop :=
  l <> m_colorLoc s /\ l <> m_scaleLoc s /\ l <> m_translationLoc s.

(** The draw [d] renders the image [(a, i, j)]: the ship's fan, its
    colour and scale, its translation shifted by [(j, i)], and the
    values [g0] held for every other uniform. *)
Definition renders_image (s : Asteroids R G) (g0 : gpu R) (d : draw R) (img : Asteroid R * Z * Z) : Prop :=
  let '(a, i, j) := img in
  draw_vao d = m_vao a /\ draw_first d = 0%Z /\ draw_count d = (m_polygonSides a + 2)%Z
  /\ draw_uniform d (m_colorLoc s)
     = Some [vr (m_color a); vg (m_color a); vb (m_color a); va (m_color a)]
  /\ draw_uniform d (m_scaleLoc s) = Some [m_scale a]
  /\ draw_uniform d (m_translationLoc s)
     = Some [fadd (vx (m_translation a)) (fint j); fadd (vy (m_translation a)) (fint i)]
  /\ forall l, other_loc s l -> draw_uniform d l = gpu_uniforms g0 !! (m_program s, l).

(** The state between two ships: the program of the formation, and the
    uniforms the frame does not set as they were in [g0]. *)
Definition between_ships (s : Asteroids R G) (g0 : gpu R) (g : gpu R) : Prop :=
  gpu_program g = m_program s
  /\ forall l, other_loc s l -> gpu_view g l = gpu_uniforms g0 !! (m_program s, l).

(** The state while ship [a] is drawn: its colour and scale are set. *)
Definition drawing_ship (s : Asteroids R G) (g0 : gpu R) (a : Asteroid R) (g : gpu R) : Prop :=
  between_ships s g0 g
  /\ gpu_view g (m_colorLoc s) = Some [vr (m_color a); vg (m_color a); vb (m_color a); va (m_color a)]
  /\ gpu_view g (m_scaleLoc s) = Some [m_scale a].

Section Ship.
Variables (s : Asteroids R G) (g0 : gpu R).
Hypothesis Hlocs : uniform_locs_ok s.

Lemma between_set_uniform (g : gpu R) loc v :
  loc <> (-1)%Z -> ~ other_loc s loc -> between_ships s g0 g -> between_ships s g0 (set_uniform g loc v).
Proof.
  intros Hl Ho [Hp Hv]. split; [rewrite set_uniform_program; exact Hp|].
  intros l Hol. rewrite set_uniform_view by exact Hl.
  case_decide; [subst; contradiction | apply Hv, Hol].
Qed.

(** The calls of one copy: set the translation, draw. *)
Definition tile_calls (a : Asteroid R) (i j : Z) : list (gl_call R) :=
  [CallUniform2f (m_translationLoc s) (fadd (vx (m_translation a)) (fint j))
                 (fadd (vy (m_translation a)) (fint i));
   CallDrawArrays GL_TRIANGLE_FAN 0 (m_polygonSides a + 2) (m_vao a)].

Lemma paint_calls_tiles (a : Asteroid R) :
  paint_calls s a
  = [CallUniform4fv (m_colorLoc s) (vr (m_color a)) (vg (m_color a)) (vb (m_color a)) (va (m_color a));
     CallUniform1f (m_scaleLoc s) (m_scale a)]
    ++ flat_map (fun i => flat_map (tile_calls a i) tile_offsets) tile_offsets.
Proof. reflexivity. Qed.

Lemma tile_renders (a : Asteroid R) (i j : Z) (g : gpu R) :
  drawing_ship s g0 a g ->
  drawing_ship s g0 a (fst (replay g (tile_calls a i j)))
  /\ Forall2 (renders_image s g0) (snd (replay g (tile_calls a i j))) [(a, i, j)].
Proof.
  destruct Hlocs as (Hc & Hs & Ht & Hcs & Hct & Hst).
  intros (Hb & Hcol & Hsc). unfold tile_calls. cbn [replay gpu_step fst snd app].
  set (g' := set_uniform g _ _).
  assert (Hview : forall l, gpu_view g' l
            = if decide (l = m_translationLoc s) then Some [fadd (vx (m_translation a)) (fint j);
                                                           fadd (vy (m_translation a)) (fint i)]
              else gpu_view g l) by (intros l; apply set_uniform_view, Ht).
  assert (Hb' : between_ships s g0 g')
    by (apply between_set_uniform; [exact Ht | intros (_ & _ & E); exact (E eq_refl) | exact Hb]).
  split.
  - split; [exact Hb'|]. rewrite !Hview, !decide_False by assumption. split; assumption.
  - constructor; [|constructor]. cbn [renders_image draw_vao draw_first draw_count draw_uniform].
    repeat split; try reflexivity.
    + rewrite Hview, decide_False by exact Hct. exact Hcol.
    + rewrite Hview, decide_False by exact Hst. exact Hsc.
    + rewrite Hview, decide_True by reflexivity. reflexivity.
    + intros l Hl. apply (proj2 Hb'), Hl.
Qed.

(** One ship: colour, scale, then the nine copies. *)
Lemma ship_renders (a : Asteroid R) (g : gpu R) :
  between_ships s g0 g ->
  between_ships s g0 (fst (replay g (paint_calls s a)))
  /\ Forall2 (renders_image s g0) (snd (replay g (paint_calls s a)))
             (flat_map (fun i => map (fun j => (a, i, j)) tile_offsets) tile_offsets).
Proof.
  destruct Hlocs as (Hc & Hs & Ht & Hcs & Hct & Hst).
  intros Hb. rewrite paint_calls_tiles, replay_app. cbn [replay gpu_step fst snd app].
  set (g1 := set_uniform (set_uniform g _ _) _ _).
  assert (Hd : drawing_ship s g0 a g1).
  { split; [apply between_set_uniform; [exact Hs | intros (_ & E & _); exact (E eq_refl)|];
            apply between_set_uniform; [exact Hc | intros (E & _); exact (E eq_refl) | exact Hb]|].
    unfold g1. rewrite !set_uniform_view by assumption.
    rewrite decide_False by exact Hcs. rewrite !decide_True by reflexivity. split; reflexivity. }
  assert (Hrow : forall g2 i, In i tile_offsets -> drawing_ship s g0 a g2 ->
            drawing_ship s g0 a (fst (replay g2 (flat_map (tile_calls a i) tile_offsets)))
            /\ Forall2 (renders_image s g0) (snd (replay g2 (flat_map (tile_calls a i) tile_offsets)))
                       (map (fun j => (a, i, j)) tile_offsets)).
  { intros g2 i _ Hg2. rewrite map_as_flat_map.
    apply (replay_flat_map (drawing_ship s g0 a) (renders_image s g0)); [|exact Hg2].
    intros g3 j _ Hg3. apply tile_renders, Hg3. }
  destruct (replay_flat_map _ _ _ _ _ Hrow g1 Hd) as [Hend Hdraws].
  split; [apply Hend | exact Hdraws].
Qed.
End Ship.
End Tiling.

(** ** A whole frame *)

Section FrameLemmas.
Context {R : Type} `{Num R} {G : Type}.

(** The commands of a frame of [paintGL], after the log before it. *)
Definition frame_calls (s : Asteroids R G) : list (gl_call R) :=
  [CallUseProgram (m_program s)] ++ flat_map (paint_calls s) (m_asteroids s) ++ [CallUseProgram 0].

Lemma paintGL_frame_calls (s : Asteroids R G) (gl : gl_state R) :
  Forall (paint_ready gl) (m_asteroids s) -> gl_log (paintGL s gl) = gl_log gl ++ frame_calls s.
Proof. intros Hl. apply (paintGL_log_spec s gl Hl). Qed.

(** The draws of a frame, through its three parts. *)
Lemma replay_frame (s : Asteroids R G) (g0 : gpu R) :
  snd (replay g0 (frame_calls s))
  = snd (replay (mkGPU (m_program s) (gpu_uniforms g0)) (flat_map (paint_calls s) (m_asteroids s))).
Proof.
  unfold frame_calls. rewrite replay_app. cbn [replay gpu_step fst snd app].
  rewrite replay_app. cbn [replay gpu_step fst snd]. rewrite !app_nil_r. reflexivity.
Qed.

Lemma paintGL_renders_tiling_spec (s : Asteroids R G) (gl : gl_state R) (g0 : gpu R) :
  Forall (paint_ready gl) (m_asteroids s) -> uniform_locs_ok s ->
  gl_log (paintGL s gl) = gl_log gl ++ frame_calls s
  /\ Forall2 (renders_image s g0) (snd (replay g0 (frame_calls s))) (spec_tiles s).
Proof.
  intros Hl Hlocs. split; [apply paintGL_frame_calls, Hl|]. rewrite replay_frame.
  apply (replay_flat_map (between_ships s g0) (renders_image s g0)).
  - intros g a _ Hg. apply (ship_renders s g0 Hlocs a g Hg).
  - split; [reflexivity | intros l _; reflexivity].
Qed.

(** A stream keeps an invariant of the GPU state, and all its draws
    satisfy [P], when every command of it does. *)
Lemma replay_Forall (I : gpu R -> Prop) (P : draw R -> Prop) (cs : list (gl_call R)) :
  (forall g c, In c cs -> I g -> I (fst (gpu_step g c)) /\ Forall P (snd (gpu_step g c))) ->
  forall g, I g -> I (fst (replay g cs)) /\ Forall P (snd (replay g cs)).
Proof.
  intros Hc. induction cs as [|c cs IH]; intros g Hg; [split; [exact Hg | constructor]|]. simpl.
  destruct (Hc g c (or_introl eq_refl) Hg) as [Hg1 Hd1].
  destruct (gpu_step g c) as [g1 d1] eqn:E. simpl in Hg1, Hd1.
  destruct (IH (fun g c' Hc' => Hc g c' (or_intror Hc')) g1 Hg1) as [Hg2 Hd2].
  destruct (replay g1 cs) as [g2 d2]. split; [exact Hg2 | apply Forall_app; split; assumption].
Qed.

(** A stream renders one draw per draw call. *)
Lemma replay_draw_count (g : gpu R) (cs : list (gl_call R)) :
  length (snd (replay g cs)) = length (filter is_draw cs).
Proof.
  revert g. induction cs as [|c cs IH]; intros g; [reflexivity|]. simpl.
  destruct (gpu_step g c) as [g1 d1] eqn:Es. pose proof (IH g1) as Hl.
  destruct (replay g1 cs) as [g2 d2]. simpl in Hl |- *. rewrite length_app, Hl.
  destruct c; injection Es as <- <-; reflexivity.
Qed.
End FrameLemmas.

Section FrameClaims.
Context {R : Type} `{Num R} {G : Type}.

Lemma set_uniform_view_other (g : gpu R) loc v l :
  l <> loc -> gpu_view (set_uniform g loc v) l = gpu_view g l.
Proof.
  intros Hl. unfold set_uniform, gpu_view. case_decide; [reflexivity|].
  cbn. apply lookup_insert_ne. congruence.
Qed.

Lemma paint_frame_draws (s : Asteroids R G) (l : list (Asteroid R)) :
  length (filter is_draw (flat_map (paint_calls s) l)) = (9 * length l)%nat.
Proof.
  induction l as [|a l IH]; [reflexivity|]. cbn [flat_map].
  rewrite filter_app, length_app, paint_calls_draws, IH. simpl. lia.
Qed.

(** C24: Asteroids::paintGL refines the rendering contract of the specification (section 4.3): when every ship's vertex array is live and nonzero and the colour, scale and translation uniforms have distinct locations, the draws of the frame, read with the uniform semantics of OpenGL (per-program values, set by glUniform and kept until set again), are exactly the 3 x 3 tiling of every ship, one draw per image in the order ship, vertical offset, horizontal offset: the ship's 16-point fan of m_polygonSides + 2 vertices, its colour and scale, its translation shifted by (j, i) in {-2, 0, 2}^2, and for every other uniform (the rotation among them) the value it had before the frame. *)
Theorem paintGL_renders_tiling (s : Asteroids R G) (gl : gl_state R) (g0 : gpu R) :
  Forall (paint_ready gl) (m_asteroids s) -> uniform_locs_ok s ->
  gl_log (paintGL s gl) = gl_log gl ++ frame_calls s
  /\ Forall2 (renders_image s g0) (snd (replay g0 (frame_calls s))) (spec_tiles s).
Proof. apply paintGL_renders_tiling_spec. Qed.

(** C25: When the program has no uniform translation (glGetUniformLocation returned -1), OpenGL silently ignores every glUniform2f of paintGL: the frame still issues nine draws per ship, but no draw receives any position, since at every location other than the colour and scale ones every draw sees the value the program held before the frame; all copies of all ships are drawn at one place. *)
Theorem paintGL_without_translation (s : Asteroids R G) (gl : gl_state R) (g0 : gpu R) :
  m_translationLoc s = (-1)%Z -> Forall (paint_ready gl) (m_asteroids s) ->
  gl_log (paintGL s gl) = gl_log gl ++ frame_calls s
  /\ length (snd (replay g0 (frame_calls s))) = (9 * length (m_asteroids s))%nat
  /\ Forall (fun d => forall l, l <> m_colorLoc s -> l <> m_scaleLoc s ->
                       draw_uniform d l = gpu_uniforms g0 !! (m_program s, l))
            (snd (replay g0 (frame_calls s))).
Proof.
  intros Ht Hl. split; [apply paintGL_frame_calls, Hl|]. split.
  - rewrite replay_draw_count. unfold frame_calls. rewrite !filter_app, !length_app, paint_frame_draws.
    simpl. lia.
  - rewrite replay_frame.
    apply (replay_Forall (fun g => gpu_program g = m_program s
                                   /\ forall l, l <> m_colorLoc s -> l <> m_scaleLoc s ->
                                      gpu_view g l = gpu_uniforms g0 !! (m_program s, l))); [|split; auto].
    intros g c Hin [Hp Hv]. apply in_flat_map in Hin as (a & _ & Hin).
    simpl in Hin. repeat destruct Hin as [<-|Hin]; try contradiction; cbn [gpu_step fst snd];
      first [ split; [|constructor; [exact Hv | constructor]]; split; [exact Hp | exact Hv]
            | rewrite Ht, set_uniform_ignored; split; [split; [exact Hp | exact Hv] | constructor]
            | split; [|constructor]; split; [rewrite set_uniform_program; exact Hp|];
              intros l Hc Hs; rewrite set_uniform_view_other by assumption; apply Hv; assumption ].
Qed.
End FrameClaims.

(** ** Frames of a built formation *)

(** A program whose uniforms [color], [scale], [translation] and
    [rotation] sit at locations 0 to 3, and one that lacks
    [translation]. *)
Definition shader_locs (translation : Z) (p : N) (name : string) : Z :=
  if String.eqb name "color" then 0%Z
  else if String.eqb name "scale" then 1%Z
  else if String.eqb name "translation" then translation
  else if String.eqb name "rotation" then 3%Z else (-1)%Z.

Definition built_with (translation : Z) : Asteroids Q Z * gl_state Q :=
  initializeGL 1 42 (asteroids_of_size 2) (gl_initial (shader_locs translation) (fun _ _ => 0%Z)).

(** The ships of a built formation can be drawn. *)
Ltac paint_ready_by_eval :=
  vm_compute; repeat (apply Forall_cons || apply Forall_nil || split);
  first [discriminate | eexists; reflexivity].

Lemma paintGL_renders_tiling_witness :
  Forall (paint_ready (snd (built_with 2))) (m_asteroids (fst (built_with 2)))
  /\ uniform_locs_ok (fst (built_with 2))
  /\ gl_log (paintGL (fst (built_with 2)) (snd (built_with 2)))
     = gl_log (snd (built_with 2)) ++ frame_calls (fst (built_with 2))
  /\ Forall2 (renders_image (fst (built_with 2)) (mkGPU 0 ∅))
             (snd (replay (mkGPU 0 ∅) (frame_calls (fst (built_with 2))))) (spec_tiles (fst (built_with 2))).
Proof.
  assert (Hr : Forall (paint_ready (snd (built_with 2))) (m_asteroids (fst (built_with 2))))
    by paint_ready_by_eval.
  assert (Hl : uniform_locs_ok (fst (built_with 2))) by (vm_compute; repeat split; discriminate).
  split; [exact Hr|]. split; [exact Hl|].
  exact (paintGL_renders_tiling (fst (built_with 2)) (snd (built_with 2)) (mkGPU 0 ∅) Hr Hl).
Defined.

Lemma paintGL_without_translation_witness :
  m_translationLoc (fst (built_with (-1))) = (-1)%Z
  /\ Forall (paint_ready (snd (built_with (-1)))) (m_asteroids (fst (built_with (-1))))
  /\ (gl_log (paintGL (fst (built_with (-1))) (snd (built_with (-1))))
       = gl_log (snd (built_with (-1))) ++ frame_calls (fst (built_with (-1)))
      /\ length (snd (replay (mkGPU 0 ∅) (frame_calls (fst (built_with (-1))))))
         = (9 * length (m_asteroids (fst (built_with (-1)))))%nat
      /\ Forall (fun d => forall l, l <> m_colorLoc (fst (built_with (-1))) ->
                          l <> m_scaleLoc (fst (built_with (-1))) ->
                          draw_uniform d l = gpu_uniforms (mkGPU 0 ∅) !! (m_program (fst (built_with (-1))), l))
               (snd (replay (mkGPU 0 ∅) (frame_calls (fst (built_with (-1))))))).
Proof.
  assert (Ht : m_translationLoc (fst (built_with (-1))) = (-1)%Z) by (vm_compute; reflexivity).
  assert (Hr : Forall (paint_ready (snd (built_with (-1)))) (m_asteroids (fst (built_with (-1)))))
    by paint_ready_by_eval.
  split; [exact Ht|]. split; [exact Hr|].
  exact (paintGL_without_translation (fst (built_with (-1))) (snd (built_with (-1))) (mkGPU 0 ∅) Ht Hr).
Defined.
